(** * OCI layout tools of flatpak-oci-test-content

    A shallow embedding of [install-oci.py] and [make-test-content.py]:
    the JSON documents of an OCI image layout, the file system the two
    scripts read and write, the single-arch projection done before
    installing ([make_single_arch_copy], [Installer._install_from_path])
    and the multi-arch composer ([make_multiarch_image]). *)

From Stdlib Require Import ZArith Lia List Ascii String Bool DecimalString.
From stdpp Require Import base option list strings gmap.

Set Warnings "-register-all".
Local Open Scope Z_scope.

(** ** Python values *)

(** What [json.load] returns: [None], [bool], [int], [str], [list] and
    [dict].  A [dict] keeps insertion order, so it is an association
    list; [float] does not occur in the documents of an image layout and
    is left out.  A [str] is modelled by a Rocq string, one character per
    code point below 256. *)
Inductive json : Type :=
| JNull
| JBool (b : bool)
| JNum (n : Z)
| JStr (s : string)
| JArr (l : list json)
| JObj (d : list (string * json)).

(** An exception, identified by the name of its class. *)
Inductive exn : Type := Exn (cls : string).

Inductive result (A : Type) : Type :=
| Ok (a : A)
| Raise (e : exn).
Arguments Ok {A} a.
Arguments Raise {A} e.

Definition AssertionError := Exn "AssertionError".
Definition AttributeError := Exn "AttributeError".
Definition KeyError := Exn "KeyError".
Definition IndexError := Exn "IndexError".
Definition TypeError := Exn "TypeError".
Definition RuntimeError := Exn "RuntimeError".
Definition RecursionError := Exn "RecursionError".
Definition JSONDecodeError := Exn "JSONDecodeError".
Definition CalledProcessError := Exn "CalledProcessError".
Definition FileNotFoundError := Exn "FileNotFoundError".
Definition FileExistsError := Exn "FileExistsError".
Definition IsADirectoryError := Exn "IsADirectoryError".
Definition NotADirectoryError := Exn "NotADirectoryError".
Definition SameFileError := Exn "SameFileError".

Definition rbind {A B} (r : result A) (k : A -> result B) : result B :=
  match r with
  | Ok a => k a
  | Raise e => Raise e
  end.

Declare Scope py_scope.
Delimit Scope py_scope with py.
Notation "x <~ r ; k" := (rbind r (fun x => k))
  (at level 100, r at next level, right associativity) : py_scope.

(** *** Strings *)

Fixpoint str_drop (n : nat) (s : string) : string :=
  match n, s with
  | O, _ => s
  | S n', String _ s' => str_drop n' s'
  | S _, EmptyString => EmptyString
  end.

Fixpoint str_take (n : nat) (s : string) : string :=
  match n, s with
  | O, _ => EmptyString
  | S n', String c s' => String c (str_take n' s')
  | S _, EmptyString => EmptyString
  end.

(** [s.startswith(p)] *)
Fixpoint startswith (p s : string) : bool :=
  match p, s with
  | EmptyString, _ => true
  | String a p', String b s' => Ascii.eqb a b && startswith p' s'
  | String _ _, EmptyString => false
  end.

(** [s.endswith("/")] *)
Fixpoint ends_with_slash (s : string) : bool :=
  match s with
  | EmptyString => false
  | String c EmptyString => Ascii.eqb c "/"
  | String _ s' => ends_with_slash s'
  end.

(** *** Dictionaries *)

Fixpoint dict_get (d : list (string * json)) (k : string) : option json :=
  match d with
  | [] => None
  | (k', v) :: d' => if String.eqb k' k then Some v else dict_get d' k
  end.

(** [d[k] = v]: an existing key keeps its position, a new one goes last. *)
Fixpoint dict_set (d : list (string * json)) (k : string) (v : json)
  : list (string * json) :=
  match d with
  | [] => [(k, v)]
  | (k', v') :: d' =>
      if String.eqb k' k then (k', v) :: d' else (k', v') :: dict_set d' k v
  end.

(** [o[k]] for a string key [k]. *)
Definition py_getitem (o : json) (k : string) : result json :=
  match o with
  | JObj d => match dict_get d k with
              | Some v => Ok v
              | None => Raise KeyError
              end
  | _ => Raise TypeError
  end.

(** [o[0]]: the first element of a list, the first character of a
    string; a [dict] from JSON has no integer key. *)
Definition py_getitem0 (o : json) : result json :=
  match o with
  | JArr (x :: _) => Ok x
  | JArr [] => Raise IndexError
  | JStr (String c _) => Ok (JStr (String c EmptyString))
  | JStr EmptyString => Raise IndexError
  | JObj _ => Raise KeyError
  | _ => Raise TypeError
  end.

(** [o[k] = v] *)
Definition py_setitem (o : json) (k : string) (v : json) : result json :=
  match o with
  | JObj d => Ok (JObj (dict_set d k v))
  | _ => Raise TypeError
  end.

(** [o.get(k, default)] *)
Definition py_get (o : json) (k : string) (default : json) : result json :=
  match o with
  | JObj d => match dict_get d k with
              | Some v => Ok v
              | None => Ok default
              end
  | _ => Raise AttributeError
  end.

(** [dict(o)], a shallow copy.  The scripts call it on a value they
    have subscripted with a string key before, hence on a dict. *)
Definition py_dict (o : json) : result json :=
  match o with
  | JObj d => Ok (JObj d)
  | _ => Raise TypeError
  end.

Fixpoint str_chars (s : string) : list json :=
  match s with
  | EmptyString => []
  | String c s' => JStr (String c EmptyString) :: str_chars s'
  end.

(** [for x in o]: the elements of a list, the keys of a dict, the
    characters of a string. *)
Definition py_iter (o : json) : result (list json) :=
  match o with
  | JArr l => Ok l
  | JObj d => Ok (map (fun kv => JStr (fst kv)) d)
  | JStr s => Ok (str_chars s)
  | _ => Raise TypeError
  end.

Definition num_of_bool (b : bool) : Z := if b then 1 else 0.

(** [a == b].  Booleans compare as the integers 0 and 1, lists
    element by element, dicts as maps (the order of the keys is
    immaterial). *)
Fixpoint py_eq (a b : json) : bool :=
  match a, b with
  | JNull, JNull => true
  | JBool x, JBool y => Z.eqb (num_of_bool x) (num_of_bool y)
  | JBool x, JNum y => Z.eqb (num_of_bool x) y
  | JNum x, JBool y => Z.eqb x (num_of_bool y)
  | JNum x, JNum y => Z.eqb x y
  | JStr s, JStr t => String.eqb s t
  | JArr l, JArr m =>
      (fix all2 (l m : list json) : bool :=
         match l, m with
         | [], [] => true
         | x :: l', y :: m' => py_eq x y && all2 l' m'
         | _, _ => false
         end) l m
  | JObj d, JObj e =>
      Nat.eqb (length d) (length e) &&
      (fix sub (d : list (string * json)) : bool :=
         match d with
         | [] => true
         | (k, v) :: d' =>
             match dict_get e k with
             | Some v' => py_eq v v' && sub d'
             | None => false
             end
         end) d
  | _, _ => false
  end.

(** ** Paths *)

(** A [pathlib.Path] is modelled by its string, the current directory
    [Path('.')] by the empty string, and paths are compared as text: no
    symbolic links, and [..] is an ordinary name. *)

(** [s.split('/')] *)
Fixpoint split_slash (s : string) : list string :=
  match s with
  | EmptyString => [EmptyString]
  | String c s' =>
      if Ascii.eqb c "/" then EmptyString :: split_slash s'
      else match split_slash s' with
           | x :: l => String c x :: l
           | [] => [String c EmptyString]
           end
  end.

(** One step of [os.path.join]. *)
Definition join2 (path b : string) : string :=
  if startswith "/" b then b
  else if String.eqb path "" || ends_with_slash path then path +:+ b
  else path +:+ "/" +:+ b.

(** [os.path.join(a, *p)] *)
Definition os_path_join (a : string) (p : list string) : string :=
  fold_left join2 p a.

(** The parts [pathlib] keeps of a path: the texts between slashes,
    without the empty ones and without [.]. *)
Definition path_part (x : string) : bool :=
  negb (String.eqb x "") && negb (String.eqb x ".").

Definition path_parts (s : string) : list string :=
  List.filter path_part (split_slash s).

(** ["/".join(parts)] *)
Fixpoint join_slash (parts : list string) : string :=
  match parts with
  | [] => EmptyString
  | [x] => x
  | x :: rest => x +:+ "/" +:+ join_slash rest
  end.

(** The root of a path: two leading slashes are kept, three or more
    are one. *)
Definition path_root (s : string) : string :=
  match s with
  | String "/" (String "/" (String "/" _)) => "/"
  | String "/" (String "/" _) => "//"
  | String "/" _ => "/"
  | _ => EmptyString
  end.

(** [str(Path(s))] *)
Definition Path (s : string) : string :=
  let p := path_root s +:+ join_slash (path_parts s) in
  if String.eqb p "" then "." else p.

(** [a / b] of [pathlib], for the path [a] and any string [b]: an
    absolute [b] replaces [a], and the parts of a relative [b] are
    appended. *)
Definition path_div (a b : string) : string :=
  if startswith "/" b then Path b
  else match path_parts b with
       | [] => a
       | parts => join2 a (join_slash parts)
       end.
Infix "//" := path_div (at level 40, left associativity) : py_scope.

(** The text before the last ["/"] of [p] and the text after it. *)
Fixpoint split_last (p : string) : option string * string :=
  match p with
  | EmptyString => (None, EmptyString)
  | String c p' =>
      match split_last p' with
      | (Some d, n) => (Some (String c d), n)
      | (None, n) =>
          if Ascii.eqb c "/" then (Some EmptyString, n) else (None, String c n)
      end
  end.

Definition dirname (p : string) : string :=
  match fst (split_last p) with
  | Some d => d
  | None => EmptyString
  end.

(** [Path(p).name] *)
Definition basename (p : string) : string := snd (split_last p).

(** The directories above [p]: every [d] with [p = d ++ "/" ++ rest]. *)
Fixpoint ancestors (p : string) : list string :=
  match p with
  | EmptyString => []
  | String c p' =>
      (if Ascii.eqb c "/" then [EmptyString] else []) ++
      map (String c) (ancestors p')
  end.

(** ** [json.dumps(obj, indent=4)] *)

Definition hex_digit (n : Z) : ascii :=
  ascii_of_nat (Z.to_nat (if n <? 10 then 48 + n else 87 + n)).

Definition code (c : ascii) : Z := Z.of_nat (nat_of_ascii c).

(** The escape of one character under [ensure_ascii]. *)
Definition escape_char (c : ascii) : string :=
  let n := code c in
  if n =? 34 then "\" +:+ String c ""
  else if n =? 92 then "\\"
  else if n =? 10 then "\n"
  else if n =? 13 then "\r"
  else if n =? 9 then "\t"
  else if n =? 8 then "\b"
  else if n =? 12 then "\f"
  else if (32 <=? n) && (n <=? 126) then String c ""
  else "\u00" +:+ String (hex_digit (n / 16)) (String (hex_digit (n mod 16)) "").

Definition dquote : string := String (ascii_of_nat 34) "".

Fixpoint escape (s : string) : string :=
  match s with
  | EmptyString => EmptyString
  | String c s' => escape_char c +:+ escape s'
  end.

Definition quote (s : string) : string := dquote +:+ escape s +:+ dquote.

(** [str(n)] for an [int]. *)
Definition dec (n : Z) : string := NilZero.string_of_int (Z.to_int n).

Fixpoint spaces (n : nat) : string :=
  match n with
  | O => EmptyString
  | S n' => String " " (spaces n')
  end.

(** A line break followed by the indentation of nesting level [lvl]. *)
Definition newline_indent (lvl : nat) : string :=
  String (ascii_of_nat 10) (spaces (4 * lvl)).

Fixpoint dumps_at (lvl : nat) (j : json) : string :=
  match j with
  | JNull => "null"
  | JBool true => "true"
  | JBool false => "false"
  | JNum n => dec n
  | JStr s => quote s
  | JArr [] => "[]"
  | JArr (x :: l) =>
      "[" +:+ newline_indent (S lvl) +:+ dumps_at (S lvl) x +:+
      (fix items (l : list json) : string :=
         match l with
         | [] => EmptyString
         | y :: l' =>
             "," +:+ newline_indent (S lvl) +:+ dumps_at (S lvl) y +:+ items l'
         end) l +:+
      newline_indent lvl +:+ "]"
  | JObj [] => "{}"
  | JObj ((k, v) :: d) =>
      "{" +:+ newline_indent (S lvl) +:+ quote k +:+ ": " +:+
      dumps_at (S lvl) v +:+
      (fix items (d : list (string * json)) : string :=
         match d with
         | [] => EmptyString
         | (k', v') :: d' =>
             "," +:+ newline_indent (S lvl) +:+ quote k' +:+ ": " +:+
             dumps_at (S lvl) v' +:+ items d'
         end) d +:+
      newline_indent lvl +:+ "}"
  end.

Definition json_dumps (j : json) : string := dumps_at 0 j.

(** ** [hashlib.sha256] *)

Module Sha256.

(** The low 32 bits of [x]. *)
Definition w32 (x : Z) : Z := Z.land x 4294967295.
Definition add32 (x y : Z) : Z := w32 (x + y).
Definition rotr (n x : Z) : Z :=
  Z.lor (Z.shiftr x n) (w32 (Z.shiftl x (32 - n))).

Definition ch (x y z : Z) : Z :=
  Z.lxor (Z.land x y) (Z.land (Z.lxor x 4294967295) z).
Definition maj (x y z : Z) : Z :=
  Z.lxor (Z.lxor (Z.land x y) (Z.land x z)) (Z.land y z).
Definition bsig0 (x : Z) : Z :=
  Z.lxor (Z.lxor (rotr 2 x) (rotr 13 x)) (rotr 22 x).
Definition bsig1 (x : Z) : Z :=
  Z.lxor (Z.lxor (rotr 6 x) (rotr 11 x)) (rotr 25 x).
Definition ssig0 (x : Z) : Z :=
  Z.lxor (Z.lxor (rotr 7 x) (rotr 18 x)) (Z.shiftr x 3).
Definition ssig1 (x : Z) : Z :=
  Z.lxor (Z.lxor (rotr 17 x) (rotr 19 x)) (Z.shiftr x 10).

(** The round constants of FIPS 180-4 (the first 32 bits of the
    fractional parts of the cube roots of the first 64 primes), written
    in decimal. *)
Definition round_constants : list Z :=
  [
    1116352408; 1899447441; 3049323471; 3921009573; 961987163; 1508970993;
    2453635748; 2870763221; 3624381080; 310598401; 607225278; 1426881987;
    1925078388; 2162078206; 2614888103; 3248222580; 3835390401; 4022224774;
    264347078; 604807628; 770255983; 1249150122; 1555081692; 1996064986;
    2554220882; 2821834349; 2952996808; 3210313671; 3336571891; 3584528711;
    113926993; 338241895; 666307205; 773529912; 1294757372; 1396182291;
    1695183700; 1986661051; 2177026350; 2456956037; 2730485921; 2820302411;
    3259730800; 3345764771; 3516065817; 3600352804; 4094571909; 275423344;
    430227734; 506948616; 659060556; 883997877; 958139571; 1322822218;
    1537002063; 1747873779; 1955562222; 2024104815; 2227730452; 2361852424;
    2428436474; 2756734187; 3204031479; 3329325298 ].

(** The message followed by the bit 1, zeros up to 56 modulo 64 bytes
    and the length in bits on 8 bytes, big-endian. *)
Definition be_bytes (k : nat) (x : Z) : list Z :=
  map (fun i => Z.shiftr x (8 * Z.of_nat i) mod 256) (rev (seq 0 k)).

Definition pad (msg : list Z) : list Z :=
  let len := Z.of_nat (length msg) in
  let zeros := Z.to_nat ((55 - len) mod 64) in
  msg ++ [128] ++ repeat 0 zeros ++ be_bytes 8 (8 * len).

Fixpoint be_word (bs : list Z) (acc : Z) : Z :=
  match bs with
  | [] => acc
  | b :: bs' => be_word bs' (acc * 256 + b)
  end.

(** The big-endian 32-bit words of a byte sequence. *)
Fixpoint words (fuel : nat) (bs : list Z) : list Z :=
  match fuel, bs with
  | S fuel', _ :: _ => be_word (firstn 4 bs) 0 :: words fuel' (skipn 4 bs)
  | _, _ => []
  end.

(** The message schedule, most recent word first. *)
Fixpoint schedule (n : nat) (rev_w : list Z) : list Z :=
  match n with
  | O => rev_w
  | S n' =>
      let w2 := nth 1 rev_w 0 in
      let w7 := nth 6 rev_w 0 in
      let w15 := nth 14 rev_w 0 in
      let w16 := nth 15 rev_w 0 in
      schedule n'
        (add32 (add32 (ssig1 w2) w7) (add32 (ssig0 w15) w16) :: rev_w)
  end.

Definition state : Type := Z * Z * Z * Z * Z * Z * Z * Z.

(** The initial hash value (from the square roots of the first 8
    primes), in decimal. *)
Definition initial_hash : state :=
  (1779033703, 3144134277, 1013904242, 2773480762,
   1359893119, 2600822924, 528734635, 1541459225).

Definition round (s : state) (kw : Z * Z) : state :=
  let '(a, b, c, d, e, f, g, h) := s in
  let t1 := add32 (add32 (add32 h (bsig1 e)) (add32 (ch e f g) (fst kw)))
                  (snd kw) in
  let t2 := add32 (bsig0 a) (maj a b c) in
  (add32 t1 t2, a, b, c, add32 d t1, e, f, g).

Definition compress (s : state) (block : list Z) : state :=
  let ws := rev (schedule 48 (rev block)) in
  let '(a, b, c, d, e, f, g, h) :=
    fold_left round (combine round_constants ws) s in
  let '(a0, b0, c0, d0, e0, f0, g0, h0) := s in
  (add32 a0 a, add32 b0 b, add32 c0 c, add32 d0 d,
   add32 e0 e, add32 f0 f, add32 g0 g, add32 h0 h).

Fixpoint blocks (fuel : nat) (ws : list Z) (s : state) : state :=
  match fuel, ws with
  | S fuel', _ :: _ => blocks fuel' (skipn 16 ws) (compress s (firstn 16 ws))
  | _, _ => s
  end.

Definition digest (msg : string) : state :=
  let bs := pad (map code (list_ascii_of_string msg)) in
  let ws := words (length bs) bs in
  blocks (length ws) ws initial_hash.

Definition hex_byte (b : Z) (rest : string) : string :=
  String (hex_digit (b / 16 mod 16)) (String (hex_digit (b mod 16)) rest).

Definition hex_word (x : Z) (rest : string) : string :=
  hex_byte (Z.shiftr x 24) (hex_byte (Z.shiftr x 16)
    (hex_byte (Z.shiftr x 8) (hex_byte x rest))).

(** [hashlib.sha256(msg).hexdigest()] *)
Definition hexdigest (msg : string) : string :=
  let '(a, b, c, d, e, f, g, h) := digest msg in
  hex_word a (hex_word b (hex_word c (hex_word d
    (hex_word e (hex_word f (hex_word g (hex_word h ""))))))).

End Sha256.

(** ** The file system and the external tools *)

(** A path names a regular file with its bytes, or a directory. *)
Inductive node : Type :=
| File (content : string)
| Dir.

(** The scripts run against the files and leave a log of the commands
    they have started. *)
Record world : Type := World {
  fs : gmap string node;
  trace : list (list string)
}.

(** What the scripts take from outside: the JSON parser of the standard
    library ([None] when it rejects the text), the programs started with
    [subprocess] (the files they leave and, when the exit status is 0,
    their standard output) and the name [tempfile] picks for a new
    directory. *)
Class Environment : Type := {
  json_loads : string -> option json;
  run_command : list string -> gmap string node -> gmap string node * option string;
  mkdtemp : gmap string node -> string
}.

(** Computations that change the world and return or raise. *)
Definition M (A : Type) : Type := world -> world * result A.

Definition ret {A} (a : A) : M A := fun w => (w, Ok a).
Definition raise {A} (e : exn) : M A := fun w => (w, Raise e).
Definition lift {A} (r : result A) : M A := fun w => (w, r).
Definition bind {A B} (m : M A) (k : A -> M B) : M B :=
  fun w =>
    match m w with
    | (w', Ok a) => k a w'
    | (w', Raise e) => (w', Raise e)
    end.

Notation "x <- m ;; k" := (bind m (fun x => k))
  (at level 100, m at next level, right associativity) : py_scope.
Notation "m ;; k" := (bind m (fun _ => k))
  (at level 100, right associativity) : py_scope.

Local Open Scope py_scope.

Definition is_dir (f : gmap string node) (d : string) : bool :=
  match f !! d with
  | Some Dir => true
  | Some (File _) => false
  | None => String.eqb d ""
  end.

(** [p] lies below the directory [d]. *)
Definition under (d p : string) : bool := startswith (d +:+ "/") p.

(** [open(p).read()] *)
Definition read_file (p : string) : M string :=
  fun w =>
    match fs w !! p with
    | Some (File c) => (w, Ok c)
    | Some Dir => (w, Raise IsADirectoryError)
    | None => (w, Raise FileNotFoundError)
    end.

Definition put (p : string) (n : node) (w : world) : world :=
  World (<[p := n]> (fs w)) (trace w).

(** [open(p, "w").write(c)] *)
Definition write_file (p c : string) : M unit :=
  fun w =>
    match fs w !! p with
    | Some Dir => (w, Raise IsADirectoryError)
    | Some (File _) => (put p (File c) w, Ok tt)
    | None =>
        match fs w !! dirname p with
        | Some (File _) => (w, Raise NotADirectoryError)
        | _ =>
            if is_dir (fs w) (dirname p) then (put p (File c) w, Ok tt)
            else (w, Raise FileNotFoundError)
        end
    end.

(** [shutil.copyfile(src, dst)] *)
Definition copyfile (src dst : string) : M unit :=
  fun w =>
    if String.eqb src dst && bool_decide (is_Some (fs w !! src))
    then (w, Raise SameFileError)
    else (c <- read_file src ;; write_file dst c) w.

(** [p.exists()] *)
Definition path_exists (p : string) : M bool :=
  fun w => (w, Ok (bool_decide (is_Some (fs w !! p)))).

Definition remove_tree (d : string) (f : gmap string node) : gmap string node :=
  filter (fun kv => kv.1 <> d /\ under d kv.1 = false) f.

(** [shutil.rmtree(d)] *)
Definition rmtree (d : string) : M unit :=
  fun w =>
    match fs w !! d with
    | Some Dir => (World (remove_tree d (fs w)) (trace w), Ok tt)
    | Some (File _) => (w, Raise NotADirectoryError)
    | None => (w, Raise FileNotFoundError)
    end.

Definition make_dir (f : gmap string node) (d : string) : gmap string node :=
  match f !! d with
  | Some _ => f
  | None => if String.eqb d "" then f else <[d := Dir]> f
  end.

(** [d.mkdir(parents=True)] *)
Definition mkdir_parents (d : string) : M unit :=
  fun w =>
    if bool_decide (is_Some (fs w !! d)) then (w, Raise FileExistsError)
    else if existsb (fun a => match fs w !! a with
                              | Some (File _) => true
                              | _ => false
                              end) (ancestors d)
    then (w, Raise NotADirectoryError)
    else (World (fold_left make_dir (ancestors d ++ [d]) (fs w)) (trace w), Ok tt).

(** [d.iterdir()]: the paths directly inside [d].  The order is the
    file system's; the model takes the one of the set of paths. *)
Definition iterdir (d : string) : M (list string) :=
  fun w =>
    match fs w !! d with
    | Some Dir =>
        (w, Ok (elements (filter (fun p => fst (split_last p) = Some d)
                                 (dom (fs w)))))
    | Some (File _) => (w, Raise NotADirectoryError)
    | None => (w, Raise FileNotFoundError)
    end.

(** [for x in l: body(x)] *)
Fixpoint for_each {A} (l : list A) (body : A -> M unit) : M unit :=
  match l with
  | [] => ret tt
  | x :: l' => body x ;; for_each l' body
  end.

Section Programs.
Context {env : Environment}.

(** [json.load(open(p))] *)
Definition load_json (p : string) : M json :=
  c <- read_file p ;;
  match json_loads c with
  | Some j => ret j
  | None => raise JSONDecodeError
  end.

(** [subprocess.check_call(argv)] *)
Definition check_call (argv : list string) : M unit :=
  fun w =>
    let (f, out) := run_command argv (fs w) in
    (World f (trace w ++ [argv]),
     match out with
     | Some _ => Ok tt
     | None => Raise CalledProcessError
     end).

(** [subprocess.check_output(argv)] *)
Definition check_output (argv : list string) : M string :=
  fun w =>
    let (f, out) := run_command argv (fs w) in
    (World f (trace w ++ [argv]),
     match out with
     | Some o => Ok o
     | None => Raise CalledProcessError
     end).

(** [with tempfile.TemporaryDirectory() as td: body(td)]: the
    directory is removed however the body ends. *)
Definition with_tempdir {A} (body : string -> M A) : M A :=
  fun w =>
    let td := mkdtemp (fs w) in
    let (w', r) := body td (put td Dir w) in
    (World (remove_tree td (fs w')) (trace w'), r).

(** ** install-oci.py *)

Definition index_media_type : string :=
  "application/vnd.oci.image.index.v1+json".

Definition get_path_from_descriptor (base : string) (descriptor : json)
  : result string :=
  digest <~ py_getitem descriptor "digest";
  match digest with
  | JStr s =>
      if startswith "sha256:" s
      then Ok (os_path_join base ["blobs"; "sha256"; str_drop 7 s])
      else Raise AssertionError
  | _ => Raise AttributeError
  end.

(** [old_index_json['manifests'][0]] *)
Definition first_manifest (index_json : json) : result json :=
  manifests <~ py_getitem index_json "manifests";
  py_getitem0 manifests.

(** [manifest["platform"]["architecture"]] *)
Definition platform_architecture (manifest : json) : result json :=
  platform <~ py_getitem manifest "platform";
  py_getitem platform "architecture".

(** The loop of [make_single_arch_copy]: the first descriptor whose
    platform has the architecture sought has its blob copied and
    becomes the only entry of the new index. *)
Fixpoint select_manifest (source_path dest_path : string)
    (architecture new_index_json : json) (manifests : list json) : M json :=
  match manifests with
  | [] => ret new_index_json
  | manifest :: rest =>
      a <- lift (platform_architecture manifest) ;;
      if py_eq a architecture then
        src <- lift (get_path_from_descriptor source_path manifest) ;;
        dest <- lift (get_path_from_descriptor dest_path manifest) ;;
        copyfile src dest ;;
        lift (py_setitem new_index_json "manifests" (JArr [manifest]))
      else
        select_manifest source_path dest_path architecture new_index_json rest
  end.

Definition skopeo_copy (source_path dest_path : string) : list string :=
  ["skopeo"; "copy"; "--multi-arch=system";
   "oci:" +:+ source_path; "oci:" +:+ dest_path].

(** The documents [make_single_arch_copy] loads once the transport
    tool has run: the image index of the source, the index the tool
    wrote and the architecture in the config of the image it copied. *)
Definition read_documents (source_path dest_path : string)
  : M (json * json * json) :=
  old_index_json <- load_json (source_path // "index.json") ;;
  d <- lift (first_manifest old_index_json) ;;
  p <- lift (get_path_from_descriptor source_path d) ;;
  image_index_json <- load_json p ;;
  new_index_json <- load_json (dest_path // "index.json") ;;
  d' <- lift (first_manifest new_index_json) ;;
  p' <- lift (get_path_from_descriptor dest_path d') ;;
  new_manifest_json <- load_json p' ;;
  c <- lift (py_getitem new_manifest_json "config") ;;
  pc <- lift (get_path_from_descriptor dest_path c) ;;
  config <- load_json pc ;;
  architecture <- lift (py_getitem config "architecture") ;;
  ret (image_index_json, new_index_json, architecture).

(** [image_index_json["manifests"]], as the [for] loop walks it. *)
Definition index_manifests (image_index_json : json) : result (list json) :=
  m <~ py_getitem image_index_json "manifests";
  py_iter m.

Definition make_single_arch_copy (source_path dest_path : string) : M unit :=
  check_call (skopeo_copy source_path dest_path) ;;
  docs <- read_documents source_path dest_path ;;
  let '(image_index_json, new_index_json, architecture) := docs in
  manifests <- lift (index_manifests image_index_json) ;;
  new_index_json' <-
    select_manifest source_path dest_path architecture new_index_json manifests ;;
  write_file (dest_path // "index.json") (json_dumps new_index_json').

Definition is_space (c : ascii) : bool :=
  let n := code c in
  ((9 <=? n) && (n <=? 13)) || ((28 <=? n) && (n <=? 32)) ||
  (n =? 133) || (n =? 160).

Fixpoint lstrip (s : string) : string :=
  match s with
  | EmptyString => EmptyString
  | String c s' => if is_space c then lstrip s' else s
  end.

Fixpoint rstrip (s : string) : string :=
  match s with
  | EmptyString => EmptyString
  | String c s' =>
      match rstrip s' with
      | EmptyString => if is_space c then EmptyString else String c EmptyString
      | t => String c t
      end
  end.

(** [s.strip()] *)
Definition strip (s : string) : string := rstrip (lstrip s).

(** [config_json.get("config", {}).get("Labels", {}).get('org.flatpak.ref')] *)
Definition flatpak_ref (config_json : json) : result json :=
  config <~ py_get config_json "config" (JObj []);
  labels <~ py_get config "Labels" (JObj []);
  py_get labels "org.flatpak.ref" JNull.

Definition flatpak_import (ref repodir source_path : string) : list string :=
  ["flatpak"; "build-import-bundle"; "--update-appstream"; "--oci";
   "--ref"; ref; repodir; source_path].

Definition flatpak_info (shortref : string) : list string :=
  ["flatpak"; "info"; "--user"; "-o"; shortref].

Definition flatpak_update (ref : string) : list string :=
  ["flatpak"; "update"; "-y"; "--user"; ref].

Definition flatpak_install (ref : string) : list string :=
  ["flatpak"; "install"; "-y"; "--user"; "--reinstall";
   "flatpak-module-tools"; ref].

(** [parts[0] + '/' + parts[1]] *)
Definition shortref_of (ref : string) : result string :=
  match split_slash ref with
  | p0 :: p1 :: _ => Ok (p0 +:+ "/" +:+ p1)
  | _ => Raise IndexError
  end.

(** The origin [flatpak info] reports, [None] when the command fails. *)
Definition query_origin (shortref : string) : M (option string) :=
  fun w =>
    match check_output (flatpak_info shortref) w with
    | (w', Ok out) => (w', Ok (Some (strip out)))
    | (w', Raise _) => (w', Ok None)
    end.

(** The end of [_install_from_path], from the import of the bundle on. *)
Definition import_and_install (repodir source_path ref : string) : M unit :=
  check_call (flatpak_import ref repodir source_path) ;;
  shortref <- lift (shortref_of ref) ;;
  old_origin <- query_origin shortref ;;
  if bool_decide (old_origin = Some "flatpak-module-tools") then
    check_call (flatpak_update ref)
  else
    check_call (flatpak_install ref).

(** The document the first entry of [index.json] points to. *)
Definition read_manifest (source_path : string) : M json :=
  index_json <- load_json (os_path_join source_path ["index.json"]) ;;
  d <- lift (first_manifest index_json) ;;
  p <- lift (get_path_from_descriptor source_path d) ;;
  load_json p.

(** The config document of a manifest. *)
Definition read_config (source_path : string) (manifest_json : json) : M json :=
  c <- lift (py_getitem manifest_json "config") ;;
  pc <- lift (get_path_from_descriptor source_path c) ;;
  load_json pc.

(** [_install_from_path] on a layout that holds a single image. *)
Definition install_single_arch (repodir source_path : string)
    (manifest_json : json) : M unit :=
  config_json <- read_config source_path manifest_json ;;
  ref <- lift (flatpak_ref config_json) ;;
  match ref with
  | JNull => raise RuntimeError
  | JStr ref => import_and_install repodir source_path ref
  | _ => raise TypeError
  end.

(** [Installer._install_from_path]; [depth] is the number of nested
    calls the interpreter still allows. *)
Fixpoint _install_from_path (depth : nat) (repodir source_path : string)
  : M unit :=
  match depth with
  | O => raise RecursionError
  | S depth' =>
      manifest_json <- read_manifest source_path ;;
      media_type <- lift (py_getitem manifest_json "mediaType") ;;
      if py_eq media_type (JStr index_media_type) then
        with_tempdir (fun td =>
          make_single_arch_copy source_path td ;;
          _install_from_path depth' repodir td)
      else
        install_single_arch repodir source_path manifest_json
  end.

(** ** make-test-content.py *)

Definition blob_path (base : string) (descriptor : json) : result string :=
  digest <~ py_getitem descriptor "digest";
  match digest with
  | JStr s =>
      if String.eqb (str_take 7 s) "sha256:"
      then Ok (base // "blobs/sha256" // str_drop 7 s)
      else Raise AssertionError
  | JArr _ => Raise AssertionError
  | _ => Raise TypeError
  end.

Definition load_json_blob (base : string) (digest : json) : M json :=
  p <- lift (blob_path base digest) ;;
  load_json p.

(** [input_image_index["manifests"][0]] of an input layout. *)
Definition input_manifest_descriptor (input_dir : string) : M json :=
  input_image_index <- load_json (input_dir // "index.json") ;;
  lift (first_manifest input_image_index).

(** The config document behind the manifest descriptor of an input. *)
Definition input_config (input_dir : string) (manifest_descriptor : json)
  : M json :=
  manifest <- load_json_blob input_dir manifest_descriptor ;;
  c <- lift (py_getitem manifest "config") ;;
  load_json_blob input_dir c.

(** [dict(manifest_descriptor)] with its [platform] set. *)
Definition with_platform (manifest_descriptor config : json) : result json :=
  output_descriptor <~ py_dict manifest_descriptor;
  os <~ py_getitem config "os";
  architecture <~ py_getitem config "architecture";
  py_setitem output_descriptor "platform"
    (JObj [("os", os); ("architecture", architecture)]).

(** The descriptor added to the image index for one input layout. *)
Definition output_descriptor_of (input_dir : string) : M json :=
  manifest_descriptor <- input_manifest_descriptor input_dir ;;
  config <- input_config input_dir manifest_descriptor ;;
  lift (with_platform manifest_descriptor config).

(** The loop of [make_multiarch_image] over [images.items()], with the
    list [image_index["manifests"]] built so far. *)
Fixpoint add_images (blobs_dir : string) (images : list (string * string))
    (manifests : list json) : M (list json) :=
  match images with
  | [] => ret manifests
  | (_, input_dir) :: rest =>
      blobs <- iterdir (input_dir // "blobs/sha256") ;;
      for_each blobs (fun blob => copyfile blob (blobs_dir // basename blob)) ;;
      output_descriptor <- output_descriptor_of input_dir ;;
      add_images blobs_dir rest (manifests ++ [output_descriptor])
  end.

Definition image_layout : json := JObj [("imageLayoutVersion", JStr "1.0.0")].

Definition image_index_of (manifests : list json) : json :=
  JObj [("schemaVersion", JNum 2);
        ("mediaType", JStr index_media_type);
        ("manifests", JArr manifests)].

Definition archive_index_of (image_index_digest : string) : json :=
  JObj [("schemaVersion", JNum 2);
        ("mediaType", JStr index_media_type);
        ("manifests", JArr [JObj
           [("mediaType", JStr index_media_type);
            ("digest", JStr ("sha256:" +:+ image_index_digest));
            ("size", JNum (Z.of_nat (String.length image_index_digest)))]])].

(** The start of [make_multiarch_image]: an empty output directory with
    its [blobs/sha256] and its [oci-layout] file. *)
Definition prepare_output (output_dir : string) : M unit :=
  e <- path_exists output_dir ;;
  (if e : bool then rmtree output_dir else ret tt) ;;
  mkdir_parents (output_dir // "blobs/sha256") ;;
  write_file (output_dir // "oci-layout") (json_dumps image_layout).

(** The end of [make_multiarch_image]: the image index goes to the
    blob store and [index.json] gets its descriptor. *)
Definition write_index (output_dir : string) (manifests : list json) : M unit :=
  let image_index_contents := json_dumps (image_index_of manifests) in
  let image_index_digest := Sha256.hexdigest image_index_contents in
  write_file (output_dir // "blobs/sha256" // image_index_digest)
             image_index_contents ;;
  write_file (output_dir // "index.json")
             (json_dumps (archive_index_of image_index_digest)).

Definition make_multiarch_image (output_dir : string)
    (images : list (string * string)) : M unit :=
  prepare_output output_dir ;;
  manifests <- add_images (output_dir // "blobs/sha256") images [] ;;
  write_index output_dir manifests.

End Programs.

(** ** A reference environment *)

(** One environment to run the scripts in: a parser for the JSON the
    model represents, a transport tool that behaves as
    [skopeo copy --multi-arch=system] does between two [oci:] layouts, and
    [flatpak] commands that succeed without output. *)
Module Tools.

Definition is_ws (c : ascii) : bool :=
  let n := code c in (n =? 32) || (n =? 10) || (n =? 13) || (n =? 9).

Fixpoint skip_ws (s : string) : string :=
  match s with
  | String c s' => if is_ws c then skip_ws s' else s
  | EmptyString => EmptyString
  end.

Definition hex_value (c : ascii) : option Z :=
  let n := code c in
  if (48 <=? n) && (n <=? 57) then Some (n - 48)
  else if (97 <=? n) && (n <=? 102) then Some (n - 87)
  else if (65 <=? n) && (n <=? 70) then Some (n - 55)
  else None.

Definition chr (n : Z) : ascii := ascii_of_nat (Z.to_nat n).

(** The characters of a string literal after its opening quote. *)
Fixpoint parse_chars (s : string) : option (string * string) :=
  match s with
  | EmptyString => None
  | String c s' =>
      if code c =? 34 then Some (EmptyString, s')
      else if code c =? 92 then
        match s' with
        | String e s'' =>
            let simple (x : Z) :=
              match parse_chars s'' with
              | Some (t, r) => Some (String (chr x) t, r)
              | None => None
              end in
            if code e =? 34 then simple 34
            else if code e =? 92 then simple 92
            else if code e =? 47 then simple 47
            else if code e =? 98 then simple 8
            else if code e =? 102 then simple 12
            else if code e =? 110 then simple 10
            else if code e =? 114 then simple 13
            else if code e =? 116 then simple 9
            else if code e =? 117 then
              match s'' with
              | String "0" (String "0" (String h (String l s3))) =>
                  match hex_value h, hex_value l, parse_chars s3 with
                  | Some a, Some b, Some (t, r) =>
                      Some (String (chr (16 * a + b)) t, r)
                  | _, _, _ => None
                  end
              | _ => None
              end
            else None
        | EmptyString => None
        end
      else if code c <? 32 then None
      else match parse_chars s' with
           | Some (t, r) => Some (String c t, r)
           | None => None
           end
  end.

Fixpoint parse_digits (s : string) (acc : Z) : Z * string :=
  match s with
  | String c s' =>
      if (48 <=? code c) && (code c <=? 57)
      then parse_digits s' (10 * acc + (code c - 48))
      else (acc, s)
  | EmptyString => (acc, s)
  end.

Definition is_digit (s : string) : bool :=
  match s with
  | String c _ => (48 <=? code c) && (code c <=? 57)
  | EmptyString => false
  end.

Section Items.
Variable parse_value : string -> option (json * string).

(** The elements of an array after the first. *)
Fixpoint parse_elements (n : nat) (s : string) (acc : list json)
  : option (json * string) :=
  match n with
  | O => None
  | S n' =>
      match skip_ws s with
      | String "]" r => Some (JArr (rev acc), r)
      | String "," r =>
          match parse_value r with
          | Some (v, r') => parse_elements n' r' (v :: acc)
          | None => None
          end
      | _ => None
      end
  end.

Definition parse_member (s : string) : option (string * json * string) :=
  match skip_ws s with
  | String q r =>
      if code q =? 34 then
        match parse_chars r with
        | Some (k, r') =>
            match skip_ws r' with
            | String ":" r'' =>
                match parse_value r'' with
                | Some (v, r3) => Some (k, v, r3)
                | None => None
                end
            | _ => None
            end
        | None => None
        end
      else None
  | EmptyString => None
  end.

(** The members of an object after the first; a repeated key keeps
    its first position and its last value. *)
Fixpoint parse_members (n : nat) (s : string) (acc : list (string * json))
  : option (json * string) :=
  match n with
  | O => None
  | S n' =>
      match skip_ws s with
      | String "}" r => Some (JObj acc, r)
      | String "," r =>
          match parse_member r with
          | Some (k, v, r') => parse_members n' r' (dict_set acc k v)
          | None => None
          end
      | _ => None
      end
  end.
End Items.

Fixpoint parse_value (fuel : nat) (s : string) : option (json * string) :=
  match fuel with
  | O => None
  | S fuel' =>
      let s := skip_ws s in
      if startswith "null" s then Some (JNull, str_drop 4 s)
      else if startswith "true" s then Some (JBool true, str_drop 4 s)
      else if startswith "false" s then Some (JBool false, str_drop 5 s)
      else match s with
      | String c r =>
          if code c =? 34 then
            match parse_chars r with
            | Some (t, r') => Some (JStr t, r')
            | None => None
            end
          else if code c =? 45 then
            if is_digit r
            then let (n, r') := parse_digits r 0 in Some (JNum (- n), r')
            else None
          else if is_digit s
          then let (n, r') := parse_digits s 0 in Some (JNum n, r')
          else if code c =? 91 then
            match skip_ws r with
            | String "]" r' => Some (JArr [], r')
            | _ =>
                match parse_value fuel' r with
                | Some (v, r') =>
                    parse_elements (parse_value fuel') (String.length r') r' [v]
                | None => None
                end
            end
          else if code c =? 123 then
            match skip_ws r with
            | String "}" r' => Some (JObj [], r')
            | _ =>
                match parse_member (parse_value fuel') r with
                | Some (k, v, r') =>
                    parse_members (parse_value fuel') (String.length r') r' [(k, v)]
                | None => None
                end
            end
          else None
      | EmptyString => None
      end
  end.

Definition parse_json (s : string) : option json :=
  match parse_value (String.length s) s with
  | Some (j, r) =>
      match skip_ws r with
      | EmptyString => Some j
      | _ => None
      end
  | None => None
  end.

Definition read_json (p : string) : M json :=
  c <- read_file p ;;
  match parse_json c with
  | Some j => ret j
  | None => raise JSONDecodeError
  end.

Definition copy_blob (src dst : string) (descriptor : json) : M unit :=
  from <- lift (get_path_from_descriptor src descriptor) ;;
  to <- lift (get_path_from_descriptor dst descriptor) ;;
  c <- read_file from ;;
  write_file to c.

Definition has_platform (os arch : string) (m : json) : bool :=
  match py_getitem m "platform" with
  | Ok p =>
      match py_getitem p "os", py_getitem p "architecture" with
      | Ok o, Ok a => py_eq o (JStr os) && py_eq a (JStr arch)
      | _, _ => false
      end
  | Raise _ => false
  end.

(** The image to copy: the only entry of the layout or, when that is
    an image index, its instance for the platform of the system. *)
Definition choose_instance (os arch src : string) (d : json) : M json :=
  match py_getitem d "mediaType" with
  | Ok (JStr mt) =>
      if String.eqb mt index_media_type then
        p <- lift (get_path_from_descriptor src d) ;;
        image_index <- read_json p ;;
        ms <- lift (m <~ py_getitem image_index "manifests"; py_iter m) ;;
        match find (has_platform os arch) ms with
        | Some m => ret m
        | None => raise (Exn "NoImageForPlatform")
        end
      else ret d
  | _ => ret d
  end.

Definition makedirs (d : string) : M unit :=
  fun w => (World (fold_left make_dir (ancestors d ++ [d]) (fs w)) (trace w), Ok tt).

(** [skopeo copy --multi-arch=system oci:src oci:dst]: the layout must
    hold one image; its manifest, config and layers are copied and the
    new [index.json] gets a descriptor written afresh, with the media
    type, digest and size only. *)
Definition skopeo_copy_system (os arch src dst : string) : M unit :=
  index <- read_json (src // "index.json") ;;
  ms <- lift (py_getitem index "manifests") ;;
  match ms with
  | JArr [d] =>
      m <- choose_instance os arch src d ;;
      p <- lift (get_path_from_descriptor src m) ;;
      manifest <- read_json p ;;
      config <- lift (py_getitem manifest "config") ;;
      layers <- lift (l <~ py_getitem manifest "layers"; py_iter l) ;;
      media_type <- lift (py_getitem m "mediaType") ;;
      digest <- lift (py_getitem m "digest") ;;
      size <- lift (py_getitem m "size") ;;
      makedirs (dst // "blobs/sha256") ;;
      write_file (dst // "oci-layout") (json_dumps image_layout) ;;
      copy_blob src dst m ;;
      copy_blob src dst config ;;
      for_each layers (copy_blob src dst) ;;
      write_file (dst // "index.json")
        (json_dumps (JObj [("schemaVersion", JNum 2);
                           ("manifests", JArr [JObj [("mediaType", media_type);
                                                     ("digest", digest);
                                                     ("size", size)]])]))
  | _ => raise (Exn "MoreThanOneImage")
  end.

Definition run (os arch : string) (argv : list string) (f : gmap string node)
  : gmap string node * option string :=
  match argv with
  | tool :: args =>
      if String.eqb tool "skopeo" then
        match args with
        | [c; o; s; d] =>
            if String.eqb c "copy" && String.eqb o "--multi-arch=system"
               && startswith "oci:" s && startswith "oci:" d
            then
              let (w, r) :=
                skopeo_copy_system os arch (str_drop 4 s) (str_drop 4 d)
                                   (World f []) in
              (fs w, match r with Ok _ => Some "" | Raise _ => None end)
            else (f, None)
        | _ => (f, None)
        end
      else if String.eqb tool "flatpak" then
        match args with
        | c :: _ => if String.eqb c "info" then (f, None) else (f, Some "")
        | [] => (f, None)
        end
      else (f, None)
  | [] => (f, None)
  end.

Fixpoint fresh (n : nat) (i : Z) (f : gmap string node) : string :=
  let name := "/tmp/flatpak-oci-" +:+ dec i in
  match n with
  | O => name
  | S n' => if bool_decide (is_Some (f !! name)) then fresh n' (i + 1) f else name
  end.

Definition environment (os arch : string) : Environment :=
  {| json_loads := parse_json;
     run_command := run os arch;
     mkdtemp := fun f => fresh (size f) 0 f |}.

(** Tools that succeed without output and leave the files alone, as
    in a dry run. *)
Definition idle : Environment :=
  {| json_loads := parse_json;
     run_command := fun _ f => (f, Some EmptyString);
     mkdtemp := fun f => fresh (size f) 0 f |}.

End Tools.

(** ** Layouts to run the scripts on *)

Module Fixtures.

Definition manifest_media_type : string :=
  "application/vnd.oci.image.manifest.v1+json".
Definition config_media_type : string :=
  "application/vnd.oci.image.config.v1+json".
Definition layer_media_type : string :=
  "application/vnd.oci.image.layer.v1.tar".

(** A descriptor of the blob [content], whose SHA-256 is [digest],
    followed by [extra] members. *)
Definition descriptor (media_type digest content : string)
    (extra : list (string * json)) : json :=
  JObj ([("mediaType", JStr media_type);
         ("digest", JStr ("sha256:" +:+ digest));
         ("size", JNum (Z.of_nat (String.length content)))] ++ extra).

(** An image: one layer, a config document, the annotations of its
    descriptor and the SHA-256 digests of the layer, of the config and of
    the manifest as [json.dumps] writes them. *)
Record image : Type := Image {
  layer : string;
  config : json;
  annotations : list (string * json);
  layer_digest : string;
  config_digest : string;
  manifest_digest : string
}.

Definition manifest_of (i : image) : json :=
  JObj [("schemaVersion", JNum 2);
        ("mediaType", JStr manifest_media_type);
        ("config",
         descriptor config_media_type (config_digest i) (json_dumps (config i)) []);
        ("layers",
         JArr [descriptor layer_media_type (layer_digest i) (layer i) []])].

Definition manifest_descriptor (i : image) : json :=
  descriptor manifest_media_type (manifest_digest i) (json_dumps (manifest_of i))
    (match annotations i with
     | [] => []
     | a => [("annotations", JObj a)]
     end).

Definition ref_label (arch : string) : list (string * json) :=
  [("org.flatpak.ref", JStr ("app/net.fishsoup.Hello/" +:+ arch +:+ "/stable"))].

Definition config_doc (os arch flatpak_arch : string) : json :=
  JObj [("architecture", JStr arch); ("os", JStr os);
        ("config", JObj [("Labels", JObj (ref_label flatpak_arch))])].

Definition x86_64 : image :=
  Image "layer x86_64" (config_doc "linux" "amd64" "x86_64") (ref_label "x86_64")
    "47bcd1d773f493294aa02e9e28057d65622e0afc5c858c68aabfb12914c0eebf"
    "46b30cf62230fae47f44fdd3171531beef7333da018d593631425c84b181848f"
    "061af6c74e44a9b5fd2dfde9041cdebdbcf241d75333b8f51ccc595ba671d2ba".

Definition aarch64 : image :=
  Image "layer aarch64" (config_doc "linux" "arm64" "aarch64") (ref_label "aarch64")
    "f6f7dfff7a82615bcd116ae4142a6a90e09d51937d47e7bad374334c2f31e55a"
    "1fe7114a822fcc3fb5db10e96645ed63bf4eeaadf62b5a43e487a4bc546ca7d9"
    "3a0853f4ce7cf43fea9351c72b4974198093e26ed7262edc389d317de4b2542f".

Definition windows : image :=
  Image "layer windows" (config_doc "windows" "amd64" "x86_64") (ref_label "x86_64")
    "aecbb2f89b1f4c7e8209e2d45fe4774ef5755dd20e12ae0584b3252c6c7342ae"
    "7cba58e175fd307951249f6855e7df6717d08333bd8116e0d945eb38ee460b37"
    "c0a957d998a4a4475bb2a1da0ab9d2fce6da4feb342ee56e74cbeb2c84758302".

(** An image whose config has no [config] member, hence no labels. *)
Definition plain : image :=
  Image "layer plain" (JObj [("architecture", JStr "amd64"); ("os", JStr "linux")]) []
    "94d591bc37e2dde13b99eed63d8d3f50d1b44f731d0ceb0fe6f232d3d245968d"
    "f34c0f8d4c1f6f9e9035344cc956fd94b657f6a3b7a6c57401299e12038ded96"
    "6598fd2469b3d932cb3d79fbe8c343ec8e8d31a3036be3f8cac133f08f95e089".

Definition add_blob (dir digest content : string) (f : gmap string node)
  : gmap string node :=
  <[dir +:+ "/blobs/sha256/" +:+ digest := File content]> f.

Definition add_dirs (dir : string) (f : gmap string node) : gmap string node :=
  fold_left make_dir
    (ancestors (dir +:+ "/blobs/sha256") ++ [dir +:+ "/blobs/sha256"]) f.

(** The three blobs of an image, in the store of the layout [dir]. *)
Definition add_image (dir : string) (i : image) (f : gmap string node)
  : gmap string node :=
  add_blob dir (manifest_digest i) (json_dumps (manifest_of i))
    (add_blob dir (config_digest i) (json_dumps (config i))
       (add_blob dir (layer_digest i) (layer i) f)).

Definition index_doc (manifests : list json) : json :=
  JObj [("schemaVersion", JNum 2); ("manifests", JArr manifests)].

(** A single-arch layout in [dir]. *)
Definition single_arch (dir : string) (i : image) (f : gmap string node)
  : gmap string node :=
  <[dir +:+ "/index.json" := File (json_dumps (index_doc [manifest_descriptor i]))]>
    (add_image dir i (add_dirs dir f)).

(** The descriptor of an image in an image index. *)
Definition entry (i : image) (os arch : string) : json :=
  match manifest_descriptor i with
  | JObj d =>
      JObj (dict_set d "platform"
              (JObj [("os", JStr os); ("architecture", JStr arch)]))
  | j => j
  end.

(** A layout in [dir] around an image index with the given entries,
    whose SHA-256 is [digest]: the blobs of the images, the image index
    and an [index.json] whose entries, given their media type, point to
    that image index. *)
Definition layout_of_index (top : list string) (dir digest : string)
    (entries : list json) (images : list image) (f : gmap string node)
  : gmap string node :=
  let contents := json_dumps (image_index_of entries) in
  <[dir +:+ "/index.json" :=
      File (json_dumps (index_doc
        (map (fun media_type => descriptor media_type digest contents []) top)))]>
    (add_blob dir digest contents
       (fold_right (add_image dir) (add_dirs dir f) images)).

(** A multi-arch layout. *)
Definition multi_arch : string -> string -> list json -> list image ->
                        gmap string node -> gmap string node :=
  layout_of_index [index_media_type].

(** Two single-arch layouts, as [flatpak build-bundle --oci] leaves them. *)
Definition inputs : gmap string node :=
  single_arch "in/x86_64" x86_64 (single_arch "in/aarch64" aarch64 ∅).

Definition unlabelled : gmap string node := single_arch "in/plain" plain ∅.

(** What the composer makes of [inputs]. *)
Definition composed_entries : list json :=
  [entry x86_64 "linux" "amd64"; entry aarch64 "linux" "arm64"].
Definition composed_digest : string :=
  "2491e85bc32de685560c5fc66a4666ff077a61fff072263a611267727672f16a".
Definition composed : gmap string node :=
  multi_arch "multi" composed_digest composed_entries [x86_64; aarch64] ∅.

(** An image index that names the platforms as Flatpak does, over
    configs that name them as the OCI specification does. *)
Definition renamed_entries : list json :=
  [entry x86_64 "linux" "x86_64"; entry aarch64 "linux" "aarch64"].
Definition renamed_digest : string :=
  "5e31209a727ac1cec67dc4787d733b29ae1bba1ee51992d786e65866457f8ab6".
Definition renamed : gmap string node :=
  multi_arch "multi" renamed_digest renamed_entries [x86_64; aarch64] ∅.

(** An image index with one architecture under two operating systems. *)
Definition two_systems_entries : list json :=
  [entry windows "windows" "amd64"; entry x86_64 "linux" "amd64"].
Definition two_systems_digest : string :=
  "97befa1613f4e2a5de81bd0c8f76a3a5e2ff9e5cd5a25d504f63f8c88aa1e69f".
Definition two_systems : gmap string node :=
  multi_arch "multi" two_systems_digest two_systems_entries [windows; x86_64] ∅.

(** The digest of the image index that lists the x86_64 image twice. *)
Definition twice_digest : string :=
  "222e7a122d1042c15c2793fa7709b0852bbfcf893725ef34d134ab93aa229183".

(** The composed layout, with an [index.json] that announces its only
    entry as an image manifest. *)
Definition mislabelled : gmap string node :=
  layout_of_index [manifest_media_type]
    "multi" composed_digest composed_entries [x86_64; aarch64] ∅.

(** The composed layout, with its entry twice in [index.json]. *)
Definition doubled : gmap string node :=
  layout_of_index [index_media_type; index_media_type]
    "multi" composed_digest composed_entries [x86_64; aarch64] ∅.

End Fixtures.
(** ** The statements of the specification *)

(** The contract of [resolve] in the specification, for a digest made
    of an algorithm tag and a payload. *)
Definition resolves_as_specified (resolve : string -> json -> result string)
    (base algorithm hex : string) : Prop :=
  let descriptor := JObj [("digest", JStr (algorithm +:+ ":" +:+ hex))] in
  if String.eqb algorithm "sha256"
  then resolve base descriptor
       = Ok (base +:+ "/blobs/" +:+ algorithm +:+ "/" +:+ hex)
  else resolve base descriptor = Raise (Exn "UnsupportedDigestAlgorithm").

(** The [Labels] of a config document carry no [org.flatpak.ref];
    [config] and [Labels] may be missing altogether. *)
Definition lacks_flatpak_ref (config_json : json) : Prop :=
  match config_json with
  | JObj cj =>
      match dict_get cj "config" with
      | None => True
      | Some (JObj c) =>
          match dict_get c "Labels" with
          | None => True
          | Some (JObj l) => dict_get l "org.flatpak.ref" = None
          | Some _ => False
          end
      | Some _ => False
      end
  | _ => False
  end.

(** A command of the installer proper. *)
Definition flatpak_command (argv : list string) : Prop :=
  exists args, argv = "flatpak" :: args.

(** The [flatpak] commands leave the files alone: what they change is
    the store of the installer, which the scripts never read. *)
Definition quiet_flatpak (env : Environment) : Prop :=
  forall argv f, flatpak_command argv -> (run_command argv f).1 = f.

Section Statements.
Context {env : Environment}.

(** The media type the first entry of [index.json] announces. *)
Definition entry_media_type (source_path : string) (w : world) : result json :=
  match load_json (os_path_join source_path ["index.json"]) w with
  | (_, Ok index_json) =>
      d <~ first_manifest index_json;
      py_getitem d "mediaType"
  | (_, Raise e) => Raise e
  end.

(** The layout in [source_path] has been handed to the transport tool
    for a single-arch copy. *)
Definition projected (source_path : string) (w : world) : Prop :=
  exists dest, In (skopeo_copy source_path dest) (trace w).

End Statements.

(** The platform of a descriptor has, or has not, the architecture
    sought. *)
Definition has_architecture (architecture manifest : json) : Prop :=
  exists a, platform_architecture manifest = Ok a /\ py_eq a architecture = true.

Definition other_architecture (architecture manifest : json) : Prop :=
  exists a, platform_architecture manifest = Ok a /\ py_eq a architecture = false.

(** [open(p, "w")] succeeds: [p] is a regular file, or is missing from
    a directory that exists. *)
Definition writable (f : gmap string node) (p : string) : Prop :=
  match f !! p with
  | Some (File _) => True
  | Some Dir => False
  | None => is_dir f (dirname p) = true
  end.

(** [w'] differs from [w] by what lies directly in the directory [d]
    at most. *)
Definition same_outside (d : string) (w w' : world) : Prop :=
  trace w' = trace w /\ forall p, dirname p <> d -> fs w' !! p = fs w !! p.

Section Composition.
Context {env : Environment}.

(** [d] is the descriptor the composer makes for the input layout
    [input_dir] as it stands in [w]: the first descriptor of its
    [index.json], with a [platform] taken from the config behind it. *)
Definition composed_descriptor (w : world) (input_dir : string) (d : json)
  : Prop :=
  exists fields config os architecture,
    input_manifest_descriptor input_dir w = (w, Ok (JObj fields)) /\
    input_config input_dir (JObj fields) w = (w, Ok config) /\
    py_getitem config "os" = Ok os /\
    py_getitem config "architecture" = Ok architecture /\
    d = JObj (dict_set fields "platform"
                (JObj [("os", os); ("architecture", architecture)])).

End Composition.

(** No ["/"] occurs in [s]. *)
Fixpoint no_slash (s : string) : bool :=
  match s with
  | EmptyString => true
  | String c s' => negb (Ascii.eqb c "/") && no_slash s'
  end.

(** *** The descriptor prescribed for an input of the composer *)

Section Prescribed.
Context {env : Environment}.

(** The JSON document in the file [p] of the file system [f]. *)
Definition document (f : gmap string node) (p : string) : option json :=
  match f !! p with
  | Some (File c) => json_loads c
  | _ => None
  end.

(** The payload of the digest of a descriptor: the name of its blob,
    for a [sha256] digest whose payload is a single name, as a digest in
    hexadecimal is. *)
Definition blob_name (descriptor : list (string * json)) : option string :=
  match dict_get descriptor "digest" with
  | Some (JStr s) =>
      let hex := str_drop 7 s in
      if startswith "sha256:" s && no_slash hex &&
         negb (String.eqb hex "") && negb (String.eqb hex ".")
      then Some hex
      else None
  | _ => None
  end.

(** The document in the blob of a descriptor of the layout [dir]. *)
Definition blob_document (f : gmap string node) (dir : string)
    (descriptor : list (string * json)) : option json :=
  match blob_name descriptor with
  | Some hex => document f (dir +:+ "/blobs/sha256/" +:+ hex)
  | None => None
  end.

(** What the specification wants in the image index for the input
    layout [dir], read from the files of [f]: the first descriptor of
    [dir/index.json], with a [platform] whose [os] and [architecture] are
    those of the config document that the manifest of this descriptor
    points to. *)
Definition prescribed_descriptor (f : gmap string node) (dir : string)
  : option json :=
  match document f (dir +:+ "/index.json") with
  | Some (JObj index) =>
      match dict_get index "manifests" with
      | Some (JArr (JObj fields :: _)) =>
          match blob_document f dir fields with
          | Some (JObj manifest) =>
              match dict_get manifest "config" with
              | Some (JObj config_descriptor) =>
                  match blob_document f dir config_descriptor with
                  | Some (JObj config) =>
                      match dict_get config "os",
                            dict_get config "architecture" with
                      | Some os, Some architecture =>
                          Some (JObj (dict_set fields "platform"
                                  (JObj [("os", os);
                                         ("architecture", architecture)])))
                      | _, _ => None
                      end
                  | _ => None
                  end
              | _ => None
              end
          | _ => None
          end
      | _ => None
      end
  | _ => None
  end.

End Prescribed.

(** The input layout [dir] is a directory in normal form that has
    nothing inside the output tree. *)
Definition outside_output (output_dir dir : string) : Prop :=
  dir <> "" /\ ends_with_slash dir = false /\
  forall rest, under output_dir (dir +:+ "/" +:+ rest) = false.

(** *** A layout and the same layout without its further entries *)

(** No descriptor resolves, from the layout [base], to the file [index]. *)
Definition apart (index base : string) : Prop :=
  forall d p, get_path_from_descriptor base d = Ok p -> p <> index.

Section Truncation.
Context {env : Environment}.

(** [j2] is the index document [j1] with every entry after the first
    removed. *)
Definition truncated (j1 j2 : json) : Prop :=
  exists d x rest,
    j1 = JObj d /\
    dict_get d "manifests" = Some (JArr (x :: rest)) /\
    j2 = JObj (dict_set d "manifests" (JArr [x])).

(** Two file systems that differ in the file [index] at most, which
    holds an index document in the first and its truncation in the second. *)
Definition same_but_index (index : string) (f1 f2 : gmap string node) : Prop :=
  forall p,
    f1 !! p = f2 !! p \/
    (p = index /\
     exists c1 c2 j1 j2,
       f1 !! p = Some (File c1) /\ f2 !! p = Some (File c2) /\
       json_loads c1 = Some j1 /\ json_loads c2 = Some j2 /\
       truncated j1 j2).

Definition same_but_entries (index : string) (w1 w2 : world) : Prop :=
  trace w1 = trace w2 /\ same_but_index index (fs w1) (fs w2).

(** The external tools do not tell the two layouts apart. *)
Definition tools_ignore_entries (index : string) : Prop :=
  forall argv f1 f2,
    same_but_index index f1 f2 ->
    same_but_index index (run_command argv f1).1 (run_command argv f2).1 /\
    (run_command argv f1).2 = (run_command argv f2).2.

Definition tempdirs_ignore_entries (index : string) : Prop :=
  forall f1 f2, same_but_index index f1 f2 -> mkdtemp f1 = mkdtemp f2.

(** Two documents that are equal up to such a truncation. *)
Definition alike (j1 j2 : json) : Prop := j1 = j2 \/ truncated j1 j2.

(** Two outcomes: both return, values related by [R], or both raise
    the same exception. *)
Definition rrel {A} (R : A -> A -> Prop) (r1 r2 : result A) : Prop :=
  match r1, r2 with
  | Ok a, Ok b => R a b
  | Raise e1, Raise e2 => e1 = e2
  | _, _ => False
  end.

(** Two computations that, run on such a pair of worlds, end in such
    a pair of worlds with related outcomes. *)
Definition mrel (index : string) {A} (R : A -> A -> Prop) (m1 m2 : M A) : Prop :=
  forall w1 w2,
    same_but_entries index w1 w2 ->
    same_but_entries index (m1 w1).1 (m2 w2).1 /\ rrel R (m1 w1).2 (m2 w2).2.

End Truncation.

(** * Properties *)

(** ** Strings and paths *)

Lemma str_app_cons (x : ascii) (a b : string) :
  String x a +:+ b = String x (a +:+ b).
Proof. reflexivity. Qed.

Lemma str_app_nil_l (b : string) : "" +:+ b = b.
Proof. reflexivity. Qed.

Ltac str_simpl := rewrite ?str_app_cons, ?str_app_nil_l in *.

Lemma str_app_assoc (a b c : string) : (a +:+ b) +:+ c = a +:+ (b +:+ c).
Proof. induction a as [|x a IH]; str_simpl; [reflexivity | now rewrite IH]. Qed.

Lemma str_app_nil_r (a : string) : a +:+ "" = a.
Proof. induction a as [|x a IH]; str_simpl; [reflexivity | now rewrite IH]. Qed.

Lemma str_length_app (a b : string) :
  String.length (a +:+ b) = (String.length a + String.length b)%nat.
Proof. induction a as [|x a IH]; str_simpl; simpl; [reflexivity | now rewrite IH]. Qed.

Lemma str_app_inv_head (a b c : string) : a +:+ b = a +:+ c -> b = c.
Proof.
  induction a as [|x a IH]; str_simpl; intros E; [assumption | injection E; auto].
Qed.

Lemma startswith_app (p s : string) : startswith p (p +:+ s) = true.
Proof.
  induction p as [|x p IH]; str_simpl; simpl; [reflexivity |].
  now rewrite Ascii.eqb_refl, IH.
Qed.

Lemma startswith_inv (p s : string) :
  startswith p s = true -> s = p +:+ str_drop (String.length p) s.
Proof.
  revert s; induction p as [|x p IH]; intros [|y s]; simpl; try easy.
  intros E. apply andb_true_iff in E as [E1 E2].
  apply Ascii.eqb_eq in E1 as ->. str_simpl. now rewrite <- (IH s E2).
Qed.

Lemma str_take_startswith (p s : string) :
  String.eqb (str_take (String.length p) s) p = startswith p s.
Proof.
  revert s; induction p as [|x p IH]; intros [|y s]; simpl; try reflexivity.
  rewrite <- IH, (Ascii.eqb_sym x y). now destruct (Ascii.eqb y x).
Qed.

Lemma ends_with_slash_app (a : string) (c : ascii) (b : string) :
  ends_with_slash (a +:+ String c b) = ends_with_slash (String c b).
Proof.
  induction a as [|x a IH]; [reflexivity |].
  rewrite str_app_cons.
  remember (String c b) as t eqn:Et. simpl.
  destruct (a +:+ t) as [|y r] eqn:E.
  - destruct a; str_simpl; subst; discriminate.
  - rewrite <- IH. reflexivity.
Qed.

Lemma str_app_cons_nonempty (a : string) (c : ascii) (b : string) :
  String.eqb (a +:+ String c b) "" = false.
Proof. destruct a; reflexivity. Qed.

(** Joining a proper directory name and a relative name puts one
    separator between them. *)
Lemma join2_relative (a b : string) :
  a <> "" -> ends_with_slash a = false -> startswith "/" b = false ->
  join2 a b = a +:+ "/" +:+ b.
Proof.
  intros Ha Hs Hb. unfold join2. rewrite Hb, Hs.
  destruct (String.eqb_spec a ""); [contradiction | reflexivity].
Qed.

Lemma join2_dir (a b c : string) :
  startswith "/" c = false ->
  join2 (a +:+ "/" +:+ b) c =
  if ends_with_slash (String "/" b) then a +:+ "/" +:+ b +:+ c
  else a +:+ "/" +:+ b +:+ "/" +:+ c.
Proof.
  intros Hc. unfold join2. rewrite Hc.
  remember (ends_with_slash (String "/" b)) as e eqn:Ee. str_simpl.
  rewrite str_app_cons_nonempty, ends_with_slash_app, <- Ee. simpl orb.
  destruct e; rewrite ?str_app_assoc; str_simpl; now rewrite ?str_app_assoc.
Qed.

Lemma blobs_path_join (base hex : string) :
  base <> "" -> ends_with_slash base = false -> startswith "/" hex = false ->
  os_path_join base ["blobs"; "sha256"; hex] = base +:+ "/blobs/sha256/" +:+ hex.
Proof.
  intros Hb Hs Hh. unfold os_path_join; simpl.
  rewrite (join2_relative base "blobs") by easy.
  rewrite (join2_dir base "blobs" "sha256") by reflexivity. simpl ends_with_slash.
  cbv iota. rewrite <- (str_app_assoc "blobs" "/" "sha256").
  rewrite (join2_dir base _ hex) by assumption. now str_simpl.
Qed.

(** *** The operator [/] of pathlib *)

Lemma split_slash_no_slash (s : string) :
  no_slash s = true -> split_slash s = [s].
Proof.
  induction s as [|c s IH]; [reflexivity |]. cbn [no_slash split_slash].
  intros H. apply andb_true_iff in H as [H1 H2].
  apply negb_true_iff in H1. rewrite H1, (IH H2). reflexivity.
Qed.

Lemma no_slash_relative (n : string) :
  no_slash n = true -> startswith "/" n = false.
Proof.
  destruct n as [|c n]; [reflexivity |]. cbn [no_slash startswith].
  intros E. apply andb_true_iff in E as [E _]. apply negb_true_iff in E.
  now rewrite Ascii.eqb_sym, E.
Qed.

(** A single name is its own and only part. *)
Lemma path_parts_plain (n : string) :
  no_slash n = true -> n <> "" -> n <> "." -> path_parts n = [n].
Proof.
  intros Hn N1 N2. unfold path_parts. rewrite (split_slash_no_slash n Hn).
  cbn [List.filter]. unfold path_part.
  destruct (String.eqb_spec n ""); [contradiction |].
  now destruct (String.eqb_spec n ".").
Qed.

Lemma path_root_relative (b : string) :
  startswith "/" b = false -> path_root b = "".
Proof.
  destruct b as [|c b]; [reflexivity |]. cbn [startswith].
  rewrite andb_true_r. intros E. unfold path_root.
  destruct c as [[] [] [] [] [] [] [] []]; try reflexivity. discriminate.
Qed.

(** A relative path in the form pathlib gives it is the chain of its
    parts. *)
Lemma path_parts_normal (b : string) :
  startswith "/" b = false -> Path b = b -> b <> "." ->
  path_parts b <> [] /\ join_slash (path_parts b) = b.
Proof.
  intros Hr Hp N. unfold Path in Hp. rewrite (path_root_relative b Hr) in Hp.
  str_simpl. cbv zeta in Hp.
  destruct (String.eqb_spec (join_slash (path_parts b)) "") as [E | E].
  - congruence.
  - split; [| exact Hp]. intros E'. now rewrite E' in E.
Qed.

Lemma path_div_relative (a b : string) :
  startswith "/" b = false -> Path b = b -> b <> "." -> a // b = join2 a b.
Proof.
  intros Hr Hp N. destruct (path_parts_normal b Hr Hp N) as [Hn Hj].
  unfold path_div. rewrite Hr.
  destruct (path_parts b) as [|x l] eqn:E; [contradiction |]. now rewrite Hj.
Qed.

Lemma Path_plain (n : string) :
  no_slash n = true -> n <> "" -> n <> "." -> Path n = n.
Proof.
  intros Hn N1 N2. unfold Path.
  rewrite (path_root_relative n (no_slash_relative n Hn)).
  rewrite (path_parts_plain n Hn N1 N2). cbn [join_slash]. str_simpl. cbv zeta.
  now destruct (String.eqb_spec n "").
Qed.

(** [a / n] for a single name [n]. *)
Lemma path_div_plain (a n : string) :
  no_slash n = true -> n <> "" -> n <> "." -> a // n = join2 a n.
Proof.
  intros Hn N1 N2.
  apply path_div_relative; auto using no_slash_relative, Path_plain.
Qed.

Lemma blobs_path_div (base hex : string) :
  base <> "" -> ends_with_slash base = false ->
  startswith "/" hex = false -> Path hex = hex -> hex <> "." ->
  (base // "blobs/sha256" // hex)%py = base +:+ "/blobs/sha256/" +:+ hex.
Proof.
  intros Hb Hs Hh Hp N. rewrite (path_div_relative _ hex Hh Hp N).
  change (base // "blobs/sha256") with (join2 base "blobs/sha256").
  rewrite (join2_relative base "blobs/sha256") by easy.
  rewrite (join2_dir base _ hex) by assumption. now str_simpl.
Qed.

(** ** Resolving a descriptor to the path of its blob *)

(** C8, as stated, fails: a digest with another algorithm tag trips an
    [assert] (there is no [UnsupportedDigestAlgorithm]), a payload that
    starts with ["/"] resolves to that absolute path, and [blob_path] drops
    the [.] parts of a payload, as pathlib does. *)
Lemma resolve_not_as_specified :
  ~ resolves_as_specified get_path_from_descriptor "layout" "md5" "0f" /\
  ~ resolves_as_specified blob_path "layout" "md5" "0f" /\
  get_path_from_descriptor "layout" (JObj [("digest", JStr "md5:0f")])
    = Raise AssertionError /\
  ~ resolves_as_specified get_path_from_descriptor "layout" "sha256" "/etc/passwd" /\
  ~ resolves_as_specified blob_path "layout" "sha256" "/etc/passwd" /\
  ~ resolves_as_specified blob_path "layout" "sha256" "./0f".
Proof. repeat split; try (intros E; vm_compute in E; discriminate); reflexivity. Qed.

(** C8, amended: a digest [sha256:hex] resolves to
    [base/blobs/sha256/hex] in both scripts.  For [get_path_from_descriptor],
    which joins strings, this holds for a base that is not empty and does
    not end in a slash and for a payload that does not start with one.  For
    [blob_path], which joins paths, it holds for a base that is the string
    of a path other than the current directory and the root, and for a
    payload that is the string of a relative path (as a digest in
    hexadecimal is); from the current directory the result is
    [blobs/sha256/hex].  Any other digest string fails the [assert] of the
    function, which raises [AssertionError]. *)
Theorem resolve_sha256_or_assert (base : string) (descriptor : json) (s : string) :
  py_getitem descriptor "digest" = Ok (JStr s) ->
  (startswith "sha256:" s = true ->
   s = "sha256:" +:+ str_drop 7 s /\
   (base <> "" -> ends_with_slash base = false ->
    startswith "/" (str_drop 7 s) = false ->
    get_path_from_descriptor base descriptor
    = Ok (base +:+ "/blobs/sha256/" +:+ str_drop 7 s)) /\
   (startswith "/" (str_drop 7 s) = false ->
    Path (str_drop 7 s) = str_drop 7 s -> str_drop 7 s <> "." ->
    (Path base = base -> base <> "." -> ends_with_slash base = false ->
     blob_path base descriptor
     = Ok (base +:+ "/blobs/sha256/" +:+ str_drop 7 s)) /\
    blob_path "" descriptor = Ok ("blobs/sha256/" +:+ str_drop 7 s))) /\
  (startswith "sha256:" s = false ->
   get_path_from_descriptor base descriptor = Raise AssertionError /\
   blob_path base descriptor = Raise AssertionError).
Proof.
  intros Hd. unfold get_path_from_descriptor, blob_path. rewrite Hd. cbn [rbind].
  rewrite (str_take_startswith "sha256:" s : String.eqb (str_take 7 s) _ = _).
  split.
  - intros Hp. rewrite Hp. split; [| split].
    + exact (startswith_inv "sha256:" s Hp).
    + intros Hb Hs Hh. now rewrite blobs_path_join.
    + intros Hh Hn N. split.
      * intros HP Nd Hs. rewrite blobs_path_div; auto.
        intros ->. discriminate HP.
      * rewrite (path_div_relative _ _ Hh Hn N).
        change ("" // "blobs/sha256") with "blobs/sha256".
        now rewrite (join2_relative "blobs/sha256") by easy.
  - intros Hp. now rewrite Hp.
Qed.

Lemma resolve_sha256_or_assert_witness :
  get_path_from_descriptor "layout"
    (JObj [("digest", JStr "sha256:0f"); ("size", JNum 2)])
  = Ok "layout/blobs/sha256/0f" /\
  blob_path "layout" (JObj [("digest", JStr "sha256:0f"); ("size", JNum 2)])
  = Ok "layout/blobs/sha256/0f" /\
  blob_path "" (JObj [("digest", JStr "sha256:0f"); ("size", JNum 2)])
  = Ok "blobs/sha256/0f" /\
  blob_path "layout" (JObj [("digest", JStr "md5:0f")]) = Raise AssertionError.
Proof.
  pose proof (resolve_sha256_or_assert "layout"
                (JObj [("digest", JStr "sha256:0f"); ("size", JNum 2)])
                "sha256:0f" eq_refl) as [H _].
  destruct (H eq_refl) as (_ & G & B).
  destruct (B eq_refl eq_refl) as [B1 B2]; [discriminate |].
  split; [apply G; [discriminate | reflexivity | reflexivity] |].
  split; [apply B1; [reflexivity | discriminate | reflexivity] |].
  split; [exact B2 |].
  exact (proj2 (proj2
    (resolve_sha256_or_assert "layout" (JObj [("digest", JStr "md5:0f")])
       "md5:0f" eq_refl) eq_refl)).
Defined.

(** ** Running computations *)

Lemma bind_ok {A B} (m : M A) (k : A -> M B) (w w1 : world) (a : A) :
  m w = (w1, Ok a) -> bind m k w = k a w1.
Proof. intros E. unfold bind. now rewrite E. Qed.

Lemma bind_raise {A B} (m : M A) (k : A -> M B) (w w1 : world) (e : exn) :
  m w = (w1, Raise e) -> bind m k w = (w1, Raise e).
Proof. intros E. unfold bind. now rewrite E. Qed.

Lemma bind_ok_inv {A B} (m : M A) (k : A -> M B) (w w' : world) (b : B) :
  bind m k w = (w', Ok b) ->
  exists a w1, m w = (w1, Ok a) /\ k a w1 = (w', Ok b).
Proof.
  unfold bind. destruct (m w) as [w1 [a|e]]; intros E; [eauto | discriminate].
Qed.

Lemma lift_ok_inv {A} (r : result A) (w w' : world) (a : A) :
  lift r w = (w', Ok a) -> w' = w /\ r = Ok a.
Proof. unfold lift. intros E. injection E as -> ->. auto. Qed.

Lemma read_file_world (p : string) (w w' : world) (r : result string) :
  read_file p w = (w', r) -> w' = w.
Proof.
  unfold read_file. destruct (fs w !! p) as [[c|]|]; intros E; now injection E.
Qed.

(** Taking one step of a computation whose outcome is known. *)
Ltac run_with H := rewrite (bind_ok _ _ _ _ _ H).
Ltac run_lift H := unfold bind at 1, lift at 1; rewrite H.

Section Install.
Context {env : Environment}.

Lemma load_json_world (p : string) (w w' : world) (r : result json) :
  load_json p w = (w', r) -> w' = w.
Proof.
  unfold load_json, bind. destruct (read_file p w) as [w1 [c|e]] eqn:E.
  - apply read_file_world in E as ->.
    destruct (json_loads c); intros E'; now injection E'.
  - apply read_file_world in E as ->. intros E'; now injection E'.
Qed.

Lemma flatpak_ref_absent (config_json : json) :
  lacks_flatpak_ref config_json -> flatpak_ref config_json = Ok JNull.
Proof.
  unfold lacks_flatpak_ref, flatpak_ref.
  destruct config_json as [| | | | |cj]; try easy. cbn [py_get rbind].
  destruct (dict_get cj "config") as [[| | | | |c]|]; try easy; cbn [py_get rbind].
  destruct (dict_get c "Labels") as [[| | | | |l]|]; try easy; cbn [py_get rbind].
  now intros ->.
Qed.

Lemma read_manifest_world (p : string) (w w' : world) (r : result json) :
  read_manifest p w = (w', r) -> w' = w.
Proof.
  unfold read_manifest, bind, lift.
  destruct (load_json _ w) as [w1 [j|e]] eqn:E1; apply load_json_world in E1 as ->;
    [| intros E; now injection E].
  destruct (first_manifest j); [| intros E; now injection E].
  destruct (get_path_from_descriptor p a); [| intros E; now injection E].
  apply load_json_world.
Qed.

Lemma read_config_world (p : string) (m : json) (w w' : world) (r : result json) :
  read_config p m w = (w', r) -> w' = w.
Proof.
  unfold read_config, bind, lift.
  destruct (py_getitem m "config"); [| intros E; now injection E].
  destruct (get_path_from_descriptor p a); [| intros E; now injection E].
  apply load_json_world.
Qed.

Lemma check_call_world (argv : list string) (w : world) :
  (check_call argv w).1 = World (run_command argv (fs w)).1 (trace w ++ [argv]).
Proof. unfold check_call. now destruct (run_command argv (fs w)). Qed.

Lemma check_output_world (argv : list string) (w : world) :
  (check_output argv w).1 = World (run_command argv (fs w)).1 (trace w ++ [argv]).
Proof. unfold check_output. now destruct (run_command argv (fs w)). Qed.

Lemma flatpak_command_flatpak (args : list string) :
  flatpak_command ("flatpak" :: args).
Proof. now exists args. Qed.

(** What importing and installing does to the world: it starts the
    import of the layout it was given, then [flatpak] commands only. *)
Lemma import_and_install_world (repodir source_path ref : string) (w : world) :
  let w' := (import_and_install repodir source_path ref w).1 in
  (exists rest,
     trace w' = trace w ++ flatpak_import ref repodir source_path :: rest /\
     Forall flatpak_command rest) /\
  (quiet_flatpak env -> fs w' = fs w).
Proof.
  unfold import_and_install, bind, query_origin, lift.
  pose proof (check_call_world (flatpak_import ref repodir source_path) w) as E1.
  destruct (check_call (flatpak_import ref repodir source_path) w) as [w1 [[]|e1]];
    simpl in E1; subst w1.
  2:{ simpl. split; [exists []; split; [reflexivity | constructor] |].
      intros Q. apply Q, flatpak_command_flatpak. }
  destruct (shortref_of ref) as [shortref|e2].
  2:{ simpl. split; [exists []; split; [reflexivity | constructor] |].
      intros Q. apply Q, flatpak_command_flatpak. }
  set (w1 := World _ _).
  pose proof (check_output_world (flatpak_info shortref) w1) as E2.
  assert (exists o w2, (let (w', r) := check_output (flatpak_info shortref) w1 in
                        match r with
                        | Ok out => (w', Ok (Some (strip out)))
                        | Raise _ => (w', Ok None)
                        end) = (w2, Ok o) /\
                       w2 = World (run_command (flatpak_info shortref) (fs w1)).1
                                  (trace w1 ++ [flatpak_info shortref]))
    as (o & w2 & -> & E3).
  { destruct (check_output (flatpak_info shortref) w1) as [w2 [out|e]];
      simpl in E2; subst w2; eauto. }
  set (cmd := if bool_decide (o = Some "flatpak-module-tools")
              then flatpak_update ref else flatpak_install ref).
  assert (Hc : flatpak_command cmd)
    by (unfold cmd; destruct (bool_decide _); apply flatpak_command_flatpak).
  assert (E4 : ((if bool_decide (o = Some "flatpak-module-tools")
                 then check_call (flatpak_update ref)
                 else check_call (flatpak_install ref)) w2).1
               = World (run_command cmd (fs w2)).1 (trace w2 ++ [cmd])).
  { unfold cmd. destruct (bool_decide _); apply check_call_world. }
  rewrite E4, E3. subst w1. simpl. split.
  - exists [flatpak_info shortref; cmd]. split.
    + now rewrite <- !app_assoc.
    + repeat constructor; [apply flatpak_command_flatpak | assumption].
  - intros Q. rewrite !Q; [reflexivity | apply flatpak_command_flatpak ..| assumption].
Qed.

Lemma install_single_arch_eq (depth : nat) (repodir source_path : string)
    (w : world) (manifest_json media_type : json) :
  read_manifest source_path w = (w, Ok manifest_json) ->
  py_getitem manifest_json "mediaType" = Ok media_type ->
  py_eq media_type (JStr index_media_type) = false ->
  _install_from_path (S depth) repodir source_path w
  = install_single_arch repodir source_path manifest_json w.
Proof.
  intros Hm Ht Hne. cbn [_install_from_path].
  run_with Hm. run_lift Ht. now rewrite Hne.
Qed.

(** C4, amended: when the document behind the first entry of
    [index.json] declares a media type other than the image index one,
    [_install_from_path] projects nothing: it starts no transport tool and
    makes no temporary layout; what it starts, if anything, is the import of
    the layout it was given followed by [flatpak] commands, and where
    those leave the files alone the files are as before. *)
Theorem single_arch_is_not_projected (depth : nat) (repodir source_path : string)
    (w : world) (manifest_json media_type : json) :
  read_manifest source_path w = (w, Ok manifest_json) ->
  py_getitem manifest_json "mediaType" = Ok media_type ->
  py_eq media_type (JStr index_media_type) = false ->
  let w' := (_install_from_path (S depth) repodir source_path w).1 in
  (trace w' = trace w \/
   exists ref rest,
     trace w' = trace w ++ flatpak_import ref repodir source_path :: rest /\
     Forall flatpak_command rest) /\
  (quiet_flatpak env -> fs w' = fs w).
Proof.
  intros Hm Ht Hne.
  rewrite (install_single_arch_eq depth repodir source_path w _ _ Hm Ht Hne).
  unfold install_single_arch, bind, lift.
  destruct (read_config source_path manifest_json w) as [w1 [config_json|e]] eqn:Hc;
    apply read_config_world in Hc as ->; [| simpl; auto].
  destruct (flatpak_ref config_json) as [[|b|n|ref|l|d]|e]; simpl; auto.
  destruct (import_and_install_world repodir source_path ref w) as [(rest & Hr) Hq].
  split; [right; eauto | assumption].
Qed.

(** C9: installing a single-arch layout whose config labels have no
    [org.flatpak.ref] (or no [Labels], or no [config]) raises
    [RuntimeError] and leaves the world as it was: no file is written and
    no command of the installer has been started. *)
Theorem install_without_ref_raises (depth : nat) (repodir source_path : string)
    (w : world) (manifest_json media_type config_json : json) :
  read_manifest source_path w = (w, Ok manifest_json) ->
  py_getitem manifest_json "mediaType" = Ok media_type ->
  py_eq media_type (JStr index_media_type) = false ->
  read_config source_path manifest_json w = (w, Ok config_json) ->
  lacks_flatpak_ref config_json ->
  _install_from_path (S depth) repodir source_path w = (w, Raise RuntimeError).
Proof.
  intros Hm Ht Hne Hc Hl.
  rewrite (install_single_arch_eq depth repodir source_path w _ _ Hm Ht Hne).
  unfold install_single_arch. run_with Hc.
  unfold bind, lift. now rewrite (flatpak_ref_absent _ Hl).
Qed.

End Install.

(** Several facts about one run are read off one evaluation. *)
Lemma pair_eq_inv {A B} (a c : A) (b d : B) : (a, b) = (c, d) -> a = c /\ b = d.
Proof. intros E. split; [exact (f_equal fst E) | exact (f_equal snd E)]. Qed.

Ltac vm_refl :=
  match goal with |- _ = ?r => vm_cast_no_check (eq_refl r) end.

Lemma install_without_ref_raises_witness :
  let env := Tools.environment "linux" "amd64" in
  let w := World Fixtures.unlabelled [] in
  _install_from_path 1 "repo" "in/plain" w = (w, Raise RuntimeError).
Proof.
  intros env w.
  apply (install_without_ref_raises (env := env) 0 "repo" "in/plain" w
           (Fixtures.manifest_of Fixtures.plain)
           (JStr Fixtures.manifest_media_type)
           (Fixtures.config Fixtures.plain)).
  - vm_refl.
  - reflexivity.
  - reflexivity.
  - vm_refl.
  - exact I.
Defined.

Lemma tools_quiet (os arch : string) : quiet_flatpak (Tools.environment os arch).
Proof.
  intros argv f [args ->]. simpl. unfold Tools.run. simpl.
  destruct args as [|c args]; [reflexivity |]. now destruct (String.eqb c "info").
Qed.

Lemma single_arch_is_not_projected_witness :
  let env := Tools.environment "linux" "amd64" in
  let w := World Fixtures.inputs [] in
  let w' := (_install_from_path 1 "repo" "in/x86_64" w).1 in
  (trace w' = trace w \/
   exists ref rest,
     trace w' = trace w ++ flatpak_import ref "repo" "in/x86_64" :: rest /\
     Forall flatpak_command rest) /\
  fs w' = fs w.
Proof.
  intros env w.
  destruct (single_arch_is_not_projected (env := env) 0 "repo" "in/x86_64" w
              (Fixtures.manifest_of Fixtures.x86_64)
              (JStr Fixtures.manifest_media_type)) as [Ht Hf].
  - vm_refl.
  - reflexivity.
  - reflexivity.
  - split; [exact Ht | exact (Hf (tools_quiet "linux" "amd64"))].
Defined.

(** C4, as stated, fails: the script never looks at the media type of
    the entry.  A layout whose entry is announced as an image manifest, but
    points to an image index, is handed to the transport tool. *)
Lemma mislabelled_entry_is_projected :
  let env := Tools.environment "linux" "arm64" in
  let w := World Fixtures.mislabelled [] in
  entry_media_type "multi" w = Ok (JStr Fixtures.manifest_media_type) /\
  py_eq (JStr Fixtures.manifest_media_type) (JStr index_media_type) = false /\
  projected "multi" (_install_from_path 2 "repo" "multi" w).1.
Proof.
  intros env w. split; [vm_refl | split; [reflexivity |]].
  exists "/tmp/flatpak-oci-0".
  assert (E : trace (_install_from_path 2 "repo" "multi" w).1
              = [skopeo_copy "multi" "/tmp/flatpak-oci-0"]) by vm_refl.
  rewrite E. now left.
Qed.

(** ** The single-arch copy *)

Lemma dict_get_set (d : list (string * json)) (k : string) (v : json) :
  dict_get (dict_set d k v) k = Some v.
Proof.
  induction d as [|[k' v'] d IH]; simpl.
  - now rewrite String.eqb_refl.
  - destruct (String.eqb k' k) eqn:E; simpl; now rewrite E.
Qed.

Lemma py_getitem_obj (o : json) (k : string) (v : json) :
  py_getitem o k = Ok v -> exists d, o = JObj d.
Proof. destruct o; try discriminate. eauto. Qed.

Lemma write_file_ok (p c : string) (w : world) :
  writable (fs w) p -> write_file p c w = (put p (File c) w, Ok tt).
Proof.
  unfold writable, write_file, is_dir.
  destruct (fs w !! p) as [[?|]|]; try easy.
  destruct (fs w !! dirname p) as [[?|]|]; try easy. now intros ->.
Qed.

Lemma writable_put (f : gmap string node) (p q c c' : string) :
  f !! p = Some (File c) -> writable (<[q := File c']> f) p.
Proof.
  intros E. unfold writable. destruct (decide (q = p)) as [->|N].
  - now rewrite lookup_insert_eq.
  - now rewrite lookup_insert_ne, E.
Qed.

Lemma copyfile_ok (src dst c : string) (w : world) :
  fs w !! src = Some (File c) -> src <> dst -> writable (fs w) dst ->
  copyfile src dst w = (put dst (File c) w, Ok tt).
Proof.
  intros Hs Hn Hw. unfold copyfile.
  destruct (String.eqb_spec src dst) as [E|_]; [contradiction |]. simpl.
  unfold bind, read_file. rewrite Hs. now apply write_file_ok.
Qed.

Section Projection.
Context {env : Environment}.

Lemma load_json_file (p : string) (w w' : world) (j : json) :
  load_json p w = (w', Ok j) -> exists c, fs w !! p = Some (File c).
Proof.
  unfold load_json, bind, read_file.
  destruct (fs w !! p) as [[c|]|]; try discriminate. eauto.
Qed.

(** When the documents load, the index the transport tool wrote is a
    regular file that holds an object. *)
Lemma read_documents_inv (source_path dest_path : string) (w w' : world)
    (image_index_json new_index_json architecture : json) :
  read_documents source_path dest_path w
  = (w', Ok (image_index_json, new_index_json, architecture)) ->
  (exists c, fs w !! (dest_path // "index.json") = Some (File c)) /\
  (exists d, new_index_json = JObj d).
Proof.
  unfold read_documents. intros E.
  apply bind_ok_inv in E as (j1 & w1 & E1 & E). apply load_json_world in E1 as ->.
  apply bind_ok_inv in E as (d1 & w1 & E1 & E). apply lift_ok_inv in E1 as [-> _].
  apply bind_ok_inv in E as (p1 & w1 & E1 & E). apply lift_ok_inv in E1 as [-> _].
  apply bind_ok_inv in E as (j2 & w1 & E1 & E). apply load_json_world in E1 as ->.
  apply bind_ok_inv in E as (j3 & w1 & E1 & E).
  pose proof (load_json_file _ _ _ _ E1) as Hf. apply load_json_world in E1 as ->.
  apply bind_ok_inv in E as (d2 & w1 & E1 & E). apply lift_ok_inv in E1 as [-> Hd].
  apply bind_ok_inv in E as (p2 & w1 & E1 & E). apply lift_ok_inv in E1 as [-> _].
  apply bind_ok_inv in E as (j4 & w1 & E1 & E). apply load_json_world in E1 as ->.
  apply bind_ok_inv in E as (c3 & w1 & E1 & E). apply lift_ok_inv in E1 as [-> _].
  apply bind_ok_inv in E as (p3 & w1 & E1 & E). apply lift_ok_inv in E1 as [-> _].
  apply bind_ok_inv in E as (j5 & w1 & E1 & E). apply load_json_world in E1 as ->.
  apply bind_ok_inv in E as (a & w1 & E1 & E). apply lift_ok_inv in E1 as [-> _].
  unfold ret in E. injection E as -> -> -> ->.
  split; [assumption |].
  unfold first_manifest in Hd.
  destruct (py_getitem new_index_json "manifests") eqn:Hm; [| discriminate].
  eapply py_getitem_obj, Hm.
Qed.

(** The loop passes over the descriptors of another architecture. *)
Lemma select_manifest_skip (source_path dest_path : string)
    (architecture new_index_json : json) (pre rest : list json) (w : world) :
  Forall (other_architecture architecture) pre ->
  select_manifest source_path dest_path architecture new_index_json (pre ++ rest) w
  = select_manifest source_path dest_path architecture new_index_json rest w.
Proof.
  induction 1 as [|m pre (a & Ha & Hn) _ IH]; [reflexivity |].
  cbn [app select_manifest]. run_lift Ha. now rewrite Hn.
Qed.

(** No descriptor has the architecture: the index is left as the
    transport tool wrote it. *)
Lemma select_manifest_none (source_path dest_path : string)
    (architecture new_index_json : json) (manifests : list json) (w : world) :
  Forall (other_architecture architecture) manifests ->
  select_manifest source_path dest_path architecture new_index_json manifests w
  = (w, Ok new_index_json).
Proof.
  intros H. rewrite <- (app_nil_r manifests).
  now rewrite select_manifest_skip.
Qed.

(** The first descriptor with the architecture is the one copied. *)
Lemma select_manifest_first (source_path dest_path : string)
    (architecture : json) (d : list (string * json))
    (pre post : list json) (m : json) (ps pd content : string) (w : world) :
  Forall (other_architecture architecture) pre ->
  has_architecture architecture m ->
  get_path_from_descriptor source_path m = Ok ps ->
  get_path_from_descriptor dest_path m = Ok pd ->
  fs w !! ps = Some (File content) -> ps <> pd -> writable (fs w) pd ->
  select_manifest source_path dest_path architecture (JObj d) (pre ++ m :: post) w
  = (put pd (File content) w, Ok (JObj (dict_set d "manifests" (JArr [m])))).
Proof.
  intros Hpre (a & Ha & Hy) Hs Hd Hf Hn Hw.
  rewrite select_manifest_skip by assumption.
  cbn [select_manifest]. run_lift Ha. rewrite Hy.
  run_lift Hs. run_lift Hd.
  now rewrite (bind_ok _ _ _ _ _ (copyfile_ok _ _ _ _ Hf Hn Hw)).
Qed.

(** The copy, when a descriptor of the index has the architecture of
    the image the transport tool copied. *)
Lemma make_single_arch_copy_selected (source_path dest_path : string)
    (w w1 : world) (image_index_json new_index_json architecture : json)
    (pre post : list json) (m : json) (ps pd content : string) :
  check_call (skopeo_copy source_path dest_path) w = (w1, Ok tt) ->
  read_documents source_path dest_path w1
  = (w1, Ok (image_index_json, new_index_json, architecture)) ->
  index_manifests image_index_json = Ok (pre ++ m :: post) ->
  Forall (other_architecture architecture) pre ->
  has_architecture architecture m ->
  get_path_from_descriptor source_path m = Ok ps ->
  get_path_from_descriptor dest_path m = Ok pd ->
  fs w1 !! ps = Some (File content) -> ps <> pd -> writable (fs w1) pd ->
  exists d,
    new_index_json = JObj d /\
    make_single_arch_copy source_path dest_path w
    = (put (dest_path // "index.json")
           (File (json_dumps (JObj (dict_set d "manifests" (JArr [m])))))
           (put pd (File content) w1), Ok tt).
Proof.
  intros Hk Hr Hi Hpre Hm Hs Hd Hf Hn Hw.
  destruct (read_documents_inv _ _ _ _ _ _ _ Hr) as [[c Hc] [d ->]].
  exists d. split; [reflexivity |].
  unfold make_single_arch_copy. run_with Hk. run_with Hr. run_lift Hi.
  rewrite (bind_ok _ _ _ _ _
             (select_manifest_first _ _ _ _ _ _ _ _ _ _ _ Hpre Hm Hs Hd Hf Hn Hw)).
  apply write_file_ok. simpl. eapply writable_put, Hc.
Qed.

(** The copy, when no descriptor of the index has that architecture. *)
Lemma make_single_arch_copy_unselected (source_path dest_path : string)
    (w w1 : world) (image_index_json new_index_json architecture : json)
    (manifests : list json) :
  check_call (skopeo_copy source_path dest_path) w = (w1, Ok tt) ->
  read_documents source_path dest_path w1
  = (w1, Ok (image_index_json, new_index_json, architecture)) ->
  index_manifests image_index_json = Ok manifests ->
  Forall (other_architecture architecture) manifests ->
  make_single_arch_copy source_path dest_path w
  = (put (dest_path // "index.json") (File (json_dumps new_index_json)) w1, Ok tt).
Proof.
  intros Hk Hr Hi Hall.
  destruct (read_documents_inv _ _ _ _ _ _ _ Hr) as [[c Hc] _].
  unfold make_single_arch_copy. run_with Hk. run_with Hr. run_lift Hi.
  rewrite (bind_ok _ _ _ _ _ (select_manifest_none _ _ _ _ _ _ Hall)).
  apply write_file_ok. unfold writable. now rewrite Hc.
Qed.

(** C1, on the code: the entry that [make_single_arch_copy] writes is
    the first descriptor of the image index whose [platform] has the
    architecture of the image the transport tool copied, whatever its [os];
    it is the very value read from the image index (all its members,
    [annotations] included), and the only entry of the [index.json] written
    for the destination.  It is the descriptor of the platform projected to
    only if no earlier descriptor has that architecture. *)
Theorem projection_keeps_original_descriptor (source_path dest_path : string)
    (w w1 : world) (image_index_json new_index_json architecture : json)
    (pre post : list json) (m : json) (ps pd content : string) :
  check_call (skopeo_copy source_path dest_path) w = (w1, Ok tt) ->
  read_documents source_path dest_path w1
  = (w1, Ok (image_index_json, new_index_json, architecture)) ->
  index_manifests image_index_json = Ok (pre ++ m :: post) ->
  Forall (other_architecture architecture) pre ->
  has_architecture architecture m ->
  get_path_from_descriptor source_path m = Ok ps ->
  get_path_from_descriptor dest_path m = Ok pd ->
  fs w1 !! ps = Some (File content) -> ps <> pd -> writable (fs w1) pd ->
  exists w' index_json,
    make_single_arch_copy source_path dest_path w = (w', Ok tt) /\
    fs w' !! (dest_path // "index.json") = Some (File (json_dumps index_json)) /\
    py_getitem index_json "manifests" = Ok (JArr [m]) /\
    py_setitem new_index_json "manifests" (JArr [m]) = Ok index_json.
Proof.
  intros Hk Hr Hi Hpre Hm Hs Hd Hf Hn Hw.
  destruct (make_single_arch_copy_selected _ _ _ _ _ _ _ _ _ _ _ _ _
              Hk Hr Hi Hpre Hm Hs Hd Hf Hn Hw) as (d & -> & E).
  eexists _, _. split; [exact E |]. split; [| split].
  - simpl. apply lookup_insert_eq.
  - simpl. now rewrite dict_get_set.
  - reflexivity.
Qed.

(** The loop of [make_single_arch_copy] has no [else] branch: when no
    descriptor of the image index has the architecture of the image the
    transport tool copied, the call returns, having rewritten the
    [index.json] of the destination with the document the transport tool
    had put there. *)
Theorem missing_architecture_keeps_tool_index (source_path dest_path : string)
    (w w1 : world) (image_index_json new_index_json architecture : json)
    (manifests : list json) :
  check_call (skopeo_copy source_path dest_path) w = (w1, Ok tt) ->
  read_documents source_path dest_path w1
  = (w1, Ok (image_index_json, new_index_json, architecture)) ->
  index_manifests image_index_json = Ok manifests ->
  Forall (other_architecture architecture) manifests ->
  exists w',
    make_single_arch_copy source_path dest_path w = (w', Ok tt) /\
    trace w' = trace w1 /\
    fs w' = <[dest_path // "index.json" := File (json_dumps new_index_json)]> (fs w1).
Proof.
  intros Hk Hr Hi Hall. eexists. split.
  - eapply make_single_arch_copy_unselected; eassumption.
  - split; reflexivity.
Qed.

(** C7, on the code: the blobs of the destination are those the
    transport tool put there, to which the script adds one: the manifest
    blob of the descriptor it selects, copied from the source under its own
    digest.  It copies no config and no layer, and removes nothing, so the
    blobs of the selected manifest are in the destination only if the
    manifest the script selects is the one the tool copied. *)
Theorem projection_adds_manifest_blob (source_path dest_path : string)
    (w w1 : world) (image_index_json new_index_json architecture : json)
    (pre post : list json) (m : json) (ps pd content : string) :
  check_call (skopeo_copy source_path dest_path) w = (w1, Ok tt) ->
  read_documents source_path dest_path w1
  = (w1, Ok (image_index_json, new_index_json, architecture)) ->
  index_manifests image_index_json = Ok (pre ++ m :: post) ->
  Forall (other_architecture architecture) pre ->
  has_architecture architecture m ->
  get_path_from_descriptor source_path m = Ok ps ->
  get_path_from_descriptor dest_path m = Ok pd ->
  fs w1 !! ps = Some (File content) -> ps <> pd -> writable (fs w1) pd ->
  exists w',
    make_single_arch_copy source_path dest_path w = (w', Ok tt) /\
    (pd <> dest_path // "index.json" -> fs w' !! pd = Some (File content)) /\
    (forall p, p <> pd -> p <> dest_path // "index.json" ->
               fs w' !! p = fs w1 !! p).
Proof.
  intros Hk Hr Hi Hpre Hm Hs Hd Hf Hn Hw.
  destruct (make_single_arch_copy_selected _ _ _ _ _ _ _ _ _ _ _ _ _
              Hk Hr Hi Hpre Hm Hs Hd Hf Hn Hw) as (d & -> & E).
  eexists. split; [exact E |]. simpl. split.
  - intros N. rewrite lookup_insert_ne by congruence. apply lookup_insert_eq.
  - intros p N1 N2. now rewrite !lookup_insert_ne by congruence.
Qed.

End Projection.

(** *** The copy of the composed layout on an arm64 system *)

Lemma other_architecture_str (a b : string) (i : Fixtures.image) (os : string) :
  String.eqb a b = false ->
  other_architecture (JStr b) (Fixtures.entry i os a).
Proof.
  intros N. exists (JStr a). split; [| exact N].
  unfold platform_architecture, Fixtures.entry, Fixtures.manifest_descriptor,
    Fixtures.descriptor, py_getitem.
  now rewrite dict_get_set.
Qed.

Lemma has_architecture_str (a : string) (i : Fixtures.image) (os : string) :
  has_architecture (JStr a) (Fixtures.entry i os a).
Proof.
  exists (JStr a). split; [| apply String.eqb_refl].
  unfold platform_architecture, Fixtures.entry, Fixtures.manifest_descriptor,
    Fixtures.descriptor, py_getitem.
  now rewrite dict_get_set.
Qed.

Lemma projection_keeps_original_descriptor_witness :
  let env := Tools.environment "linux" "arm64" in
  let w := World Fixtures.composed [] in
  exists w' index_json,
    make_single_arch_copy "multi" "dst" w = (w', Ok tt) /\
    fs w' !! "dst/index.json" = Some (File (json_dumps index_json)) /\
    py_getitem index_json "manifests"
    = Ok (JArr [Fixtures.entry Fixtures.aarch64 "linux" "arm64"]) /\
    py_setitem
      (Fixtures.index_doc
         [Fixtures.descriptor Fixtures.manifest_media_type
            (Fixtures.manifest_digest Fixtures.aarch64)
            (json_dumps (Fixtures.manifest_of Fixtures.aarch64)) []])
      "manifests" (JArr [Fixtures.entry Fixtures.aarch64 "linux" "arm64"])
    = Ok index_json.
Proof.
  intros env w.
  apply (projection_keeps_original_descriptor (env := env) "multi" "dst" w
           (check_call (skopeo_copy "multi" "dst") w).1
           (image_index_of Fixtures.composed_entries)
           (Fixtures.index_doc
              [Fixtures.descriptor Fixtures.manifest_media_type
                 (Fixtures.manifest_digest Fixtures.aarch64)
                 (json_dumps (Fixtures.manifest_of Fixtures.aarch64)) []])
           (JStr "arm64")
           [Fixtures.entry Fixtures.x86_64 "linux" "amd64"]
           []
           (Fixtures.entry Fixtures.aarch64 "linux" "arm64")
           ("multi/blobs/sha256/" +:+ Fixtures.manifest_digest Fixtures.aarch64)
           ("dst/blobs/sha256/" +:+ Fixtures.manifest_digest Fixtures.aarch64)
           (json_dumps (Fixtures.manifest_of Fixtures.aarch64))).
  - vm_refl.
  - vm_refl.
  - reflexivity.
  - repeat constructor. now apply other_architecture_str.
  - apply has_architecture_str.
  - reflexivity.
  - reflexivity.
  - vm_refl.
  - discriminate.
  - vm_cast_no_check I.
Defined.

Lemma projection_adds_manifest_blob_witness :
  let env := Tools.environment "linux" "arm64" in
  let w := World Fixtures.composed [] in
  let w1 := (check_call (skopeo_copy "multi" "dst") w).1 in
  let pd := "dst/blobs/sha256/" +:+ Fixtures.manifest_digest Fixtures.aarch64 in
  exists w',
    make_single_arch_copy "multi" "dst" w = (w', Ok tt) /\
    (pd <> "dst/index.json" ->
     fs w' !! pd = Some (File (json_dumps (Fixtures.manifest_of Fixtures.aarch64)))) /\
    (forall p, p <> pd -> p <> "dst/index.json" -> fs w' !! p = fs w1 !! p).
Proof.
  intros env w w1 pd.
  apply (projection_adds_manifest_blob (env := env) "multi" "dst" w w1
           (image_index_of Fixtures.composed_entries)
           (Fixtures.index_doc
              [Fixtures.descriptor Fixtures.manifest_media_type
                 (Fixtures.manifest_digest Fixtures.aarch64)
                 (json_dumps (Fixtures.manifest_of Fixtures.aarch64)) []])
           (JStr "arm64")
           [Fixtures.entry Fixtures.x86_64 "linux" "amd64"]
           []
           (Fixtures.entry Fixtures.aarch64 "linux" "arm64")
           ("multi/blobs/sha256/" +:+ Fixtures.manifest_digest Fixtures.aarch64)
           pd
           (json_dumps (Fixtures.manifest_of Fixtures.aarch64))).
  - vm_refl.
  - vm_refl.
  - reflexivity.
  - repeat constructor. now apply other_architecture_str.
  - apply has_architecture_str.
  - reflexivity.
  - reflexivity.
  - vm_refl.
  - discriminate.
  - vm_cast_no_check I.
Defined.

(** *** A platform the image index does not list *)

Lemma find_none (A : Type) (f : A -> bool) (l : list A) :
  Forall (fun x => f x = false) l -> find f l = None.
Proof. induction 1 as [|x l Hx _ IH]; cbn [find]; [reflexivity | now rewrite Hx]. Qed.

(** The reference transport tool copies nothing when the image index
    has no instance for the platform of the system. *)
Lemma skopeo_copy_refuses (os arch source_path dest_path : string)
    (f : gmap string node) (c1 c2 p : string) (index d image_index : json)
    (manifests : list json) :
  f !! (source_path // "index.json") = Some (File c1) ->
  Tools.parse_json c1 = Some index ->
  py_getitem index "manifests" = Ok (JArr [d]) ->
  py_getitem d "mediaType" = Ok (JStr index_media_type) ->
  get_path_from_descriptor source_path d = Ok p ->
  f !! p = Some (File c2) ->
  Tools.parse_json c2 = Some image_index ->
  index_manifests image_index = Ok manifests ->
  Forall (fun m => Tools.has_platform os arch m = false) manifests ->
  Tools.run os arch (skopeo_copy source_path dest_path) f = (f, None).
Proof.
  intros F1 P1 Hm Ht Hp F2 P2 Hi Hall.
  unfold Tools.run, skopeo_copy.
  change (String.eqb "skopeo" "skopeo") with true. cbv iota.
  change (String.eqb "copy" "copy") with true.
  change (String.eqb "--multi-arch=system" "--multi-arch=system") with true.
  rewrite !startswith_app. cbn [andb].
  change (str_drop 4 ("oci:" +:+ source_path)) with source_path.
  change (str_drop 4 ("oci:" +:+ dest_path)) with dest_path.
  assert (E : Tools.skopeo_copy_system os arch source_path dest_path (World f [])
              = (World f [], Raise (Exn "NoImageForPlatform"))).
  { unfold Tools.skopeo_copy_system.
    unfold bind at 1, Tools.read_json at 1, bind at 1, read_file at 1.
    cbn [fs]. rewrite F1, P1. unfold ret at 1.
    unfold bind at 1, lift at 1. rewrite Hm.
    unfold bind at 1, Tools.choose_instance at 1. rewrite Ht.
    rewrite String.eqb_refl.
    unfold bind at 1, lift at 1. rewrite Hp.
    unfold bind at 1, Tools.read_json at 1, bind at 1, read_file at 1.
    cbn [fs]. rewrite F2, P2. unfold ret at 1.
    unfold bind at 1, lift at 1.
    change (m <~ py_getitem image_index "manifests"; py_iter m)%py
      with (index_manifests image_index).
    rewrite Hi. now rewrite (find_none _ _ _ Hall). }
  now rewrite E.
Qed.

(** C3, amended: when the image index of a layout lists no
    descriptor for the platform of the system, the projection fails, but it
    is the transport tool that fails: [check_call] raises
    [CalledProcessError] and [make_single_arch_copy] stops there, having
    read and written nothing itself, so that no [index.json] is made for the
    destination.  The script has no error of its own for this. *)
Theorem missing_platform_stops_at_transport_tool (os arch : string)
    (source_path dest_path : string) (w : world) (c1 c2 p : string)
    (index d image_index : json) (manifests : list json) :
  fs w !! (source_path // "index.json") = Some (File c1) ->
  Tools.parse_json c1 = Some index ->
  py_getitem index "manifests" = Ok (JArr [d]) ->
  py_getitem d "mediaType" = Ok (JStr index_media_type) ->
  get_path_from_descriptor source_path d = Ok p ->
  fs w !! p = Some (File c2) ->
  Tools.parse_json c2 = Some image_index ->
  index_manifests image_index = Ok manifests ->
  Forall (fun m => Tools.has_platform os arch m = false) manifests ->
  make_single_arch_copy (env := Tools.environment os arch)
    source_path dest_path w
  = (World (fs w) (trace w ++ [skopeo_copy source_path dest_path]),
     Raise CalledProcessError).
Proof.
  intros F1 P1 Hm Ht Hp F2 P2 Hi Hall.
  unfold make_single_arch_copy, bind at 1, check_call at 1.
  cbn [run_command Tools.environment].
  now rewrite (skopeo_copy_refuses os arch source_path dest_path (fs w)
                 c1 c2 p index d image_index manifests).
Qed.

Lemma missing_platform_stops_at_transport_tool_witness :
  let env := Tools.environment "linux" "arm" in
  let w := World Fixtures.composed [] in
  make_single_arch_copy "multi" "dst" w
  = (World Fixtures.composed [skopeo_copy "multi" "dst"],
     Raise CalledProcessError).
Proof.
  intros env w.
  pose (contents := json_dumps (image_index_of Fixtures.composed_entries)).
  pose (d := Fixtures.descriptor index_media_type Fixtures.composed_digest
               contents []).
  apply (missing_platform_stops_at_transport_tool "linux" "arm" "multi" "dst" w
           (json_dumps (Fixtures.index_doc [d])) contents
           ("multi/blobs/sha256/" +:+ Fixtures.composed_digest)
           (Fixtures.index_doc [d]) d
           (image_index_of Fixtures.composed_entries)
           Fixtures.composed_entries).
  - vm_refl.
  - vm_refl.
  - reflexivity.
  - reflexivity.
  - reflexivity.
  - vm_refl.
  - vm_refl.
  - reflexivity.
  - repeat constructor.
Defined.

(** C3, as stated, fails: on a system of architecture [arm], which
    the image index of the composed layout does not list, the projection
    does fail, but with the [CalledProcessError] of the transport tool and
    not with a [PlatformNotFound] error. *)
Lemma missing_platform_raises_called_process_error :
  let env := Tools.environment "linux" "arm" in
  let w := World Fixtures.composed [] in
  let r := make_single_arch_copy "multi" "dst" w in
  read_manifest "multi" w = (w, Ok (image_index_of Fixtures.composed_entries)) /\
  Forall (other_architecture (JStr "arm")) Fixtures.composed_entries /\
  r.2 = Raise CalledProcessError /\
  r.2 <> Raise (Exn "PlatformNotFound") /\
  fs r.1 !! "dst/index.json" = None.
Proof.
  intros env w r.
  assert (E : (read_manifest "multi" w, r.2, fs r.1 !! "dst/index.json")
              = ((w, Ok (image_index_of Fixtures.composed_entries)),
                 Raise CalledProcessError, None)) by vm_refl.
  apply pair_eq_inv in E as [E E3]. apply pair_eq_inv in E as [E1 E2].
  split; [exact E1 |]. split; [| split; [exact E2 | split; [| exact E3]]].
  - repeat constructor; now apply other_architecture_str.
  - rewrite E2. discriminate.
Qed.

(** *** An image index that names architectures in another way *)

Lemma missing_architecture_keeps_tool_index_witness :
  let env := Tools.environment "linux" "aarch64" in
  let w := World Fixtures.renamed [] in
  let w1 := (check_call (skopeo_copy "multi" "dst") w).1 in
  exists w',
    make_single_arch_copy "multi" "dst" w = (w', Ok tt) /\
    trace w' = trace w1 /\
    fs w' = <["dst/index.json" :=
                File (json_dumps (Fixtures.index_doc
                  [Fixtures.descriptor Fixtures.manifest_media_type
                     (Fixtures.manifest_digest Fixtures.aarch64)
                     (json_dumps (Fixtures.manifest_of Fixtures.aarch64)) []]))]>
            (fs w1).
Proof.
  intros env w w1.
  apply (missing_architecture_keeps_tool_index (env := env) "multi" "dst" w w1
           (image_index_of Fixtures.renamed_entries) _ (JStr "arm64")
           Fixtures.renamed_entries).
  - vm_refl.
  - vm_refl.
  - reflexivity.
  - repeat constructor; now apply other_architecture_str.
Defined.

(** *** One architecture under two operating systems *)

(** C7, as stated, fails on the code.  On a Linux system the
    transport tool copies the Linux image; the loop looks at the
    architecture alone and selects the first [amd64] descriptor, the one for
    Windows.  The destination then lacks the config and the layer of the
    manifest its index names and holds the layer of the other image;
    installing from it stops with [FileNotFoundError]. *)
Lemma projection_misses_selected_blobs :
  let env := Tools.environment "linux" "amd64" in
  let w := World Fixtures.two_systems [] in
  let r := make_single_arch_copy "multi" "dst" w in
  r.2 = Ok tt /\
  fs r.1 !! "dst/index.json"
  = Some (File (json_dumps (Fixtures.index_doc
       [Fixtures.entry Fixtures.windows "windows" "amd64"]))) /\
  fs r.1 !! ("dst/blobs/sha256/" +:+ Fixtures.manifest_digest Fixtures.windows)
  = Some (File (json_dumps (Fixtures.manifest_of Fixtures.windows))) /\
  fs r.1 !! ("dst/blobs/sha256/" +:+ Fixtures.config_digest Fixtures.windows)
  = None /\
  fs r.1 !! ("dst/blobs/sha256/" +:+ Fixtures.layer_digest Fixtures.windows)
  = None /\
  fs r.1 !! ("dst/blobs/sha256/" +:+ Fixtures.layer_digest Fixtures.x86_64)
  = Some (File (Fixtures.layer Fixtures.x86_64)) /\
  (_install_from_path 1 "repo" "dst" r.1).2 = Raise FileNotFoundError.
Proof.
  intros env w r.
  assert (E :
    (r.2,
     fs r.1 !! "dst/index.json",
     fs r.1 !! ("dst/blobs/sha256/" +:+ Fixtures.manifest_digest Fixtures.windows),
     fs r.1 !! ("dst/blobs/sha256/" +:+ Fixtures.config_digest Fixtures.windows),
     fs r.1 !! ("dst/blobs/sha256/" +:+ Fixtures.layer_digest Fixtures.windows),
     fs r.1 !! ("dst/blobs/sha256/" +:+ Fixtures.layer_digest Fixtures.x86_64),
     (_install_from_path 1 "repo" "dst" r.1).2)
    = (Ok tt,
       Some (File (json_dumps (Fixtures.index_doc
         [Fixtures.entry Fixtures.windows "windows" "amd64"]))),
       Some (File (json_dumps (Fixtures.manifest_of Fixtures.windows))),
       None, None,
       Some (File (Fixtures.layer Fixtures.x86_64)),
       Raise FileNotFoundError)) by vm_refl.
  apply pair_eq_inv in E as [E E7].
  apply pair_eq_inv in E as [E E6]. apply pair_eq_inv in E as [E E5].
  apply pair_eq_inv in E as [E E4]. apply pair_eq_inv in E as [E E3].
  apply pair_eq_inv in E as [E1 E2].
  exact (conj E1 (conj E2 (conj E3 (conj E4 (conj E5 (conj E6 E7)))))).
Qed.

(** C1, as stated, fails on the code.  The image index lists the
    platforms [windows], [amd64] and [linux], [amd64], in this order, and
    the system is [linux], [amd64]: the transport tool copies the Linux
    image, yet the entry written for the destination is the descriptor of
    the Windows image, the first one of architecture [amd64]. *)
Lemma projection_names_another_system :
  let env := Tools.environment "linux" "amd64" in
  let w := World Fixtures.two_systems [] in
  let r := make_single_arch_copy "multi" "dst" w in
  read_manifest "multi" w = (w, Ok (image_index_of Fixtures.two_systems_entries)) /\
  find (Tools.has_platform "linux" "amd64") Fixtures.two_systems_entries
  = Some (Fixtures.entry Fixtures.x86_64 "linux" "amd64") /\
  r.2 = Ok tt /\
  fs r.1 !! "dst/index.json"
  = Some (File (json_dumps (Fixtures.index_doc
       [Fixtures.entry Fixtures.windows "windows" "amd64"]))) /\
  Fixtures.entry Fixtures.windows "windows" "amd64"
  <> Fixtures.entry Fixtures.x86_64 "linux" "amd64".
Proof.
  intros env w r.
  assert (E : (read_manifest "multi" w,
               find (Tools.has_platform "linux" "amd64")
                    Fixtures.two_systems_entries,
               r.2, fs r.1 !! "dst/index.json")
              = ((w, Ok (image_index_of Fixtures.two_systems_entries)),
                 Some (Fixtures.entry Fixtures.x86_64 "linux" "amd64"),
                 Ok tt,
                 Some (File (json_dumps (Fixtures.index_doc
                   [Fixtures.entry Fixtures.windows "windows" "amd64"])))))
    by vm_refl.
  apply pair_eq_inv in E as [E E4]. apply pair_eq_inv in E as [E E3].
  apply pair_eq_inv in E as [E1 E2].
  split; [exact E1 |]. split; [exact E2 |]. split; [exact E3 |].
  split; [exact E4 |]. discriminate.
Qed.

(** ** Parents and names of paths *)

Lemma split_last_no_slash (n : string) :
  no_slash n = true -> split_last n = (None, n).
Proof.
  induction n as [|c n IH]; [reflexivity |]. cbn [no_slash split_last].
  intros E. apply andb_true_iff in E as [E1 E2]. rewrite (IH E2).
  apply negb_true_iff in E1. now rewrite E1.
Qed.

Lemma split_last_app (a n : string) :
  no_slash n = true -> split_last (a +:+ String "/" n) = (Some a, n).
Proof.
  intros E. induction a as [|c a IH]; str_simpl.
  - cbn [split_last]. now rewrite (split_last_no_slash n E).
  - cbn [split_last]. now rewrite IH.
Qed.

Lemma dirname_app (a n : string) :
  no_slash n = true -> dirname (a +:+ "/" +:+ n) = a.
Proof. intros E. unfold dirname. str_simpl. now rewrite split_last_app. Qed.

Lemma basename_app (a n : string) :
  no_slash n = true -> basename (a +:+ "/" +:+ n) = n.
Proof. intros E. unfold basename. str_simpl. now rewrite split_last_app. Qed.

Lemma basename_no_slash (p : string) : no_slash (basename p) = true.
Proof.
  unfold basename. induction p as [|c p IH]; [reflexivity |].
  cbn [split_last]. destruct (split_last p) as [[d|] n]; [exact IH |].
  destruct (Ascii.eqb c "/") eqn:E; [exact IH |].
  cbn [snd no_slash] in *. now rewrite E, IH.
Qed.

Lemma ends_with_slash_inv (a : string) :
  ends_with_slash a = true -> exists b, a = b +:+ "/".
Proof.
  induction a as [|c a IH]; [discriminate |]. cbn [ends_with_slash].
  destruct a as [|c' a'].
  - intros E. apply Ascii.eqb_eq in E as ->. now exists "".
  - intros E. destruct (IH E) as [b ->]. now exists (String c b).
Qed.

(** [a / n] for a plain name [n] ends in that name. *)
Lemma basename_join2 (a n : string) :
  no_slash n = true -> basename (join2 a n) = n.
Proof.
  intros E. unfold join2. rewrite (no_slash_relative n E).
  destruct (String.eqb_spec a "") as [->|_]; simpl orb.
  - str_simpl. unfold basename. now rewrite split_last_no_slash.
  - destruct (ends_with_slash a) eqn:Es.
    + destruct (ends_with_slash_inv a Es) as [b ->].
      rewrite str_app_assoc. now apply basename_app.
    + now apply basename_app.
Qed.

Lemma basename_path_div (a n : string) :
  no_slash n = true -> n <> "" -> n <> "." -> basename (a // n) = n.
Proof.
  intros E N1 N2. rewrite path_div_plain by assumption. now apply basename_join2.
Qed.

Lemma blobs_dir_join (a : string) : a // "blobs/sha256" = join2 a "blobs/sha256".
Proof. reflexivity. Qed.

(** The blob directory of a layout is a path in normal form. *)
Lemma blobs_dir_normal (a : string) :
  a // "blobs/sha256" <> "" /\ ends_with_slash (a // "blobs/sha256") = false.
Proof.
  rewrite blobs_dir_join. unfold join2. simpl startswith. cbv iota.
  destruct (String.eqb a "" || ends_with_slash a).
  - split; [destruct a; discriminate |].
    now rewrite (ends_with_slash_app a "b" "lobs/sha256").
  - split; [destruct a; discriminate |]. str_simpl.
    now rewrite (ends_with_slash_app a "/" "blobs/sha256").
Qed.

Lemma basename_blobs_dir (a : string) : basename (a // "blobs/sha256") = "sha256".
Proof.
  rewrite blobs_dir_join. unfold join2. simpl startswith. cbv iota.
  destruct (String.eqb a "" || ends_with_slash a).
  - replace (a +:+ "blobs/sha256") with ((a +:+ "blobs") +:+ "/" +:+ "sha256")
      by (rewrite str_app_assoc; reflexivity).
    now apply basename_app.
  - replace (a +:+ "/" +:+ "blobs/sha256")
      with ((a +:+ "/blobs") +:+ "/" +:+ "sha256")
      by (rewrite str_app_assoc; reflexivity).
    now apply basename_app.
Qed.

(** A plain name inside a directory in normal form. *)
Lemma path_div_name (d n : string) :
  d <> "" -> ends_with_slash d = false ->
  no_slash n = true -> n <> "" -> n <> "." ->
  d // n = d +:+ "/" +:+ n.
Proof.
  intros Hd Hs Hn N1 N2. rewrite path_div_plain by assumption.
  apply join2_relative; auto using no_slash_relative.
Qed.

(** ** The digest in hexadecimal *)

Lemma hex_digit_not_slash (n : Z) : Ascii.eqb (hex_digit (n mod 16)) "/" = false.
Proof.
  pose proof (Z.mod_pos_bound n 16 eq_refl) as B.
  assert (C : n mod 16 = 0 \/ n mod 16 = 1 \/ n mod 16 = 2 \/ n mod 16 = 3 \/
              n mod 16 = 4 \/ n mod 16 = 5 \/ n mod 16 = 6 \/ n mod 16 = 7 \/
              n mod 16 = 8 \/ n mod 16 = 9 \/ n mod 16 = 10 \/ n mod 16 = 11 \/
              n mod 16 = 12 \/ n mod 16 = 13 \/ n mod 16 = 14 \/ n mod 16 = 15)
    by lia.
  repeat (destruct C as [-> | C]; [reflexivity |]). now rewrite C.
Qed.

Lemma hex_byte_no_slash (b : Z) (rest : string) :
  no_slash (Sha256.hex_byte b rest) = no_slash rest.
Proof.
  unfold Sha256.hex_byte. cbn [no_slash]. now rewrite !hex_digit_not_slash.
Qed.

Lemma hexdigest_no_slash (msg : string) : no_slash (Sha256.hexdigest msg) = true.
Proof.
  unfold Sha256.hexdigest.
  destruct (Sha256.digest msg) as [[[[[[[a b] c] d] e] f] g] h].
  unfold Sha256.hex_word. now rewrite !hex_byte_no_slash.
Qed.

Lemma hexdigest_length (msg : string) : String.length (Sha256.hexdigest msg) = 64%nat.
Proof.
  unfold Sha256.hexdigest.
  destruct (Sha256.digest msg) as [[[[[[[a b] c] d] e] f] g] h]. reflexivity.
Qed.

Lemma hexdigest_nonempty (msg : string) : Sha256.hexdigest msg <> "".
Proof.
  intros E. pose proof (hexdigest_length msg) as L. now rewrite E in L.
Qed.

Lemma hexdigest_not_dot (msg : string) : Sha256.hexdigest msg <> ".".
Proof.
  intros E. pose proof (hexdigest_length msg) as L. rewrite E in L. discriminate.
Qed.

(** ** The composer *)

Lemma same_outside_refl (d : string) (w : world) : same_outside d w w.
Proof. now split. Qed.

Lemma same_outside_trans (d : string) (w1 w2 w3 : world) :
  same_outside d w1 w2 -> same_outside d w2 w3 -> same_outside d w1 w3.
Proof.
  intros [T1 F1] [T2 F2]. split; [congruence |].
  intros p N. now rewrite F2, F1.
Qed.

Lemma write_file_inv (p c : string) (w w' : world) :
  write_file p c w = (w', Ok tt) ->
  w' = put p (File c) w /\ fs w !! p <> Some Dir.
Proof.
  unfold write_file. destruct (fs w !! p) as [[?|]|]; try discriminate.
  - intros E. injection E as <-. now split.
  - destruct (fs w !! dirname p) as [[?|]|]; try discriminate;
      destruct (is_dir (fs w) (dirname p)); try discriminate;
      intros E; injection E as <-; now split.
Qed.

(** A copy changes nothing or puts a regular file where no directory is. *)
Lemma copyfile_cases (src dst : string) (w w' : world) (r : result unit) :
  copyfile src dst w = (w', r) ->
  w' = w \/ exists c, w' = put dst (File c) w /\ fs w !! dst <> Some Dir.
Proof.
  unfold copyfile. destruct (_ && _); [intros E; injection E; auto |].
  unfold bind, read_file. destruct (fs w !! src) as [[c|]|];
    [| intros E; injection E; auto ..].
  unfold write_file. destruct (fs w !! dst) as [[?|]|] eqn:Ed.
  - intros E. injection E as <- _. right. exists c. now split.
  - intros E. injection E; auto.
  - destruct (fs w !! dirname dst) as [[?|]|];
      [intros E; injection E; auto | |];
      (destruct (is_dir (fs w) (dirname dst));
       [intros E; injection E as <- _; right; exists c; now split
       | intros E; injection E; auto]).
Qed.

(** Copying blobs into a directory in normal form touches nothing else. *)
Lemma copy_blobs_outside (d : string) (blobs : list string) (w w' : world)
    (r : result unit) :
  d <> "" -> ends_with_slash d = false ->
  fs w !! d = Some Dir ->
  for_each blobs (fun blob => copyfile blob (d // basename blob)) w = (w', r) ->
  same_outside d w w' /\ fs w' !! d = Some Dir.
Proof.
  intros Hd Hs. revert w. induction blobs as [|blob blobs IH]; intros w Hdir E.
  - injection E as <- _. split; [apply same_outside_refl | assumption].
  - cbn [for_each] in E. unfold bind in E.
    destruct (copyfile blob (d // basename blob) w) as [w1 r1] eqn:Ec.
    assert (S1 : same_outside d w w1 /\ fs w1 !! d = Some Dir).
    { apply copyfile_cases in Ec as [-> | (c & -> & Hn)];
        [split; [apply same_outside_refl | assumption] |].
      destruct (String.eqb_spec (basename blob) "") as [Eb | Nb];
        [exfalso; apply Hn; now rewrite Eb |].
      destruct (String.eqb_spec (basename blob) ".") as [Eb | Nd].
      - exfalso. apply Hn. now rewrite Eb.
      - rewrite path_div_name in * by auto using basename_no_slash.
        split; [split; [reflexivity |] |].
        + intros p N. simpl. apply lookup_insert_ne. intros <-.
          apply N, dirname_app, basename_no_slash.
        + simpl. rewrite lookup_insert_ne; [assumption |].
          intros E'. rewrite E' in Hn. contradiction. }
    destruct S1 as [S1 D1]. destruct r1 as [[]|e].
    + destruct (IH w1 D1 E) as [S2 D2].
      split; [eapply same_outside_trans; eassumption | assumption].
    + injection E as <- _. now split.
Qed.

Lemma iterdir_world (d : string) (w w' : world) (r : result (list string)) :
  iterdir d w = (w', r) -> w' = w.
Proof. unfold iterdir. destruct (fs w !! d) as [[?|]|]; intros E; now injection E. Qed.

Lemma if_bool_decide_ext (P Q : Prop) `{Decision P, Decision Q} {A} (x y : A) :
  (P <-> Q) ->
  (if bool_decide P then x else y) = (if bool_decide Q then x else y).
Proof. intros E. now rewrite (bool_decide_ext P Q E). Qed.

Lemma lookup_make_dirs (l : list string) (f : gmap string node) (p : string) :
  fold_left make_dir l f !! p
  = match f !! p with
    | Some n => Some n
    | None => if bool_decide (p ∈ l /\ p <> "") then Some Dir else None
    end.
Proof.
  revert f. induction l as [|a l IH]; intros f; cbn [fold_left].
  - destruct (f !! p); [reflexivity |].
    rewrite bool_decide_eq_false_2; [reflexivity |]. intros [H _]. inversion H.
  - rewrite IH. unfold make_dir.
    destruct (f !! a) eqn:Ea.
    + destruct (f !! p) eqn:Ep; [reflexivity |].
      apply if_bool_decide_ext. rewrite elem_of_cons.
      split; [tauto |]. intros [[-> | H] N]; [congruence | tauto].
    + destruct (String.eqb_spec a "") as [-> | Na].
      * destruct (f !! p) eqn:Ep; [reflexivity |].
        apply if_bool_decide_ext. rewrite elem_of_cons.
        split; [tauto |]. intros [[-> | H] N]; [contradiction | tauto].
      * destruct (decide (p = a)) as [-> | Np].
        -- rewrite lookup_insert_eq, Ea.
           rewrite bool_decide_eq_true_2; [reflexivity |].
           split; [apply elem_of_cons; auto | assumption].
        -- rewrite lookup_insert_ne by congruence.
           destruct (f !! p) eqn:Ep; [reflexivity |].
           apply if_bool_decide_ext. rewrite elem_of_cons.
           split; [tauto |]. intros [[-> | H] N]; [contradiction | tauto].
Qed.

Lemma lookup_remove_tree (d : string) (f : gmap string node) (p : string) :
  remove_tree d f !! p
  = if decide (p <> d /\ under d p = false) then f !! p else None.
Proof.
  unfold remove_tree. rewrite map_lookup_filter.
  destruct (f !! p) as [n|]; simpl; [| now destruct (decide _)].
  unfold guard. simpl. now destruct (decide _).
Qed.

Section Composer.
Context {env : Environment}.

Lemma load_json_blob_world (base : string) (d : json) (w w' : world)
    (r : result json) :
  load_json_blob base d w = (w', r) -> w' = w.
Proof.
  unfold load_json_blob, bind, lift.
  destruct (blob_path base d); [apply load_json_world | intros E; now injection E].
Qed.

Lemma with_platform_inv (manifest_descriptor config d : json) :
  with_platform manifest_descriptor config = Ok d ->
  exists fields os architecture,
    manifest_descriptor = JObj fields /\
    py_getitem config "os" = Ok os /\
    py_getitem config "architecture" = Ok architecture /\
    d = JObj (dict_set fields "platform"
                (JObj [("os", os); ("architecture", architecture)])).
Proof.
  unfold with_platform. destruct manifest_descriptor; try discriminate.
  cbn [py_dict rbind].
  destruct (py_getitem config "os") as [os|]; [| discriminate]. cbn [rbind].
  destruct (py_getitem config "architecture") as [a|]; [| discriminate].
  cbn [rbind py_setitem]. intros E. injection E as <-. eauto 10.
Qed.

(** The descriptor made for an input is read from the input as it
    stands, and reading changes nothing. *)
Lemma output_descriptor_inv (input_dir : string) (w w' : world) (d : json) :
  output_descriptor_of input_dir w = (w', Ok d) ->
  w' = w /\ composed_descriptor w input_dir d.
Proof.
  unfold output_descriptor_of. intros E.
  apply bind_ok_inv in E as (md & w1 & E1 & E).
  assert (w1 = w) as ->.
  { unfold input_manifest_descriptor, bind, lift in E1.
    destruct (load_json _ w) as [w2 [j|e]] eqn:El;
      apply load_json_world in El as ->; now injection E1. }
  apply bind_ok_inv in E as (config & w1 & E2 & E).
  assert (w1 = w) as ->.
  { unfold input_config, bind, lift in E2.
    destruct (load_json_blob input_dir md w) as [w2 [m|e]] eqn:El;
      apply load_json_blob_world in El as ->; [| now injection E2].
    destruct (py_getitem m "config"); [| now injection E2].
    now apply load_json_blob_world in E2. }
  apply lift_ok_inv in E as [-> E].
  destruct (with_platform_inv _ _ _ E) as (fields & os & a & -> & Ho & Ha & ->).
  split; [reflexivity |]. now exists fields, config, os, a.
Qed.

(** The loop over the inputs: one descriptor per input, in order, each
    read from its input while only the blob directory of the output
    changes. *)
Lemma add_images_inv (blobs_dir : string) (images : list (string * string))
    (acc manifests : list json) (w w' : world) :
  blobs_dir <> "" -> ends_with_slash blobs_dir = false ->
  fs w !! blobs_dir = Some Dir ->
  add_images blobs_dir images acc w = (w', Ok manifests) ->
  same_outside blobs_dir w w' /\ fs w' !! blobs_dir = Some Dir /\
  exists added,
    manifests = acc ++ added /\
    Forall2 (fun image d =>
               exists wi, same_outside blobs_dir w wi /\
                          composed_descriptor wi image.2 d)
            images added.
Proof.
  intros Hd Hs. revert acc w.
  induction images as [|[k input_dir] images IH]; intros acc w Hdir E.
  - injection E as <- <-. split; [apply same_outside_refl |].
    split; [assumption |]. exists []. now rewrite app_nil_r.
  - cbn [add_images] in E.
    apply bind_ok_inv in E as (blobs & w1 & E1 & E).
    apply iterdir_world in E1 as ->.
    apply bind_ok_inv in E as ([] & w1 & E1 & E).
    destruct (copy_blobs_outside _ _ _ _ _ Hd Hs Hdir E1) as [S1 D1].
    apply bind_ok_inv in E as (d & w2 & E2 & E).
    apply output_descriptor_inv in E2 as [-> C].
    destruct (IH _ _ D1 E) as (S2 & D2 & added & -> & F).
    split; [eapply same_outside_trans; eassumption |].
    split; [assumption |].
    exists (d :: added). split; [now rewrite <- app_assoc |].
    constructor; [now exists w1 |].
    eapply Forall2_impl; [exact F |].
    intros image d' (wi & Si & Ci). exists wi.
    split; [eapply same_outside_trans; eassumption | assumption].
Qed.

(** Once the output directory is prepared its blob directory exists. *)
Lemma prepare_output_blobs_dir (output_dir : string) (w w0 : world) :
  prepare_output output_dir w = (w0, Ok tt) ->
  fs w0 !! (output_dir // "blobs/sha256") = Some Dir.
Proof.
  unfold prepare_output. intros E.
  apply bind_ok_inv in E as (e & w1 & _ & E).
  apply bind_ok_inv in E as ([] & w2 & _ & E).
  apply bind_ok_inv in E as ([] & w3 & Em & E).
  apply write_file_inv in E as [-> Hn].
  unfold mkdir_parents in Em.
  destruct (bool_decide (is_Some (fs w2 !! (output_dir // "blobs/sha256"))))
    eqn:Ex; [discriminate |].
  destruct (existsb _ _); [discriminate |]. injection Em as <-.
  apply bool_decide_eq_false in Ex.
  assert (En : fs w2 !! (output_dir // "blobs/sha256") = None).
  { destruct (fs w2 !! _); [exfalso; apply Ex; eauto | reflexivity]. }
  simpl in *. rewrite lookup_insert_ne.
  - rewrite lookup_make_dirs, En.
    rewrite bool_decide_eq_true_2; [reflexivity |].
    split; [apply elem_of_app; right; apply elem_of_cons; now left |].
    apply blobs_dir_normal.
  - intros E'. apply (f_equal basename) in E'.
    rewrite basename_path_div, basename_blobs_dir in E' by easy. discriminate.
Qed.

(** What the composer leaves behind when it returns. *)
Lemma make_multiarch_image_inv (output_dir : string)
    (images : list (string * string)) (w w' : world) :
  make_multiarch_image output_dir images w = (w', Ok tt) ->
  exists w0 w1 manifests,
    let blobs_dir := output_dir // "blobs/sha256" in
    let contents := json_dumps (image_index_of manifests) in
    let digest := Sha256.hexdigest contents in
    prepare_output output_dir w = (w0, Ok tt) /\
    same_outside blobs_dir w0 w1 /\
    Forall2 (fun image d =>
               exists wi, same_outside blobs_dir w0 wi /\
                          composed_descriptor wi image.2 d)
            images manifests /\
    w' = put (output_dir // "index.json")
             (File (json_dumps (archive_index_of digest)))
             (put (blobs_dir // digest) (File contents) w1) /\
    blobs_dir // digest <> output_dir // "index.json".
Proof.
  unfold make_multiarch_image. intros E.
  apply bind_ok_inv in E as ([] & w0 & E0 & E).
  apply bind_ok_inv in E as (manifests & w1 & E1 & E).
  pose proof (prepare_output_blobs_dir _ _ _ E0) as D0.
  destruct (blobs_dir_normal output_dir) as [Hd Hs].
  destruct (add_images_inv _ _ _ _ _ _ Hd Hs D0 E1) as (S1 & D1 & added & -> & F).
  unfold write_index in E.
  apply bind_ok_inv in E as ([] & w2 & E2 & E).
  apply write_file_inv in E2 as [-> _]. apply write_file_inv in E as [-> _].
  exists w0, w1, added. cbn zeta.
  split; [assumption |]. split; [assumption |]. split; [assumption |].
  split; [reflexivity |].
  intros E'. apply (f_equal basename) in E'.
  rewrite !basename_path_div in E'
    by (auto using hexdigest_no_slash, hexdigest_nonempty, hexdigest_not_dot
        || easy).
  pose proof (hexdigest_length (json_dumps (image_index_of added))) as L.
  rewrite E' in L. discriminate.
Qed.

End Composer.

Lemma ancestors_app (a b : string) :
  ancestors (a +:+ String "/" b)
  = ancestors a ++ [a] ++ map (fun x => a +:+ String "/" x) (ancestors b).
Proof.
  induction a as [|c a IH]; str_simpl.
  - cbn [ancestors]. rewrite Ascii.eqb_refl. reflexivity.
  - cbn [ancestors]. rewrite IH, !map_app, map_map, <- !app_assoc. reflexivity.
Qed.

Lemma ancestors_shorter (p a : string) :
  a ∈ ancestors p -> (String.length a < String.length p)%nat.
Proof.
  revert a. induction p as [|c p IH]; intros a; cbn [ancestors].
  - intros H. inversion H.
  - rewrite elem_of_app, list_elem_of_fmap. intros [H | (x & -> & H)].
    + destruct (Ascii.eqb c "/"); [| inversion H].
      apply elem_of_cons in H as [-> | H]; [simpl; lia | inversion H].
    + apply IH in H. simpl. lia.
Qed.

Lemma index_contents_long (manifests : list json) :
  (64 < String.length (json_dumps (image_index_of manifests)))%nat.
Proof.
  unfold json_dumps, image_index_of. cbn [dumps_at].
  rewrite !str_length_app.
  change (String.length (quote "mediaType")) with 11%nat.
  change (String.length (quote index_media_type)) with 41%nat.
  change (String.length (quote "schemaVersion")) with 15%nat.
  lia.
Qed.

(** *** Inside and outside the output tree *)

Lemma split_last_inv (p d n : string) :
  split_last p = (Some d, n) -> p = d +:+ "/" +:+ n.
Proof.
  revert d n. induction p as [|c p IH]; intros d n; cbn [split_last];
    [discriminate |].
  destruct (split_last p) as [[d'|] n'] eqn:E.
  - intros [= <- <-]. str_simpl. now rewrite (IH d' n' eq_refl).
  - destruct (Ascii.eqb_spec c "/") as [-> |]; [| discriminate].
    intros [= <- <-]. str_simpl. f_equal.
    clear IH. revert n' E. induction p as [|c p IH]; intros n'; cbn [split_last].
    + now intros [= <-].
    + destruct (split_last p) as [[d'|] n2]; [discriminate |].
      destruct (Ascii.eqb c "/"); [discriminate |].
      intros [= <-]. now rewrite (IH n2 eq_refl).
Qed.

Lemma dirname_inv (p d : string) :
  dirname p = d -> d <> "" -> p = d +:+ "/" +:+ basename p.
Proof.
  unfold dirname, basename. destruct (split_last p) as [[d'|] n] eqn:E; cbn.
  - intros <- _. now apply split_last_inv.
  - intros <- N. contradiction.
Qed.

Lemma under_app (d x : string) : under d (d +:+ "/" +:+ x) = true.
Proof.
  unfold under.
  replace (d +:+ "/" +:+ x) with ((d +:+ "/") +:+ x)
    by (rewrite str_app_assoc; reflexivity).
  apply startswith_app.
Qed.

Lemma under_app_below (d y x : string) :
  under d ((d +:+ String "/" y) +:+ x) = true.
Proof. rewrite str_app_assoc. exact (under_app d (y +:+ x)). Qed.

Lemma startswith_length (a b : string) :
  startswith a b = true -> (String.length a <= String.length b)%nat.
Proof.
  revert b. induction a as [|x a IH]; intros [|y b]; cbn; try lia; try discriminate.
  intros E. apply andb_true_iff in E as [_ E]. apply IH in E. lia.
Qed.

Lemma under_longer (d p : string) :
  under d p = true -> (String.length d < String.length p)%nat.
Proof.
  unfold under. intros E. apply startswith_length in E.
  rewrite str_length_app in E. simpl in E. lia.
Qed.

Lemma blobs_dir_eq (output_dir : string) :
  output_dir <> "" -> ends_with_slash output_dir = false ->
  output_dir // "blobs/sha256" = output_dir +:+ "/blobs/sha256".
Proof.
  intros Hn Hs. rewrite blobs_dir_join. now apply join2_relative.
Qed.

Lemma blobs_dir_dirs (output_dir : string) :
  ancestors (output_dir +:+ "/blobs/sha256") ++ [output_dir +:+ "/blobs/sha256"]
  = ancestors output_dir
    ++ [output_dir; output_dir +:+ "/blobs"; output_dir +:+ "/blobs/sha256"].
Proof.
  change (output_dir +:+ "/blobs/sha256")
    with (output_dir +:+ String "/" "blobs/sha256").
  rewrite ancestors_app, <- !app_assoc. reflexivity.
Qed.

Lemma rmtree_inv (d : string) (w w' : world) :
  rmtree d w = (w', Ok tt) ->
  fs w !! d = Some Dir /\ w' = World (remove_tree d (fs w)) (trace w).
Proof.
  unfold rmtree. destruct (fs w !! d) as [[?|]|]; try discriminate.
  intros E. injection E as <-. now split.
Qed.

Lemma mkdir_parents_inv (d : string) (w w' : world) :
  mkdir_parents d w = (w', Ok tt) ->
  fs w !! d = None /\
  w' = World (fold_left make_dir (ancestors d ++ [d]) (fs w)) (trace w).
Proof.
  unfold mkdir_parents.
  destruct (bool_decide (is_Some (fs w !! d))) eqn:Ex; [discriminate |].
  destruct (existsb _ _); [discriminate |]. intros E. injection E as <-.
  apply bool_decide_eq_false in Ex. split; [| reflexivity].
  destruct (fs w !! d); [exfalso; apply Ex; eauto | reflexivity].
Qed.

(** The stages of [prepare_output]. *)
Lemma prepare_output_inv (output_dir : string) (w w0 : world) :
  output_dir <> "" -> ends_with_slash output_dir = false ->
  prepare_output output_dir w = (w0, Ok tt) ->
  exists f2,
    ((fs w !! output_dir = Some Dir /\ f2 = remove_tree output_dir (fs w)) \/
     (fs w !! output_dir = None /\ f2 = fs w)) /\
    w0 = put (output_dir +:+ "/" +:+ "oci-layout") (File (json_dumps image_layout))
           (World (fold_left make_dir
                     (ancestors output_dir
                      ++ [output_dir; output_dir +:+ "/blobs";
                          output_dir +:+ "/blobs/sha256"]) f2)
                  (trace w)).
Proof.
  intros Hn Hs. unfold prepare_output. intros E.
  apply bind_ok_inv in E as (e & w1 & E1 & E).
  unfold path_exists in E1. injection E1 as <- <-.
  apply bind_ok_inv in E as ([] & w2 & E2 & E).
  apply bind_ok_inv in E as ([] & w3 & E3 & E).
  apply write_file_inv in E as [-> _].
  apply mkdir_parents_inv in E3 as [_ ->].
  rewrite blobs_dir_eq, blobs_dir_dirs in * by assumption.
  rewrite (path_div_name output_dir "oci-layout") by easy.
  exists (fs w2). split.
  - destruct (bool_decide (is_Some (fs w !! output_dir))) eqn:Ex.
    + apply rmtree_inv in E2 as [Hd ->]. now left.
    + injection E2 as <-. right. split; [| reflexivity].
      apply bool_decide_eq_false in Ex.
      destruct (fs w !! output_dir); [exfalso; apply Ex; eauto | reflexivity].
  - f_equal. f_equal.
    destruct (bool_decide (is_Some (fs w !! output_dir)));
      [now apply rmtree_inv in E2 as [_ ->] | now injection E2 as <-].
Qed.

Section ComposerTheorems.
Context {env : Environment}.

Lemma load_json_at (p c : string) (j : json) (w : world) :
  fs w !! p = Some (File c) -> json_loads c = Some j ->
  load_json p w = (w, Ok j).
Proof.
  intros Hf Hj. unfold load_json, bind, read_file. now rewrite Hf, Hj.
Qed.

Lemma document_inv (f : gmap string node) (p : string) (j : json) :
  document f p = Some j ->
  exists c, f !! p = Some (File c) /\ json_loads c = Some j.
Proof.
  unfold document. destruct (f !! p) as [[c|]|]; try discriminate. eauto.
Qed.

(** The blob the composer opens for a descriptor is the file named by
    the payload of its digest. *)
Lemma blob_path_named (dir : string) (descriptor : list (string * json))
    (hex : string) :
  dir <> "" -> ends_with_slash dir = false ->
  blob_name descriptor = Some hex ->
  blob_path dir (JObj descriptor) = Ok (dir +:+ "/blobs/sha256/" +:+ hex).
Proof.
  intros Hd Hs. unfold blob_name, blob_path, py_getitem.
  destruct (dict_get descriptor "digest") as [[| | |s| |]|]; try discriminate.
  cbn [rbind].
  rewrite (str_take_startswith "sha256:" s : String.eqb (str_take 7 s) _ = _).
  destruct (startswith "sha256:" s); [| discriminate]. cbn [andb].
  destruct (no_slash (str_drop 7 s)) eqn:Hn; [| discriminate]. cbn [andb].
  destruct (String.eqb_spec (str_drop 7 s) "") as [|N1]; [discriminate |].
  destruct (String.eqb_spec (str_drop 7 s) ".") as [|N2]; [discriminate |].
  cbn [negb andb]. intros [= <-].
  now rewrite blobs_path_div by auto using no_slash_relative, Path_plain.
Qed.

(** Where the files of an input are as in [f], the descriptor that
    the composer makes for it is the one prescribed from [f]. *)
Lemma output_descriptor_prescribed (dir : string) (f : gmap string node)
    (w : world) (d : json) :
  dir <> "" -> ends_with_slash dir = false ->
  (forall rest c, f !! (dir +:+ "/" +:+ rest) = Some (File c) ->
                  fs w !! (dir +:+ "/" +:+ rest) = Some (File c)) ->
  prescribed_descriptor f dir = Some d ->
  output_descriptor_of dir w = (w, Ok d).
Proof.
  intros Hd Hs Hf. unfold prescribed_descriptor.
  destruct (document f (dir +:+ "/index.json")) as [[| | | | |index]|] eqn:E1;
    try discriminate.
  destruct (dict_get index "manifests") as [[| | | |[|[| | | | |fields] ?]|]|]
    eqn:E2; try discriminate.
  unfold blob_document.
  destruct (blob_name fields) as [hm|] eqn:E3; [| discriminate].
  destruct (document f (dir +:+ "/blobs/sha256/" +:+ hm))
    as [[| | | | |manifest]|] eqn:E4; try discriminate.
  destruct (dict_get manifest "config") as [[| | | | |config_descriptor]|] eqn:E5;
    try discriminate.
  destruct (blob_name config_descriptor) as [hc|] eqn:E6; [| discriminate].
  destruct (document f (dir +:+ "/blobs/sha256/" +:+ hc))
    as [[| | | | |config]|] eqn:E7; try discriminate.
  destruct (dict_get config "os") as [os|] eqn:E8; [| discriminate].
  destruct (dict_get config "architecture") as [architecture|] eqn:E9;
    [| discriminate].
  intros [= <-].
  apply document_inv in E1 as (c1 & F1 & L1).
  apply document_inv in E4 as (c4 & F4 & L4).
  apply document_inv in E7 as (c7 & F7 & L7).
  apply (Hf "index.json") in F1.
  apply (Hf ("blobs/sha256/" +:+ hm)) in F4.
  apply (Hf ("blobs/sha256/" +:+ hc)) in F7.
  unfold output_descriptor_of, input_manifest_descriptor, input_config,
    load_json_blob.
  rewrite (path_div_name dir "index.json") by easy.
  rewrite (bind_ok _ _ w w (JObj fields)).
  2:{ rewrite (bind_ok _ _ _ _ _ (load_json_at _ _ _ _ F1 L1)).
      unfold lift, first_manifest, py_getitem. now rewrite E2. }
  rewrite (bind_ok _ _ w w (JObj config)).
  2:{ rewrite (blob_path_named dir fields hm Hd Hs E3).
      unfold bind at 2, lift at 1.
      rewrite (bind_ok _ _ _ _ _ (load_json_at _ _ _ _ F4 L4)).
      unfold bind at 1, lift at 1, py_getitem. rewrite E5.
      rewrite (blob_path_named dir config_descriptor hc Hd Hs E6).
      unfold bind at 1, lift at 1.
      exact (load_json_at _ _ _ _ F7 L7). }
  unfold lift, with_platform, py_dict, py_getitem. cbn [rbind].
  now rewrite E8, E9.
Qed.

(** What lies outside the output tree and was there before is there,
    unchanged, in every world the loop over the inputs goes through. *)
Lemma input_files_stay (output_dir : string) (w w0 wi : world)
    (p : string) (n : node) :
  output_dir <> "" -> ends_with_slash output_dir = false ->
  prepare_output output_dir w = (w0, Ok tt) ->
  same_outside (output_dir // "blobs/sha256") w0 wi ->
  under output_dir p = false ->
  fs w !! p = Some n -> fs wi !! p = Some n.
Proof.
  intros Hn Hs E0 [_ S1] Hp Hw.
  destruct (prepare_output_inv _ _ _ Hn Hs E0) as (f2 & Hf2 & ->).
  destruct (blobs_dir_normal output_dir) as [Bn Bs].
  rewrite blobs_dir_eq in * by assumption.
  rewrite S1.
  2:{ intros Hd. apply dirname_inv in Hd; [| assumption].
      rewrite Hd in Hp.
      now rewrite (under_app_below output_dir "blobs/sha256") in Hp. }
  cbn [fs put]. rewrite lookup_insert_ne.
  2:{ intros <-. now rewrite under_app in Hp. }
  rewrite lookup_make_dirs.
  destruct (decide (p = output_dir)) as [-> | N].
  - destruct Hf2 as [[Hd ->] | [Hd _]]; [| congruence].
    rewrite lookup_remove_tree.
    destruct (decide _) as [[N _]|_]; [contradiction |].
    rewrite bool_decide_eq_true_2; [congruence |].
    split; [| assumption]. apply elem_of_app. right. now left.
  - destruct Hf2 as [[_ ->] | [_ ->]]; [| now rewrite Hw].
    rewrite lookup_remove_tree. destruct (decide _) as [|D]; [now rewrite Hw |].
    exfalso. apply D. now split.
Qed.

(** C6: take input layouts that lie outside the output tree, and the
    descriptors prescribed for them by the files as they are before the
    call: for each input, the first descriptor of its [index.json] with a
    [platform] member whose [os] and [architecture] are read from the config
    document that the manifest of this descriptor points to.  When the
    composer returns, the image index it has put in the blob store lists
    exactly these descriptors, one per input, in the order of the mapping. *)
Theorem composer_keeps_inputs_in_order (output_dir : string)
    (images : list (string * string)) (manifests : list json) (w w' : world) :
  output_dir <> "" -> ends_with_slash output_dir = false ->
  Forall (fun image => outside_output output_dir image.2) images ->
  Forall2 (fun image d => prescribed_descriptor (fs w) image.2 = Some d)
          images manifests ->
  make_multiarch_image output_dir images w = (w', Ok tt) ->
  let contents := json_dumps (image_index_of manifests) in
  fs w' !! (output_dir // "blobs/sha256" // Sha256.hexdigest contents)
  = Some (File contents) /\
  py_getitem (image_index_of manifests) "manifests" = Ok (JArr manifests) /\
  length manifests = length images.
Proof.
  intros Hn Hs Hout Hpre E.
  destruct (make_multiarch_image_inv _ _ _ _ E)
    as (w0 & w1 & written & E0 & S1 & F & -> & N).
  assert (written = manifests) as ->.
  { clear E N S1. revert manifests Hpre.
    induction F as [|image d images written (wi & Si & Ci) F IH];
      intros manifests Hpre; inversion Hpre as [|? d' ? rest Hd Hrest]; subst;
      [reflexivity |].
    apply Forall_cons_1 in Hout as [(Hdn & Hds & Hdu) Hout].
    f_equal; [| now apply IH].
    assert (Ed : output_descriptor_of image.2 wi = (wi, Ok d')).
    { apply (output_descriptor_prescribed _ (fs w)); try assumption.
      intros rest' c Hc.
      exact (input_files_stay output_dir w w0 wi _ _ Hn Hs E0 Si (Hdu rest') Hc). }
    destruct Ci as (fields & config & os & a & C1 & C2 & C3 & C4 & ->).
    unfold output_descriptor_of in Ed.
    rewrite (bind_ok _ _ _ _ _ C1), (bind_ok _ _ _ _ _ C2) in Ed.
    unfold lift, with_platform, py_dict in Ed. cbn [rbind] in Ed.
    rewrite C3, C4 in Ed. cbn [rbind py_setitem] in Ed. now injection Ed. }
  cbv zeta. split; [| split; [reflexivity |]].
  - cbn [fs put]. rewrite lookup_insert_ne by congruence. apply lookup_insert_eq.
  - symmetry. eapply Forall2_length, Hpre.
Qed.

(** C2, on the code: the descriptor that [index.json] gets for the
    image index has the digest of the blob, but its [size] is the length of
    the digest in hexadecimal, 64, whereas the blob is always longer. *)
Theorem archive_index_size_is_digest_length (output_dir : string)
    (images : list (string * string)) (w w' : world) :
  make_multiarch_image output_dir images w = (w', Ok tt) ->
  exists manifests,
    let contents := json_dumps (image_index_of manifests) in
    let digest := Sha256.hexdigest contents in
    fs w' !! (output_dir // "blobs/sha256" // digest) = Some (File contents) /\
    fs w' !! (output_dir // "index.json")
    = Some (File (json_dumps (archive_index_of digest))) /\
    first_manifest (archive_index_of digest)
    = Ok (JObj [("mediaType", JStr index_media_type);
                ("digest", JStr ("sha256:" +:+ digest));
                ("size", JNum 64)]) /\
    (64 < String.length contents)%nat.
Proof.
  intros E.
  destruct (make_multiarch_image_inv _ _ _ _ E)
    as (w0 & w1 & manifests & E0 & S1 & F & -> & N).
  exists manifests. cbn zeta. split; [| split; [| split]].
  - cbn [fs put]. rewrite lookup_insert_ne by congruence. apply lookup_insert_eq.
  - cbn [fs put]. apply lookup_insert_eq.
  - unfold archive_index_of. rewrite hexdigest_length. reflexivity.
  - apply index_contents_long.
Qed.

(** A composition that returns has written an image index with one
    descriptor for each input. *)
Lemma make_multiarch_image_blob (output_dir : string)
    (images : list (string * string)) (w w' : world) :
  make_multiarch_image output_dir images w = (w', Ok tt) ->
  exists manifests,
    let contents := json_dumps (image_index_of manifests) in
    length manifests = length images /\
    fs w' !! (output_dir // "blobs/sha256" // Sha256.hexdigest contents)
    = Some (File contents).
Proof.
  intros E.
  destruct (make_multiarch_image_inv _ _ _ _ E)
    as (w0 & w1 & manifests & E0 & S1 & F & -> & N).
  exists manifests. cbn zeta. split.
  - symmetry. eapply Forall2_length, F.
  - cbn [fs put]. rewrite lookup_insert_ne by congruence. apply lookup_insert_eq.
Qed.

(** Composing no input at all, into a directory that does not exist
    yet, succeeds. *)
Lemma make_multiarch_image_nil (output_dir : string) (w : world) :
  output_dir <> "" -> ends_with_slash output_dir = false ->
  (forall p, startswith output_dir p = true -> fs w !! p = None) ->
  (forall a c, a ∈ ancestors output_dir -> fs w !! a <> Some (File c)) ->
  exists w', make_multiarch_image output_dir [] w = (w', Ok tt).
Proof.
  intros Hn Hs Habs Hanc.
  pose proof (startswith_app output_dir "") as S0. rewrite str_app_nil_r in S0.
  assert (Hout : fs w !! output_dir = None) by auto.
  assert (ED : output_dir // "blobs/sha256" = output_dir +:+ "/blobs/sha256").
  { rewrite blobs_dir_join. now apply join2_relative. }
  set (dirs := ancestors (output_dir +:+ "/blobs/sha256")
               ++ [output_dir +:+ "/blobs/sha256"]).
  assert (EA : dirs = ancestors output_dir
                      ++ [output_dir; output_dir +:+ "/blobs";
                          output_dir +:+ "/blobs/sha256"]).
  { unfold dirs. change (output_dir +:+ "/blobs/sha256")
      with (output_dir +:+ String "/" "blobs/sha256").
    rewrite ancestors_app, <- !app_assoc. reflexivity. }
  set (f0 := fold_left make_dir dirs (fs w)).
  assert (Hdir : forall d, d ∈ dirs -> d <> "" -> fs w !! d = None ->
                           f0 !! d = Some Dir).
  { intros d Hin Hne Hab. unfold f0. rewrite lookup_make_dirs, Hab.
    now rewrite bool_decide_eq_true_2. }
  assert (Hnew : forall n, n <> "" -> no_slash n = true ->
                           output_dir +:+ "/blobs" <> output_dir +:+ "/" +:+ n ->
                           f0 !! (output_dir +:+ "/" +:+ n) = None).
  { intros n Hne Hns Hb. unfold f0. rewrite lookup_make_dirs.
    rewrite Habs by apply startswith_app.
    rewrite bool_decide_eq_false_2; [reflexivity |]. intros [Hin _].
    rewrite EA in Hin. apply elem_of_app in Hin as [Hin | Hin].
    - apply ancestors_shorter in Hin. rewrite !str_length_app in Hin. lia.
    - repeat (apply elem_of_cons in Hin as [Hin | Hin]).
      + apply (f_equal String.length) in Hin. rewrite !str_length_app in Hin.
        simpl in Hin. lia.
      + congruence.
      + apply str_app_inv_head in Hin. str_simpl. injection Hin as ->.
        discriminate Hns.
      + inversion Hin. }
  assert (Dout : f0 !! output_dir = Some Dir).
  { apply Hdir; auto. rewrite EA. apply elem_of_app. right. now left. }
  assert (Dblobs : f0 !! (output_dir +:+ "/blobs/sha256") = Some Dir).
  { apply Hdir.
    - rewrite EA. apply elem_of_app. right. now do 2 right; left.
    - destruct output_dir; discriminate.
    - apply Habs, startswith_app. }
  assert (Ex : existsb (fun a => match fs w !! a with
                                 | Some (File _) => true
                                 | _ => false
                                 end) (ancestors (output_dir +:+ "/blobs/sha256"))
               = false).
  { apply not_true_is_false. intros Ht. apply existsb_exists in Ht as (a & Hin & Ha).
    assert (Hin' : a ∈ dirs) by (apply elem_of_app; left; now apply list_elem_of_In).
    rewrite EA in Hin'. apply elem_of_app in Hin' as [Hin' | Hin'].
    - destruct (fs w !! a) as [[c|]|] eqn:Ef; try discriminate.
      now apply (Hanc a c).
    - assert (fs w !! a = None) as Hnone.
      { repeat (apply elem_of_cons in Hin' as [-> | Hin']);
          [auto | apply Habs, startswith_app | apply Habs, startswith_app
          | inversion Hin']. }
      now rewrite Hnone in Ha. }
  (* the output directory *)
  assert (S1 : path_exists output_dir w = (w, Ok false)).
  { unfold path_exists. rewrite Hout.
    now rewrite bool_decide_eq_false_2 by (intros [? ?]; discriminate). }
  assert (S2 : mkdir_parents (output_dir +:+ "/blobs/sha256") w
               = (World f0 (trace w), Ok tt)).
  { unfold mkdir_parents. rewrite Habs by apply startswith_app.
    rewrite bool_decide_eq_false_2 by (intros [? ?]; discriminate).
    now rewrite Ex. }
  set (oci := output_dir +:+ "/" +:+ "oci-layout").
  assert (S3 : forall c, write_file oci c (World f0 (trace w))
                         = (put oci (File c) (World f0 (trace w)), Ok tt)).
  { intros c. apply write_file_ok. cbn [fs]. unfold writable, oci.
    rewrite Hnew by (easy || (intros Hb; apply str_app_inv_head in Hb; discriminate)).
    rewrite dirname_app by reflexivity. unfold is_dir. now rewrite Dout. }
  assert (P : prepare_output output_dir w
              = (put oci (File (json_dumps image_layout)) (World f0 (trace w)),
                 Ok tt)).
  { unfold prepare_output. run_with S1.
    rewrite (bind_ok (ret tt) _ w w tt eq_refl). rewrite ED. run_with S2.
    rewrite (path_div_name output_dir "oci-layout") by easy. apply S3. }
  (* the image index and its descriptor *)
  pose proof (hexdigest_length (json_dumps (image_index_of []))) as L.
  pose proof (hexdigest_no_slash (json_dumps (image_index_of []))) as Lns.
  pose proof (hexdigest_nonempty (json_dumps (image_index_of []))) as Lne.
  pose proof (hexdigest_not_dot (json_dumps (image_index_of []))) as Lnd.
  unfold make_multiarch_image. run_with P. cbn [add_images].
  rewrite (bind_ok (ret []) _ _ _ [] eq_refl). unfold write_index.
  remember (json_dumps (image_index_of [])) as contents eqn:Hcontents.
  remember (Sha256.hexdigest contents) as digest eqn:Hdigest.
  clear Hcontents Hdigest. rewrite ED.
  set (blobs_dir := output_dir +:+ "/blobs/sha256") in *.
  assert (Hbn : blobs_dir <> "" /\ ends_with_slash blobs_dir = false)
    by (rewrite <- ED; apply blobs_dir_normal).
  rewrite (path_div_name blobs_dir digest) by tauto.
  rewrite (path_div_name output_dir "index.json") by easy.
  set (blob := blobs_dir +:+ "/" +:+ digest).
  set (index := output_dir +:+ "/" +:+ "index.json").
  assert (N1 : blob <> oci).
  { intros Hb. apply (f_equal basename) in Hb. unfold blob, oci in Hb.
    rewrite !basename_app in Hb by auto. rewrite Hb in L. discriminate. }
  assert (N2 : blob <> index).
  { intros Hb. apply (f_equal basename) in Hb. unfold blob, index in Hb.
    rewrite !basename_app in Hb by auto. rewrite Hb in L. discriminate. }
  assert (N3 : oci <> index).
  { intros Hb. apply str_app_inv_head in Hb. discriminate. }
  assert (N4 : oci <> blobs_dir).
  { intros Hb. apply str_app_inv_head in Hb. discriminate. }
  assert (N5 : oci <> output_dir).
  { intros Hb. apply (f_equal String.length) in Hb. unfold oci in Hb.
    rewrite !str_length_app in Hb. simpl in Hb. lia. }
  assert (N6 : blob <> output_dir).
  { intros Hb. apply (f_equal String.length) in Hb. unfold blob, blobs_dir in Hb.
    rewrite !str_length_app in Hb. simpl in Hb. lia. }
  assert (Hblob : f0 !! blob = None).
  { unfold f0. rewrite lookup_make_dirs.
    rewrite Habs by (unfold blob, blobs_dir; rewrite !str_app_assoc;
                     apply startswith_app).
    rewrite bool_decide_eq_false_2; [reflexivity |]. intros [Hin _].
    assert (Hlen : forall d, d ∈ dirs ->
              (String.length d <= String.length blobs_dir)%nat).
    { intros d Hd. apply elem_of_app in Hd as [Hd | Hd].
      - apply ancestors_shorter in Hd. lia.
      - apply elem_of_cons in Hd as [-> | Hd]; [lia | inversion Hd]. }
    apply Hlen in Hin. unfold blob in Hin. rewrite !str_length_app in Hin.
    simpl in Hin. lia. }
  erewrite bind_ok.
  2:{ apply write_file_ok. cbn [fs put]. unfold writable.
      rewrite lookup_insert_ne by congruence. rewrite Hblob.
      unfold blob. rewrite dirname_app by assumption. unfold is_dir.
      rewrite lookup_insert_ne by congruence. now rewrite Dblobs. }
  eexists. apply write_file_ok. cbn [fs put]. unfold writable.
  rewrite !lookup_insert_ne by congruence. unfold index.
  rewrite Hnew by (easy || (intros Hb; apply str_app_inv_head in Hb; discriminate)).
  rewrite dirname_app by reflexivity. unfold is_dir.
  rewrite !lookup_insert_ne by congruence. now rewrite Dout.
Qed.

(** C5, amended: the composer rejects neither an empty input set nor
    inputs of the same platform.  Composing nothing into a directory that
    does not exist yet succeeds and stores an image index without
    manifests; and whenever the composer returns, its image index has one
    descriptor for each input, whatever their platforms. *)
Theorem composition_rejects_nothing :
  (forall (output_dir : string) (w : world),
     output_dir <> "" -> ends_with_slash output_dir = false ->
     (forall p, startswith output_dir p = true -> fs w !! p = None) ->
     (forall a c, a ∈ ancestors output_dir -> fs w !! a <> Some (File c)) ->
     exists w',
       let contents := json_dumps (image_index_of []) in
       make_multiarch_image output_dir [] w = (w', Ok tt) /\
       fs w' !! (output_dir // "blobs/sha256" // Sha256.hexdigest contents)
       = Some (File contents)) /\
  (forall (output_dir : string) (images : list (string * string)) (w w' : world),
     make_multiarch_image output_dir images w = (w', Ok tt) ->
     exists manifests,
       let contents := json_dumps (image_index_of manifests) in
       length manifests = length images /\
       fs w' !! (output_dir // "blobs/sha256" // Sha256.hexdigest contents)
       = Some (File contents)).
Proof.
  split.
  - intros output_dir w Hn Hs Habs Hanc.
    destruct (make_multiarch_image_nil output_dir w Hn Hs Habs Hanc) as [w' E].
    exists w'. cbn zeta. split; [assumption |].
    destruct (make_multiarch_image_blob _ _ _ _ E) as (manifests & L & Hb).
    destruct manifests; [exact Hb | discriminate].
  - intros output_dir images w w' E.
    exact (make_multiarch_image_blob _ _ _ _ E).
Qed.

End ComposerTheorems.

(** *** Compositions that run *)

Lemma composer_keeps_inputs_in_order_witness :
  let env := Tools.environment "linux" "amd64" in
  let w := World Fixtures.inputs [] in
  let images := [("x86_64", "in/x86_64"); ("aarch64", "in/aarch64")] in
  let w' := (make_multiarch_image "multi" images w).1 in
  let contents := json_dumps (image_index_of Fixtures.composed_entries) in
  fs w' !! ("multi" // "blobs/sha256" // Sha256.hexdigest contents)
  = Some (File contents) /\
  py_getitem (image_index_of Fixtures.composed_entries) "manifests"
  = Ok (JArr [Fixtures.entry Fixtures.x86_64 "linux" "amd64";
              Fixtures.entry Fixtures.aarch64 "linux" "arm64"]) /\
  length Fixtures.composed_entries = length images.
Proof.
  intros env w images w'.
  apply (composer_keeps_inputs_in_order (env := env) "multi" images
           Fixtures.composed_entries w w').
  - discriminate.
  - reflexivity.
  - repeat constructor; discriminate.
  - constructor; [vm_refl | constructor; [vm_refl | constructor]].
  - vm_cast_no_check (eq_refl (w', @Ok unit tt)).
Defined.

Lemma archive_index_size_is_digest_length_witness :
  let env := Tools.environment "linux" "amd64" in
  let w := World ∅ [] in
  let w' := (make_multiarch_image "out" [] w).1 in
  exists manifests,
    let contents := json_dumps (image_index_of manifests) in
    let digest := Sha256.hexdigest contents in
    fs w' !! ("out" // "blobs/sha256" // digest) = Some (File contents) /\
    fs w' !! ("out" // "index.json")
    = Some (File (json_dumps (archive_index_of digest))) /\
    first_manifest (archive_index_of digest)
    = Ok (JObj [("mediaType", JStr index_media_type);
                ("digest", JStr ("sha256:" +:+ digest));
                ("size", JNum 64)]) /\
    (64 < String.length contents)%nat.
Proof.
  intros env w w'.
  apply (archive_index_size_is_digest_length (env := env) "out" [] w w').
  vm_cast_no_check (eq_refl (w', @Ok unit tt)).
Defined.

Lemma composition_rejects_nothing_witness :
  let env := Tools.environment "linux" "amd64" in
  exists w',
    let contents := json_dumps (image_index_of []) in
    make_multiarch_image "out" [] (World ∅ []) = (w', Ok tt) /\
    fs w' !! ("out" // "blobs/sha256" // Sha256.hexdigest contents)
    = Some (File contents).
Proof.
  intros env.
  apply (proj1 (composition_rejects_nothing (env := env)) "out" (World ∅ [])).
  - discriminate.
  - reflexivity.
  - intros p _. apply lookup_empty.
  - intros a c _. cbn [fs]. rewrite lookup_empty. discriminate.
Defined.

(** C5, as stated, fails: the composer accepts an empty mapping, and a
    mapping whose two inputs have the platform [linux], [amd64]; the image
    index then lists that image twice. *)
Lemma empty_and_duplicate_inputs_compose :
  let env := Tools.environment "linux" "amd64" in
  let twice := [("x86_64", "in/x86_64"); ("amd64", "in/x86_64")] in
  let r := make_multiarch_image "multi" twice (World Fixtures.inputs []) in
  (make_multiarch_image "out" [] (World ∅ [])).2 = Ok tt /\
  r.2 = Ok tt /\
  fs r.1 !! ("multi/blobs/sha256/" +:+ Fixtures.twice_digest)
  = Some (File (json_dumps (image_index_of
       [Fixtures.entry Fixtures.x86_64 "linux" "amd64";
        Fixtures.entry Fixtures.x86_64 "linux" "amd64"]))).
Proof.
  intros env twice r.
  assert (E : ((make_multiarch_image "out" [] (World ∅ [])).2, r.2,
               fs r.1 !! ("multi/blobs/sha256/" +:+ Fixtures.twice_digest))
              = (Ok tt, Ok tt,
                 Some (File (json_dumps (image_index_of
                   [Fixtures.entry Fixtures.x86_64 "linux" "amd64";
                    Fixtures.entry Fixtures.x86_64 "linux" "amd64"])))))
    by vm_refl.
  apply pair_eq_inv in E as [E E3]. apply pair_eq_inv in E as [E1 E2].
  exact (conj E1 (conj E2 E3)).
Qed.


(** ** Entries after the first *)

Lemma dict_get_set_ne (d : list (string * json)) (k k' : string) (v : json) :
  k <> k' -> dict_get (dict_set d k' v) k = dict_get d k.
Proof.
  intros N. induction d as [|[k0 v0] d IH]; simpl.
  - destruct (String.eqb_spec k' k); [congruence | reflexivity].
  - destruct (String.eqb_spec k0 k') as [-> | N0]; simpl.
    + destruct (String.eqb_spec k' k); [congruence | reflexivity].
    + destruct (String.eqb_spec k0 k); [reflexivity | exact IH].
Qed.

Section Relating.
Context {env : Environment}.
Variable index : string.

Lemma alike_refl (j : json) : alike j j.
Proof. now left. Qed.

Lemma alike_first_manifest (j1 j2 : json) :
  alike j1 j2 -> first_manifest j1 = first_manifest j2.
Proof.
  intros [-> | (d & x & rest & -> & E & ->)]; [reflexivity |].
  unfold first_manifest, py_getitem. now rewrite E, dict_get_set.
Qed.

Lemma alike_getitem (j1 j2 : json) (k : string) :
  alike j1 j2 -> k <> "manifests" -> py_getitem j1 k = py_getitem j2 k.
Proof.
  intros [-> | (d & x & rest & -> & E & ->)] N; [reflexivity |].
  unfold py_getitem. now rewrite dict_get_set_ne.
Qed.

Lemma alike_get (j1 j2 : json) (k : string) (default : json) :
  alike j1 j2 -> k <> "manifests" -> py_get j1 k default = py_get j2 k default.
Proof.
  intros [-> | (d & x & rest & -> & E & ->)] N; [reflexivity |].
  unfold py_get. now rewrite dict_get_set_ne.
Qed.

Lemma rrel_eq_refl {A} (r : result A) : rrel eq r r.
Proof. now destruct r. Qed.

Lemma rrel_eq_inv {A} (r1 r2 : result A) : rrel eq r1 r2 -> r1 = r2.
Proof. destruct r1, r2; simpl; intros H; now subst. Qed.

Lemma sbi_refl (f : gmap string node) : same_but_index index f f.
Proof. intros p. now left. Qed.

Lemma sbi_insert (f1 f2 : gmap string node) (p : string) (n : node) :
  same_but_index index f1 f2 ->
  same_but_index index (<[p := n]> f1) (<[p := n]> f2).
Proof.
  intros H q. destruct (decide (p = q)) as [-> | N].
  - left. now rewrite !lookup_insert_eq.
  - rewrite !lookup_insert_ne by assumption. apply H.
Qed.

Lemma sbi_is_Some (f1 f2 : gmap string node) (p : string) :
  same_but_index index f1 f2 ->
  bool_decide (is_Some (f1 !! p)) = bool_decide (is_Some (f2 !! p)).
Proof.
  intros H. destruct (H p) as [E | (_ & c1 & c2 & j1 & j2 & E1 & E2 & _)].
  - now rewrite E.
  - rewrite E1, E2. now rewrite !bool_decide_eq_true_2 by eauto.
Qed.

Lemma sbi_is_file (f1 f2 : gmap string node) (p : string) :
  same_but_index index f1 f2 ->
  match f1 !! p with Some (File _) => true | _ => false end
  = match f2 !! p with Some (File _) => true | _ => false end.
Proof.
  intros H. destruct (H p) as [E | (_ & c1 & c2 & j1 & j2 & E1 & E2 & _)].
  - now rewrite E.
  - now rewrite E1, E2.
Qed.

Lemma sbi_is_dir (f1 f2 : gmap string node) (p : string) :
  same_but_index index f1 f2 -> is_dir f1 p = is_dir f2 p.
Proof.
  intros H. unfold is_dir.
  destruct (H p) as [E | (_ & c1 & c2 & j1 & j2 & E1 & E2 & _)].
  - now rewrite E.
  - now rewrite E1, E2.
Qed.

Lemma sbi_dom (f1 f2 : gmap string node) :
  same_but_index index f1 f2 -> dom f1 = dom f2.
Proof.
  intros H. apply set_eq. intros p. rewrite !elem_of_dom.
  destruct (H p) as [E | (_ & c1 & c2 & j1 & j2 & E1 & E2 & _)].
  - now rewrite E.
  - rewrite E1, E2. split; eauto.
Qed.

Lemma sbi_other (f1 f2 : gmap string node) (p : string) :
  same_but_index index f1 f2 -> p <> index -> f1 !! p = f2 !! p.
Proof. intros H N. destruct (H p) as [E | [E _]]; [assumption | contradiction]. Qed.

Lemma sbi_remove_tree (f1 f2 : gmap string node) (d : string) :
  same_but_index index f1 f2 ->
  same_but_index index (remove_tree d f1) (remove_tree d f2).
Proof.
  intros H p. rewrite !lookup_remove_tree.
  destruct (decide _); [apply H | now left].
Qed.

Lemma sbi_make_dirs (f1 f2 : gmap string node) (l : list string) :
  same_but_index index f1 f2 ->
  same_but_index index (fold_left make_dir l f1) (fold_left make_dir l f2).
Proof.
  intros H p. rewrite !lookup_make_dirs.
  destruct (H p) as [E | (-> & c1 & c2 & j1 & j2 & E1 & E2 & L)].
  - left. now rewrite E.
  - right. split; [reflexivity |]. exists c1, c2, j1, j2. now rewrite E1, E2.
Qed.

(** *** Computations *)

Lemma mrel_bind {A B} (R : A -> A -> Prop) (S : B -> B -> Prop)
    (m1 m2 : M A) (k1 k2 : A -> M B) :
  mrel index R m1 m2 ->
  (forall a b, R a b -> mrel index S (k1 a) (k2 b)) ->
  mrel index S (bind m1 k1) (bind m2 k2).
Proof.
  intros Hm Hk w1 w2 Hs. destruct (Hm w1 w2 Hs) as [Hs' Hr]. unfold bind.
  destruct (m1 w1) as [w1' [a|e1]], (m2 w2) as [w2' [b|e2]];
    simpl in *; try contradiction.
  - now apply Hk.
  - now split.
Qed.

Lemma mrel_lift {A} (R : A -> A -> Prop) (r1 r2 : result A) :
  rrel R r1 r2 -> mrel index R (lift r1) (lift r2).
Proof. intros H w1 w2 Hs. now split. Qed.

Lemma mrel_lift_eq {A} (r1 r2 : result A) :
  r1 = r2 -> mrel index eq (lift r1) (lift r2).
Proof. intros ->. apply mrel_lift, rrel_eq_refl. Qed.

Lemma mrel_ret {A} (R : A -> A -> Prop) (a b : A) :
  R a b -> mrel index R (ret a) (ret b).
Proof. intros H w1 w2 Hs. now split. Qed.

Lemma mrel_raise {A} (R : A -> A -> Prop) (e : exn) :
  mrel index R (raise e) (raise e).
Proof. intros w1 w2 Hs. now split. Qed.

Lemma mrel_load_json (p : string) : mrel index alike (load_json p) (load_json p).
Proof.
  intros w1 w2 [Ht Hf]. unfold load_json, bind, read_file.
  destruct (Hf p) as [E | (-> & c1 & c2 & j1 & j2 & E1 & E2 & L1 & L2 & T)].
  - rewrite E. destruct (fs w2 !! p) as [[c|]|]; simpl; try (now split).
    destruct (json_loads c); simpl; (split; [now split |]);
      [apply alike_refl | reflexivity].
  - rewrite E1, E2. simpl. rewrite L1, L2. simpl. split; [now split | now right].
Qed.

Lemma mrel_load_json_other (p : string) :
  p <> index -> mrel index eq (load_json p) (load_json p).
Proof.
  intros N w1 w2 [Ht Hf]. unfold load_json, bind, read_file.
  rewrite (sbi_other _ _ _ Hf N).
  destruct (fs w2 !! p) as [[c|]|]; simpl; try (now split).
  destruct (json_loads c); simpl; now split.
Qed.

Lemma mrel_write_file (p c : string) :
  mrel index eq (write_file p c) (write_file p c).
Proof.
  intros w1 w2 [Ht Hf]. unfold write_file.
  assert (Hput : same_but_entries index (put p (File c) w1) (put p (File c) w2))
    by (split; [assumption | now apply sbi_insert]).
  destruct (Hf p) as [E | (_ & c1 & c2 & j1 & j2 & E1 & E2 & _)].
  - rewrite E. destruct (fs w2 !! p) as [[?|]|]; simpl; try (now split).
    rewrite (sbi_is_dir _ _ (dirname p) Hf).
    destruct (Hf (dirname p)) as [E' | (_ & d1 & d2 & k1 & k2 & E1' & E2' & _)].
    + rewrite E'. destruct (fs w2 !! dirname p) as [[?|]|]; simpl;
        try (now split); destruct (is_dir _ _); simpl; now split.
    + rewrite E1', E2'. simpl. now split.
  - rewrite E1, E2. simpl. now split.
Qed.

Lemma mrel_copyfile (src dst : string) :
  src <> index -> mrel index eq (copyfile src dst) (copyfile src dst).
Proof.
  intros N w1 w2 Hs. pose proof Hs as [Ht Hf]. unfold copyfile.
  rewrite (sbi_is_Some _ _ src Hf).
  destruct (_ && _); [now split |].
  unfold bind, read_file. rewrite (sbi_other _ _ _ Hf N).
  destruct (fs w2 !! src) as [[c|]|]; simpl; try (now split).
  now apply mrel_write_file.
Qed.

Lemma mrel_path_exists (p : string) :
  mrel index eq (path_exists p) (path_exists p).
Proof.
  intros w1 w2 [Ht Hf]. unfold path_exists. simpl.
  split; [now split |]. now rewrite (sbi_is_Some _ _ p Hf).
Qed.

Lemma mrel_rmtree (d : string) : mrel index eq (rmtree d) (rmtree d).
Proof.
  intros w1 w2 [Ht Hf]. unfold rmtree.
  destruct (Hf d) as [E | (_ & c1 & c2 & j1 & j2 & E1 & E2 & _)].
  - rewrite E. destruct (fs w2 !! d) as [[?|]|]; simpl; try (now split).
    split; [| reflexivity]. split; [assumption |]. now apply sbi_remove_tree.
  - rewrite E1, E2. simpl. now split.
Qed.

Lemma mrel_mkdir_parents (d : string) :
  mrel index eq (mkdir_parents d) (mkdir_parents d).
Proof.
  intros w1 w2 [Ht Hf]. unfold mkdir_parents.
  rewrite (sbi_is_Some _ _ d Hf).
  destruct (bool_decide _); [now split |].
  assert (E : forall l,
            existsb (fun a => match fs w1 !! a with
                              | Some (File _) => true
                              | _ => false
                              end) l
            = existsb (fun a => match fs w2 !! a with
                                | Some (File _) => true
                                | _ => false
                                end) l).
  { induction l as [|a l IH]; [reflexivity |]. cbn [existsb].
    now rewrite IH, (sbi_is_file _ _ a Hf). }
  rewrite E. destruct (existsb _ _); [now split |]. simpl.
  split; [| reflexivity]. split; [assumption |]. now apply sbi_make_dirs.
Qed.

Lemma mrel_iterdir (d : string) :
  mrel index (fun l1 l2 => l1 = l2 /\ Forall (fun p => fst (split_last p) = Some d) l1)
       (iterdir d) (iterdir d).
Proof.
  intros w1 w2 [Ht Hf]. unfold iterdir.
  destruct (Hf d) as [E | (_ & c1 & c2 & j1 & j2 & E1 & E2 & _)].
  - rewrite E, (sbi_dom _ _ Hf).
    destruct (fs w2 !! d) as [[?|]|]; simpl; try (now split).
    split; [now split |]. split; [reflexivity |].
    apply Forall_forall. intros p Hin.
    apply elem_of_elements, elem_of_filter in Hin. tauto.
  - rewrite E1, E2. simpl. now split.
Qed.

Lemma mrel_for_each {A} (l : list A) (body : A -> M unit) :
  Forall (fun x => mrel index eq (body x) (body x)) l ->
  mrel index eq (for_each l body) (for_each l body).
Proof.
  induction 1 as [|x l Hx _ IH]; cbn [for_each].
  - now apply mrel_ret.
  - eapply mrel_bind; [exact Hx |]. intros _ _ _. exact IH.
Qed.

Section Tools.
Hypothesis tools : tools_ignore_entries index.
Hypothesis tempdirs : tempdirs_ignore_entries index.

Lemma mrel_check_call (argv : list string) :
  mrel index eq (check_call argv) (check_call argv).
Proof.
  intros w1 w2 [Ht Hf]. unfold check_call.
  destruct (tools argv _ _ Hf) as [Hf' Ho].
  destruct (run_command argv (fs w1)) as [f1 o1],
           (run_command argv (fs w2)) as [f2 o2]; simpl in *. subst o2.
  split; [split; [now rewrite Ht | assumption] |]. now destruct o1.
Qed.

Lemma mrel_check_output (argv : list string) :
  mrel index eq (check_output argv) (check_output argv).
Proof.
  intros w1 w2 [Ht Hf]. unfold check_output.
  destruct (tools argv _ _ Hf) as [Hf' Ho].
  destruct (run_command argv (fs w1)) as [f1 o1],
           (run_command argv (fs w2)) as [f2 o2]; simpl in *. subst o2.
  split; [split; [now rewrite Ht | assumption] |]. now destruct o1.
Qed.

Lemma mrel_with_tempdir {A} (R : A -> A -> Prop) (Q : string -> Prop)
    (body : string -> M A) :
  (forall f, Q (mkdtemp f)) ->
  (forall td, Q td -> mrel index R (body td) (body td)) ->
  mrel index R (with_tempdir body) (with_tempdir body).
Proof.
  intros HQ Hb w1 w2 [Ht Hf]. unfold with_tempdir.
  rewrite (tempdirs _ _ Hf).
  set (td := mkdtemp (fs w2)).
  assert (Hs : same_but_entries index (put td Dir w1) (put td Dir w2))
    by (split; [assumption | now apply sbi_insert]).
  destruct (Hb td (HQ _) _ _ Hs) as [[Ht' Hf'] Hr].
  destruct (body td (put td Dir w1)) as [w1' r1],
           (body td (put td Dir w2)) as [w2' r2]; simpl in *.
  split; [| assumption]. split; [assumption |]. now apply sbi_remove_tree.
Qed.

End Tools.
End Relating.

(** *** Paths that cannot be the index *)

Lemma join2_prefix (s : string) :
  exists a, forall n, startswith "/" n = false -> join2 s n = a +:+ n.
Proof.
  unfold join2. destruct (String.eqb s "" || ends_with_slash s).
  - exists s. intros n ->. reflexivity.
  - exists (s +:+ "/"). intros n ->. now rewrite str_app_assoc.
Qed.

Lemma startswith_slash_inv (s : string) :
  startswith "/" s = true -> exists s', s = String "/" s'.
Proof.
  destruct s as [|c s]; cbn [startswith]; [discriminate |].
  intros H. apply andb_true_iff in H as [H _].
  apply Ascii.eqb_eq in H. subst c. eauto.
Qed.

Lemma join2_absolute (s n : string) :
  startswith "/" s = true -> startswith "/" (join2 s n) = true.
Proof.
  intros H. unfold join2. destruct (startswith "/" n) eqn:E; [exact E |].
  apply startswith_slash_inv in H as [s' ->].
  now destruct (_ || _).
Qed.

Lemma join2_stays_relative (s n : string) :
  startswith "/" s = false -> startswith "/" n = false ->
  startswith "/" (join2 s n) = false.
Proof.
  intros Hs Hn. unfold join2. rewrite Hn.
  destruct s as [|c s]; [exact Hn |].
  simpl in Hs. destruct (_ || _); str_simpl; simpl; exact Hs.
Qed.

Lemma descriptor_path_inv (s : string) (d : json) (p : string) :
  get_path_from_descriptor s d = Ok p ->
  exists x, p = os_path_join s ["blobs"; "sha256"; x].
Proof.
  unfold get_path_from_descriptor.
  destruct (py_getitem d "digest") as [[| | |x| |]|]; cbn [rbind]; try discriminate.
  destruct (startswith "sha256:" x); [| discriminate].
  intros [= <-]. eauto.
Qed.

Lemma descriptor_path_absolute (s : string) (d : json) (p : string) :
  startswith "/" s = true ->
  get_path_from_descriptor s d = Ok p -> startswith "/" p = true.
Proof.
  intros Hs H. apply descriptor_path_inv in H as [x ->].
  unfold os_path_join. cbn [fold_left]. now do 3 apply join2_absolute.
Qed.

Lemma descriptor_path_not_index (s : string) (d : json) (p : string) :
  startswith "/" (join2 s "index.json") = false ->
  get_path_from_descriptor s d = Ok p -> p <> join2 s "index.json".
Proof.
  intros Hrel H. apply descriptor_path_inv in H as [x ->].
  unfold os_path_join. cbn [fold_left].
  destruct (startswith "/" x) eqn:Hx.
  - intros E. rewrite <- E in Hrel. unfold join2 at 1 in Hrel.
    rewrite Hx in Hrel. congruence.
  - destruct (join2_prefix s) as [a Ha].
    rewrite !Ha by reflexivity.
    rewrite (join2_relative (a +:+ "blobs") "sha256"); cycle 1.
    { intros E. pose proof (str_app_cons_nonempty a "b" "lobs") as N.
      rewrite E in N. discriminate. }
    { now rewrite ends_with_slash_app. }
    { reflexivity. }
    change ("/" +:+ "sha256") with "/sha256".
    rewrite (join2_relative _ x); cycle 1.
    { intros E.
      pose proof (str_app_cons_nonempty (a +:+ "blobs") "/" "sha256") as N.
      rewrite E in N. discriminate. }
    { now rewrite ends_with_slash_app. }
    { exact Hx. }
    rewrite !str_app_assoc. intros E. apply str_app_inv_head in E.
    discriminate.
Qed.

(** *** The install path *)

Section InstallEntries.
Context {env : Environment}.
Variable index : string.
Hypothesis relative : startswith "/" index = false.
Hypothesis tools : tools_ignore_entries index.
Hypothesis tempdirs : tempdirs_ignore_entries index.
Hypothesis absolute : forall f, startswith "/" (mkdtemp f) = true.

Lemma apart_absolute (s : string) : startswith "/" s = true -> apart index s.
Proof.
  intros Hs d p H E. apply (descriptor_path_absolute _ _ _ Hs) in H.
  congruence.
Qed.

Lemma mrel_descriptor_path (s : string) (d : json) :
  apart index s ->
  mrel index (fun p1 p2 => p1 = p2 /\ p1 <> index)
       (lift (get_path_from_descriptor s d))
       (lift (get_path_from_descriptor s d)).
Proof.
  intros Hs. apply mrel_lift.
  destruct (get_path_from_descriptor s d) eqn:E; simpl; eauto.
Qed.

Lemma mrel_read_manifest (s : string) :
  apart index s -> mrel index eq (read_manifest s) (read_manifest s).
Proof.
  intros Hs. unfold read_manifest.
  eapply mrel_bind; [apply mrel_load_json |]. intros j1 j2 Hj.
  eapply mrel_bind;
    [apply mrel_lift_eq, alike_first_manifest, Hj |]. intros d ? <-.
  eapply mrel_bind; [now apply mrel_descriptor_path |]. intros p ? [<- Hp].
  now apply mrel_load_json_other.
Qed.

Lemma mrel_read_config (s : string) (m : json) :
  apart index s -> mrel index eq (read_config s m) (read_config s m).
Proof.
  intros Hs. unfold read_config.
  eapply mrel_bind; [now apply mrel_lift_eq |]. intros c ? <-.
  eapply mrel_bind; [now apply mrel_descriptor_path |]. intros p ? [<- Hp].
  now apply mrel_load_json_other.
Qed.

Lemma mrel_query_origin (shortref : string) :
  mrel index eq (query_origin shortref) (query_origin shortref).
Proof.
  intros w1 w2 Hs. unfold query_origin.
  destruct (mrel_check_output index tools (flatpak_info shortref) w1 w2 Hs)
    as [Hs' Hr].
  destruct (check_output _ w1) as [w1' [o1|e1]],
           (check_output _ w2) as [w2' [o2|e2]];
    simpl in *; try contradiction; subst; now split.
Qed.

Lemma mrel_import_and_install (repodir s ref : string) :
  mrel index eq (import_and_install repodir s ref)
       (import_and_install repodir s ref).
Proof.
  unfold import_and_install.
  eapply mrel_bind; [now apply mrel_check_call |]. intros _ _ _.
  eapply mrel_bind; [now apply mrel_lift_eq |]. intros shortref ? <-.
  eapply mrel_bind; [apply mrel_query_origin |]. intros o ? <-.
  destruct (bool_decide _); now apply mrel_check_call.
Qed.

Lemma mrel_install_single_arch (repodir s : string) (m : json) :
  apart index s ->
  mrel index eq (install_single_arch repodir s m)
       (install_single_arch repodir s m).
Proof.
  intros Hs. unfold install_single_arch.
  eapply mrel_bind; [now apply mrel_read_config |]. intros c ? <-.
  eapply mrel_bind; [now apply mrel_lift_eq |]. intros ref ? <-.
  destruct ref; try apply mrel_raise. apply mrel_import_and_install.
Qed.

Lemma mrel_read_documents (s td : string) :
  apart index s -> apart index td -> (td // "index.json")%py <> index ->
  mrel index eq (read_documents s td) (read_documents s td).
Proof.
  intros Hs Htd Hi. unfold read_documents.
  eapply mrel_bind; [apply mrel_load_json |]. intros j1 j2 Hj.
  eapply mrel_bind;
    [apply mrel_lift_eq, alike_first_manifest, Hj |]. intros d ? <-.
  eapply mrel_bind; [now apply mrel_descriptor_path |]. intros p ? [<- Hp].
  eapply mrel_bind; [now apply mrel_load_json_other |]. intros ii ? <-.
  eapply mrel_bind; [now apply mrel_load_json_other |]. intros ni ? <-.
  eapply mrel_bind; [now apply mrel_lift_eq |]. intros d' ? <-.
  eapply mrel_bind; [now apply mrel_descriptor_path |]. intros p' ? [<- Hp'].
  eapply mrel_bind; [now apply mrel_load_json_other |]. intros nm ? <-.
  eapply mrel_bind; [now apply mrel_lift_eq |]. intros c ? <-.
  eapply mrel_bind; [now apply mrel_descriptor_path |]. intros pc ? [<- Hpc].
  eapply mrel_bind; [now apply mrel_load_json_other |]. intros cfg ? <-.
  eapply mrel_bind; [now apply mrel_lift_eq |]. intros a ? <-.
  now apply mrel_ret.
Qed.

Lemma mrel_select_manifest (s td : string) (architecture new_index_json : json)
    (manifests : list json) :
  apart index s ->
  mrel index eq
       (select_manifest s td architecture new_index_json manifests)
       (select_manifest s td architecture new_index_json manifests).
Proof.
  intros Hs. induction manifests as [|m rest IH]; cbn [select_manifest].
  - now apply mrel_ret.
  - eapply mrel_bind; [now apply mrel_lift_eq |]. intros a ? <-.
    destruct (py_eq a architecture); [| exact IH].
    eapply mrel_bind; [now apply mrel_descriptor_path |]. intros p ? [<- Hp].
    eapply mrel_bind; [now apply mrel_lift_eq |]. intros q ? <-.
    eapply mrel_bind; [now apply mrel_copyfile |]. intros _ _ _.
    now apply mrel_lift_eq.
Qed.

Lemma mrel_make_single_arch_copy (s td : string) :
  apart index s -> apart index td -> (td // "index.json")%py <> index ->
  mrel index eq (make_single_arch_copy s td) (make_single_arch_copy s td).
Proof.
  intros Hs Htd Hi. unfold make_single_arch_copy.
  eapply mrel_bind; [now apply mrel_check_call |]. intros _ _ _.
  eapply mrel_bind; [now apply mrel_read_documents |].
  intros [[ii ni] a] ? <-.
  eapply mrel_bind; [now apply mrel_lift_eq |]. intros ms ? <-.
  eapply mrel_bind; [now apply mrel_select_manifest |]. intros ni' ? <-.
  apply mrel_write_file.
Qed.

Lemma mrel_install (repodir : string) (depth : nat) :
  forall s, apart index s ->
       mrel index eq (_install_from_path depth repodir s)
            (_install_from_path depth repodir s).
Proof.
  induction depth as [|depth IH]; intros s Hs; cbn [_install_from_path].
  - apply mrel_raise.
  - eapply mrel_bind; [now apply mrel_read_manifest |]. intros m ? <-.
    eapply mrel_bind; [now apply mrel_lift_eq |]. intros t ? <-.
    destruct (py_eq t (JStr index_media_type)).
    + apply (mrel_with_tempdir index tempdirs eq
               (fun td => startswith "/" td = true)); [exact absolute |].
      intros td Htd.
      eapply mrel_bind.
      * apply mrel_make_single_arch_copy;
          [assumption | now apply apart_absolute |].
        intros E. change (td // "index.json")%py with (join2 td "index.json") in E.
        pose proof (join2_absolute td "index.json" Htd) as A.
        rewrite E in A. congruence.
      * intros _ _ _. apply IH. now apply apart_absolute.
    + now apply mrel_install_single_arch.
Qed.

End InstallEntries.

(** *** The composer *)

Section ComposerEntries.
Context {env : Environment}.
Variable index : string.

Lemma mrel_load_json_blob (dir : string) (d : json) :
  mrel index alike (load_json_blob dir d) (load_json_blob dir d).
Proof.
  unfold load_json_blob.
  eapply mrel_bind; [now apply mrel_lift_eq |]. intros p ? <-.
  apply mrel_load_json.
Qed.

Lemma mrel_output_descriptor_of (dir : string) :
  mrel index eq (output_descriptor_of dir) (output_descriptor_of dir).
Proof.
  unfold output_descriptor_of, input_manifest_descriptor, input_config.
  eapply mrel_bind.
  { eapply mrel_bind; [apply mrel_load_json |]. intros j1 j2 Hj.
    apply mrel_lift_eq, alike_first_manifest, Hj. }
  intros d ? <-.
  eapply mrel_bind.
  { eapply mrel_bind; [apply mrel_load_json_blob |]. intros m1 m2 Hm.
    eapply mrel_bind; [apply mrel_lift_eq, alike_getitem; [exact Hm | easy] |].
    intros c ? <-. apply mrel_load_json_blob. }
  intros c1 c2 Hc. apply mrel_lift_eq. unfold with_platform.
  now rewrite (alike_getitem _ _ "os" Hc), (alike_getitem _ _ "architecture" Hc).
Qed.

Lemma mrel_add_images (blobs_dir : string) (images : list (string * string)) :
  (forall image, In image images ->
     fst (split_last index) <> Some (image.2 // "blobs/sha256")%py) ->
  forall manifests,
    mrel index eq (add_images blobs_dir images manifests)
         (add_images blobs_dir images manifests).
Proof.
  induction images as [|[name dir] rest IH]; intros Hi manifests;
    cbn [add_images].
  - now apply mrel_ret.
  - eapply mrel_bind; [apply mrel_iterdir |]. intros blobs ? [<- Hb].
    eapply mrel_bind.
    { apply mrel_for_each. eapply Forall_impl; [exact Hb |].
      intros blob Hblob. apply mrel_copyfile. intros ->.
      now apply (Hi (name, dir)); [left |]. }
    intros _ _ _.
    eapply mrel_bind; [apply mrel_output_descriptor_of |]. intros d ? <-.
    apply IH. intros image Him. apply Hi. now right.
Qed.

Lemma mrel_make_multiarch_image (output_dir : string)
    (images : list (string * string)) :
  (forall image, In image images ->
     fst (split_last index) <> Some (image.2 // "blobs/sha256")%py) ->
  mrel index eq (make_multiarch_image output_dir images)
       (make_multiarch_image output_dir images).
Proof.
  intros Hi. unfold make_multiarch_image, prepare_output, write_index.
  eapply mrel_bind.
  { eapply mrel_bind; [apply mrel_path_exists |]. intros e ? <-.
    eapply mrel_bind.
    { destruct e; [apply mrel_rmtree | now apply mrel_ret]. }
    intros _ _ _.
    eapply mrel_bind; [apply mrel_mkdir_parents |]. intros _ _ _.
    apply mrel_write_file. }
  intros _ _ _.
  eapply mrel_bind; [now apply mrel_add_images |]. intros ms ? <-.
  cbv zeta.
  eapply mrel_bind; [apply mrel_write_file |]. intros _ _ _.
  apply mrel_write_file.
Qed.

End ComposerEntries.

(** *** The reference tools and the entries of an index *)

Lemma sbi_index_rewritten `{env : Environment} (index : string)
    (f : gmap string node) (c1 c2 : string) (j1 j2 : json) :
  f !! index = Some (File c2) ->
  json_loads c1 = Some j1 -> json_loads c2 = Some j2 -> truncated j1 j2 ->
  same_but_index index (<[index := File c1]> f) f.
Proof.
  intros Hf L1 L2 T p. destruct (decide (p = index)) as [-> | N].
  - right. split; [reflexivity |]. exists c1, c2, j1, j2.
    now rewrite lookup_insert_eq.
  - left. now rewrite lookup_insert_ne.
Qed.

Lemma fresh_absolute (n : nat) (i : Z) (f : gmap string node) :
  startswith "/" (Tools.fresh n i f) = true.
Proof.
  revert i. induction n as [|n IH]; intros i; cbn [Tools.fresh]; [reflexivity |].
  destruct (bool_decide _); [apply IH | reflexivity].
Qed.

Lemma fresh_ignores_entries `{env : Environment} (index : string)
    (f1 f2 : gmap string node) (n : nat) (i : Z) :
  same_but_index index f1 f2 -> Tools.fresh n i f1 = Tools.fresh n i f2.
Proof.
  intros H. revert i. induction n as [|n IH]; intros i; cbn [Tools.fresh];
    [reflexivity |].
  rewrite (sbi_is_Some index _ _ _ H). now rewrite IH.
Qed.

Lemma size_ignores_entries `{env : Environment} (index : string)
    (f1 f2 : gmap string node) :
  same_but_index index f1 f2 -> size f1 = size f2.
Proof.
  intros H. rewrite <- !size_dom. now rewrite (sbi_dom index _ _ H).
Qed.

(** C10, amended: what the scripts themselves read of a layout's
    [index.json] is its first entry. Take two worlds that differ at most in
    one file [index], which holds an index document with one entry or more
    in the first world and the same document cut down to its first entry in
    the second. The composer ends with the same result in both, and in
    worlds that again differ in [index] at most, provided [index] is not
    itself one of the blobs of an input. The projection and the install path
    do so for the layout of [index], when its path is relative and temporary
    directories are absolute, provided the external tools, which are handed
    the whole layout, do not tell the two worlds apart. *)
Theorem scripts_read_first_entry_only `{env : Environment} (index : string)
    (w1 w2 : world) :
  same_but_entries index w1 w2 ->
  (forall (output_dir : string) (images : list (string * string)),
     (forall image, In image images ->
        fst (split_last index) <> Some (image.2 // "blobs/sha256")%py) ->
     (make_multiarch_image output_dir images w1).2
     = (make_multiarch_image output_dir images w2).2 /\
     same_but_entries index (make_multiarch_image output_dir images w1).1
                      (make_multiarch_image output_dir images w2).1) /\
  (forall source_path dest_path : string,
     index = (source_path // "index.json")%py ->
     startswith "/" source_path = false ->
     startswith "/" dest_path = true ->
     tools_ignore_entries index ->
     (make_single_arch_copy source_path dest_path w1).2
     = (make_single_arch_copy source_path dest_path w2).2 /\
     same_but_entries index (make_single_arch_copy source_path dest_path w1).1
                      (make_single_arch_copy source_path dest_path w2).1) /\
  (forall (depth : nat) (repodir source_path : string),
     index = os_path_join source_path ["index.json"] ->
     startswith "/" source_path = false ->
     (forall f, startswith "/" (mkdtemp f) = true) ->
     tools_ignore_entries index ->
     tempdirs_ignore_entries index ->
     (_install_from_path depth repodir source_path w1).2
     = (_install_from_path depth repodir source_path w2).2 /\
     same_but_entries index (_install_from_path depth repodir source_path w1).1
                      (_install_from_path depth repodir source_path w2).1).
Proof.
  intros Hs. split; [| split].
  - intros output_dir images Hi.
    destruct (mrel_make_multiarch_image index output_dir images Hi w1 w2 Hs)
      as [Hw Hr].
    split; [now apply rrel_eq_inv | exact Hw].
  - intros s td -> Hrel Habs Ht.
    assert (R : startswith "/" (join2 s "index.json") = false)
      by now apply join2_stays_relative.
    destruct (mrel_make_single_arch_copy (join2 s "index.json") Ht s td)
      with (w1 := w1) (w2 := w2) as [Hw Hr].
    + intros d p. now apply descriptor_path_not_index.
    + intros d p H E. apply (descriptor_path_absolute _ _ _ Habs) in H.
      congruence.
    + intros E. change (td // "index.json")%py with (join2 td "index.json") in E.
      pose proof (join2_absolute td "index.json" Habs) as A.
      rewrite E in A. congruence.
    + exact Hs.
    + split; [now apply rrel_eq_inv | exact Hw].
  - intros depth repodir s -> Hrel Habs Ht Htd.
    assert (R : startswith "/" (join2 s "index.json") = false)
      by now apply join2_stays_relative.
    destruct (mrel_install (join2 s "index.json") R Ht Htd Habs repodir depth s)
      with (w1 := w1) (w2 := w2) as [Hw Hr].
    + intros d p. now apply descriptor_path_not_index.
    + exact Hs.
    + split; [now apply rrel_eq_inv | exact Hw].
Qed.

Lemma scripts_read_first_entry_only_witness :
  let env := Tools.idle in
  let images := [("x86_64", "in/x86_64"); ("aarch64", "in/aarch64")] in
  let two := Fixtures.index_doc [Fixtures.manifest_descriptor Fixtures.x86_64;
                                 Fixtures.manifest_descriptor Fixtures.aarch64] in
  let w2 := World Fixtures.inputs [] in
  let w1 := World (<["in/x86_64/index.json" := File (json_dumps two)]>
                     Fixtures.inputs) [] in
  (make_multiarch_image "multi" images w1).2
  = (make_multiarch_image "multi" images w2).2 /\
  (make_single_arch_copy "in/x86_64" "/tmp/dst" w1).2
  = (make_single_arch_copy "in/x86_64" "/tmp/dst" w2).2 /\
  (_install_from_path 2 "repo" "in/x86_64" w1).2
  = (_install_from_path 2 "repo" "in/x86_64" w2).2.
Proof.
  intros env images two w2 w1.
  assert (Hs : same_but_entries "in/x86_64/index.json" w1 w2).
  { split; [reflexivity |].
    apply (sbi_index_rewritten (env := env) _ _ _
             (json_dumps (Fixtures.index_doc
                [Fixtures.manifest_descriptor Fixtures.x86_64]))
             two
             (Fixtures.index_doc [Fixtures.manifest_descriptor Fixtures.x86_64])).
    - vm_refl.
    - vm_refl.
    - vm_refl.
    - exists [("schemaVersion", JNum 2);
              ("manifests", JArr [Fixtures.manifest_descriptor Fixtures.x86_64;
                                  Fixtures.manifest_descriptor Fixtures.aarch64])],
             (Fixtures.manifest_descriptor Fixtures.x86_64),
             [Fixtures.manifest_descriptor Fixtures.aarch64].
      split; [reflexivity |]. split; reflexivity. }
  assert (Ht : tools_ignore_entries (env := env) "in/x86_64/index.json").
  { intros argv f1 f2 H. split; [exact H | reflexivity]. }
  destruct (scripts_read_first_entry_only (env := env) _ w1 w2 Hs)
    as (A & B & C).
  split; [| split].
  - apply A. intros image [<- | [<- | []]]; vm_compute; discriminate.
  - apply B; [reflexivity | reflexivity | reflexivity | exact Ht].
  - apply C; [reflexivity | reflexivity | | exact Ht |].
    + intros f. apply fresh_absolute.
    + intros f1 f2 H. cbn [mkdtemp env Tools.idle].
      rewrite (size_ignores_entries _ _ _ H).
      now apply (fresh_ignores_entries (env := env) "in/x86_64/index.json").
Defined.

(** C10, as stated, fails on the install path: the script hands the
    whole layout to the transport tool, and [skopeo copy] from an [oci:]
    layout with no image named refuses an [index.json] with more than one
    entry. A layout whose index lists its image index twice is not
    installed; the same layout with the second entry removed is. *)
Lemma transport_tool_reads_every_entry :
  let env := Tools.environment "linux" "amd64" in
  let w1 := World Fixtures.doubled [] in
  let w2 := World Fixtures.composed [] in
  same_but_entries "multi/index.json" w1 w2 /\
  (_install_from_path 3 "repo" "multi" w1).2 = Raise CalledProcessError /\
  (_install_from_path 3 "repo" "multi" w2).2 = Ok tt /\
  (_install_from_path 3 "repo" "multi" w1).2
  <> (_install_from_path 3 "repo" "multi" w2).2.
Proof.
  intros env w1 w2.
  assert (E : ((_install_from_path 3 "repo" "multi" w1).2,
               (_install_from_path 3 "repo" "multi" w2).2)
              = (Raise CalledProcessError, Ok tt)) by vm_refl.
  apply pair_eq_inv in E as [E1 E2].
  split; [| split; [exact E1 | split; [exact E2 |]]].
  - split; [reflexivity |].
    pose (d := Fixtures.descriptor index_media_type Fixtures.composed_digest
                 (json_dumps (image_index_of Fixtures.composed_entries)) []).
    assert (D : Fixtures.doubled
                = <["multi/index.json" :=
                      File (json_dumps (Fixtures.index_doc [d; d]))]>
                    Fixtures.composed).
    { unfold Fixtures.doubled, Fixtures.composed, Fixtures.multi_arch,
        Fixtures.layout_of_index. cbv zeta.
      symmetry. apply insert_insert_eq. }
    cbn [fs w1 w2]. rewrite D.
    apply (sbi_index_rewritten (env := env) _ _ _
             (json_dumps (Fixtures.index_doc [d]))
             (Fixtures.index_doc [d; d]) (Fixtures.index_doc [d])).
    + vm_refl.
    + vm_refl.
    + vm_refl.
    + exists [("schemaVersion", JNum 2); ("manifests", JArr [d; d])], d, [d].
      split; [reflexivity |]. split; reflexivity.
  - rewrite E1, E2. discriminate.
Qed.
